(** * agentssh: the in-workspace SSH server of the agent

    A shallow embedding of [agent/agentssh/agentssh.go] and the
    properties of its session classifier, file-transfer guard, command
    builder, session handler, resource tracker and server lifecycle.

    - Go strings are byte strings ([string] of [ascii]), Go's [int] exit
      codes are [Z], and the Go maps that the tracker uses as sets are
      [gset]s. Errors are an inductive type with an explicit wrapping
      constructor, so that [xerrors.As] and [xerrors.Is] walk the chain as
      they do in Go.
    - What the handler does to the session, to the configuration callbacks
      and to processes is a trace of events; the handler is a computation
      in a monad of state and trace. What the world answers (the result of
      a [Write], of [cmd.Wait], of the X11 handler, ...) is read from an
      [Oracle]; the operating system, the file system and the libraries
      that the file calls, the Unicode tables of Go among them, are fields
      of a [Host].
    - Every critical section of the server's mutex is one atomic function
      on the server's state; a goroutine that waits on a channel is
      parked, and other goroutines take steps meanwhile.
    - Metrics, the fields of log entries and the session's random id are
      left out. *)

From Stdlib Require Import ZArith Ascii String List Lia Bool DecimalString.
From stdpp Require Import base option list gmap sets strings.

Local Open Scope Z_scope.

(** ** Go's [strings] package, on byte strings

    [ToLower] and [TrimSpace] work on the bytes as long as these are ASCII
    and hand the string over to the Unicode tables of the library at the
    first byte that is not: what the tables answer is a [Unicode]. *)
Module GoStrings.

Record Unicode : Type := mkUnicode {
  MapToLower : string -> string;       (* strings.Map(unicode.ToLower, s) *)
  TrimFuncIsSpace : string -> string;  (* strings.TrimFunc(s, unicode.IsSpace) *)
  TrimRightFuncIsSpace : string -> string;
                                  (* strings.TrimRightFunc(s, unicode.IsSpace) *)
}.

Definition RuneSelf : N := 128.

Definition isASCII (c : ascii) : bool := (N_of_ascii c <? RuneSelf)%N.

Fixpoint allASCII (s : string) : bool :=
  match s with
  | EmptyString => true
  | String c s' => isASCII c && allASCII s'
  end.

Definition HasPrefix (s prefix : string) : bool := String.prefix prefix s.

Fixpoint drop (n : nat) (s : string) : string :=
  match n, s with
  | O, _ => s
  | S _, EmptyString => EmptyString
  | S n', String _ s' => drop n' s'
  end.

Definition TrimPrefix (s prefix : string) : string :=
  if HasPrefix s prefix then drop (String.length prefix) s else s.

Definition lower (c : ascii) : ascii :=
  let n := N_of_ascii c in
  if ((65 <=? n) && (n <=? 90))%N then ascii_of_N (n + 32) else c.

Fixpoint lowerASCII (s : string) : string :=
  match s with
  | EmptyString => EmptyString
  | String c s' => String (lower c) (lowerASCII s')
  end.

(** A string of ASCII bytes has its letters [A-Z] folded; any other
    string is mapped rune by rune. *)
Definition ToLower (u : Unicode) (s : string) : string :=
  if allASCII s then lowerASCII s else MapToLower u s.

(** One loop of [TrimSpace] over the bytes of [s]: the ASCII blanks (tab,
    line feed, vertical tab, form feed, carriage return, space) are
    skipped. [inr] is what is left at the first other ASCII byte, [inl]
    what is left at a byte outside ASCII, should that come first. *)
Fixpoint trimASCII (s : string) : string + string :=
  match s with
  | EmptyString => inr EmptyString
  | String c s' =>
      if negb (isASCII c) then inl s
      else if Ascii.is_space c then trimASCII s'
      else inr s
  end.

(** The loop from the start, then the loop from the end (here: from the
    start of the reversed string). *)
Definition TrimSpace (u : Unicode) (s : string) : string :=
  match trimASCII s with
  | inl rest => TrimFuncIsSpace u rest
  | inr rest =>
      match trimASCII (String.rev rest) with
      | inl r => TrimRightFuncIsSpace u (String.rev r)
      | inr r => String.rev r
      end
  end.

(** [strings.SplitN(s, sep, 2)[0]] for a one-byte separator: the part of
    [s] before the first [sep], all of [s] when there is none. *)
Fixpoint beforeFirst (sep : ascii) (s : string) : string :=
  match s with
  | EmptyString => EmptyString
  | String c s' => if Ascii.eqb c sep then EmptyString
                   else String c (beforeFirst sep s')
  end.

(** The part after the first [sep], when there is one. *)
Fixpoint afterFirst (sep : ascii) (s : string) : option string :=
  match s with
  | EmptyString => None
  | String c s' => if Ascii.eqb c sep then Some s' else afterFirst sep s'
  end.

End GoStrings.

(** ** [slices.DeleteFunc]: the elements for which [del] is false, in order. *)
Module slices.
Definition DeleteFunc {A} (s : list A) (del : A -> bool) : list A :=
  List.filter (fun x => negb (del x)) s.
End slices.

(** ** Constants *)

Definition MagicSessionErrorCode : Z := 229.
Definition BlockedFileTransferErrorCode : Z := 65.
Definition BlockedFileTransferErrorMessage : string :=
  "File transfer has been disabled.".

Definition MagicSessionTypeEnvironmentVariable : string :=
  "CODER_SSH_SESSION_TYPE".
Definition ContainerEnvironmentVariable : string := "CODER_CONTAINER".
Definition ContainerUserEnvironmentVariable : string := "CODER_CONTAINER_USER".

Inductive MagicSessionType : Type :=
| MagicSessionTypeUnknown
| MagicSessionTypeSSH
| MagicSessionTypeVSCode
| MagicSessionTypeJetBrains.

Global Instance MagicSessionType_eq_dec : EqDecision MagicSessionType.
Proof. solve_decision. Defined.

Definition BlockedFileTransferCommands : list string :=
  ["nc"; "rsync"; "scp"; "sftp"].

(** ** The session classifier *)

(** The [switch] of [extractMagicSessionType] on the lower-cased raw type. *)
Definition magicTypeOfRaw (u : GoStrings.Unicode) (rawType : string)
  : MagicSessionType :=
  let lowered := GoStrings.ToLower u rawType in
  if String.eqb lowered "vscode" then MagicSessionTypeVSCode
  else if String.eqb lowered "jetbrains" then MagicSessionTypeJetBrains
  else if String.eqb lowered "" || String.eqb lowered "ssh"
       then MagicSessionTypeSSH
  else MagicSessionTypeUnknown.

(** One iteration of the scanning loop: the entry is skipped unless it has
    the variable's NAME as a prefix (no ["="] in this test), and otherwise
    the prefix [NAME=] is trimmed from it. *)
Definition magicScanStep (rawType kv : string) : string :=
  if negb (GoStrings.HasPrefix kv MagicSessionTypeEnvironmentVariable)
  then rawType
  else GoStrings.TrimPrefix kv (MagicSessionTypeEnvironmentVariable +:+ "=").

Definition extractMagicSessionType (u : GoStrings.Unicode) (env : list string)
  : MagicSessionType * string * list string :=
  let rawType := fold_left magicScanStep env "" in
  (magicTypeOfRaw u rawType, rawType,
   slices.DeleteFunc env (fun kv =>
     GoStrings.HasPrefix kv (MagicSessionTypeEnvironmentVariable +:+ "="))).

(** One iteration of the loop of [extractContainerInfo]. *)
Definition containerScanStep (acc : string * string) (kv : string)
  : string * string :=
  let '(container, containerUser) := acc in
  let container :=
    if GoStrings.HasPrefix kv (ContainerEnvironmentVariable +:+ "=")
    then GoStrings.TrimPrefix kv (ContainerEnvironmentVariable +:+ "=")
    else container in
  let containerUser :=
    if GoStrings.HasPrefix kv (ContainerUserEnvironmentVariable +:+ "=")
    then GoStrings.TrimPrefix kv (ContainerUserEnvironmentVariable +:+ "=")
    else containerUser in
  (container, containerUser).

Definition extractContainerInfo (env : list string)
  : string * string * list string :=
  let '(container, containerUser) := fold_left containerScanStep env ("", "") in
  (container, containerUser,
   slices.DeleteFunc env (fun kv =>
     GoStrings.HasPrefix kv (ContainerEnvironmentVariable +:+ "=")
     || GoStrings.HasPrefix kv (ContainerUserEnvironmentVariable +:+ "="))).

(** ** Errors

    Go errors form chains: [xerrors.Errorf("msg: %w", err)] wraps [err].
    [xerrors.As] and [xerrors.Is] walk the chain from the outside in. *)

Inductive error : Type :=
| ExitError (code : Z) (desc : string)   (* *exec.ExitError *)
| ErrNotExist                            (* os.ErrNotExist *)
| EOF                                    (* io.EOF *)
| ErrorString (msg : string)             (* any other leaf error *)
| Wrapped (msg : string) (inner : error).

Inductive result (A : Type) : Type :=
| Ok (a : A)
| Err (e : error).
Arguments Ok {A} a.
Arguments Err {A} e.

(** What a call that may also hit a run-time panic ends in. *)
Inductive outcome (A : Type) : Type :=
| Returns (a : A)
| Fails (e : error)
| Panics (msg : string).
Arguments Returns {A} a.
Arguments Fails {A} e.
Arguments Panics {A} msg.

(** [xerrors.As(err, &exitError)] followed by [exitError.ExitCode()]. *)
Fixpoint asExitError (e : error) : option Z :=
  match e with
  | ExitError c _ => Some c
  | Wrapped _ inner => asExitError inner
  | _ => None
  end.

Fixpoint isNotExist (e : error) : bool :=
  match e with
  | ErrNotExist => true
  | Wrapped _ inner => isNotExist inner
  | _ => false
  end.

Fixpoint isEOF (e : error) : bool :=
  match e with
  | EOF => true
  | Wrapped _ inner => isEOF inner
  | _ => false
  end.

(** [err.Error()]. *)
Fixpoint Error (e : error) : string :=
  match e with
  | ExitError _ desc => desc
  | ErrNotExist => "file does not exist"
  | EOF => "EOF"
  | ErrorString msg => msg
  | Wrapped msg inner => msg +:+ ": " +:+ Error inner
  end.

(** [xerrors.Errorf(msg + ": %w", err)] where [err] may be nil. *)
Definition Errorf (msg : string) (err : option error) : error :=
  match err with
  | Some e => Wrapped msg e
  | None => ErrorString (msg +:+ ": %!w(<nil>)")
  end.

(** [%d] of [fmt.Sprintf]. *)
Definition itoa (z : Z) : string :=
  DecimalString.NilZero.string_of_int (Z.to_int z).

Definition nl : string := String (ascii_of_nat 10) EmptyString.
Definition cr : string := String (ascii_of_nat 13) EmptyString.

(** ** [filepath.Base], for the slash-separated paths of Unix

    Trailing separators are dropped, then everything up to the last
    separator; the empty path gives ["."], a path of separators ["/"]. *)
Module filepath.

Definition IsPathSeparator (c : ascii) : bool := Ascii.eqb c "/"%char.

Fixpoint dropSeparators (s : string) : string :=
  match s with
  | EmptyString => EmptyString
  | String c s' => if IsPathSeparator c then dropSeparators s' else s
  end.

(** The longest prefix without a separator. *)
Fixpoint upToSeparator (s : string) : string :=
  match s with
  | EmptyString => EmptyString
  | String c s' => if IsPathSeparator c then EmptyString
                   else String c (upToSeparator s')
  end.

Definition Base (path : string) : string :=
  if String.eqb path "" then "."
  else
    let stripped := String.rev (dropSeparators (String.rev path)) in
    let last := String.rev (upToSeparator (String.rev stripped)) in
    if String.eqb last "" then "/" else last.

End filepath.


(** ** Commands, the user's environment and the host

    What the file takes from its collaborators is gathered in [EnvInfoer]
    (the interface [usershell.EnvInfoer]) and [Host] (operating system, file
    system, the shell-word splitter of go-shellquote and the [Execer]). *)

(** [exec.Cmd.Cancel]: [exec.CommandContext] installs a hook that kills the
    process; [nil] means that the end of the context is not acted upon. *)
Inductive CancelHook : Type := CancelKill.

Record Cmd : Type := mkCmd {
  Path : string;
  Args : list string;        (* argv, [Path] first *)
  Env : list string;
  Dir : string;
  Cancel : option CancelHook;
}.

Definition withEnv (env : list string) (c : Cmd) : Cmd :=
  mkCmd (Path c) (Args c) env (Dir c) (Cancel c).
Definition withDir (dir : string) (c : Cmd) : Cmd :=
  mkCmd (Path c) (Args c) (Env c) dir (Cancel c).
Definition withCancel (h : option CancelHook) (c : Cmd) : Cmd :=
  mkCmd (Path c) (Args c) (Env c) (Dir c) h.

(** [pty.CommandContext(ctx, name, args...)], what the default [Execer]
    returns. *)
Definition CommandContext (name : string) (args : list string) : Cmd :=
  mkCmd name (name :: args) [] "" (Some CancelKill).

Record EnvInfoer : Type := mkEnvInfoer {
  User : result string;                       (* the user's Username *)
  Shell : string -> result string;
  HomeDir : result string;
  Environ : list string;
  ModifyCommand : string -> list string -> string * list string;
}.

(** A file opened for reading: its bytes, and the error (if any) that the
    read after the last byte returns in place of [io.EOF]. *)
Record Reader : Type := mkReader {
  content : string;
  readErr : option error;
}.

Record Host : Type := mkHost {
  GOOS : string;                                   (* runtime.GOOS *)
  SystemEnvInfo : EnvInfoer;                       (* usershell.SystemEnvInfo *)
  osStat : string -> option error;                 (* os.Stat, its error *)
  userHomeDir : result string;
  shellquoteSplit : string -> result (list string);
  PTYCommandContext : string -> list string -> Cmd;   (* s.Execer *)
  fsStat : string -> option error;                 (* s.fs.Stat, its error *)
  fsOpen : string -> result Reader;                (* s.fs.Open *)
  filepathJoin : string -> string -> string;
  unicode : GoStrings.Unicode;
}.

Record BannerConfig : Type := mkBanner {
  Enabled : bool;
  Message : string;
}.

(** [Config], with the configuration callbacks at the values they return
    during the session. [ReportConnection] is an event of the trace. *)
Record Config : Type := mkConfig {
  MOTDFile : string;
  AnnouncementBanners : option (list BannerConfig);   (* may be nil *)
  UpdateEnv : list string -> result (list string);
  WorkingDirectory : string;
  BlockFileTransfer : bool;
  ExperimentalContainers : bool;
}.

(** ** Sessions, as the SSH library hands them to the handler *)

Definition Listener := positive.
Definition Conn := positive.
Definition SessionID := positive.
Definition Process := positive.
Definition Chan := nat.

Record Pty : Type := mkPty { Term : string }.
Record X11 : Type := mkX11 { ScreenNumber : Z }.

Module ssh.
Record Session : Type := mkSession {
  ID : SessionID;                (* the identity of the session object *)
  Environ : list string;
  RawCommand : string;
  Command : list string;         (* RawCommand, split by the library *)
  Subsystem : string;
  PtyReq : option Pty;           (* session.Pty() *)
  X11Req : option X11;           (* session.X11() *)
  AgentRequested : bool;
  RemoteAddr : string;
}.
End ssh.

(** [sessionCloseTracker]: [exitOnce] has fired or not, and the stored
    code (the zero value until then). *)
Record sessionCloseTracker : Type := mkTracker {
  exitOnce : bool;
  code : Z;
}.

Definition newTracker : sessionCloseTracker := mkTracker false 0.

Definition track (c : Z) (t : sessionCloseTracker) : sessionCloseTracker :=
  if exitOnce t then t else mkTracker true c.

Definition exitCode (t : sessionCloseTracker) : Z := code t.

(** ** The server and its resource tracker *)

Record Server : Type := mkServer {
  listeners : gset Listener;
  conns : gset Conn;
  sessions : gset SessionID;
  processes : gset Process;
  closing : option Chan;         (* nil, or the channel made by Close *)
  wg : Z;                        (* the counter of the WaitGroup *)
  hostSigners : nat;             (* len(s.srv.HostSigners) *)
  connCountVSCode : Z;
  connCountJetBrains : Z;
  connCountSSHSession : Z;
  (* ghost state: the channels made and closed so far *)
  nextChan : Chan;
  closedChans : gset Chan;
}.

Definition NewServer : Server :=
  mkServer ∅ ∅ ∅ ∅ None 0 0 0 0 0 O ∅.

Inductive LogLevel : Type := Debug | Info | Warn | LogError.

(** What the handler and the server do to the world around them. *)
Inductive event : Type :=
| EvReportConnection (magicType : MagicSessionType) (ip : string)
| EvDisconnected (code : Z) (reason : string)
| EvWrite (p : string) (err : option error)   (* session.Write(p) *)
| EvExit (code : Z)                           (* session.Exit(code) *)
| EvClose                                     (* session.Close() *)
| EvDisablePTYEmulation
| EvStart (cmd : Cmd) (pty : bool) (err : option error)
| EvProcessSignal (p : Process) (sig : string)   (* handleSignal *)
| EvCmdCancel (p : Process)                      (* cmdCancel(logger, p) *)
| EvLog (level : LogLevel) (msg : string)
| EvListenerClose (l : Listener)
| EvSessionClose (ss : SessionID)
| EvConnClose (c : Conn)
| EvSrvClose
| EvX11Close
| EvPanic (msg : string).

(** *** Field updates of [Server] *)

Definition withListeners (x : gset Listener) (s : Server) : Server :=
  mkServer x (conns s) (sessions s) (processes s) (closing s) (wg s)
    (hostSigners s) (connCountVSCode s) (connCountJetBrains s)
    (connCountSSHSession s) (nextChan s) (closedChans s).
Definition withConns (x : gset Conn) (s : Server) : Server :=
  mkServer (listeners s) x (sessions s) (processes s) (closing s) (wg s)
    (hostSigners s) (connCountVSCode s) (connCountJetBrains s)
    (connCountSSHSession s) (nextChan s) (closedChans s).
Definition withSessions (x : gset SessionID) (s : Server) : Server :=
  mkServer (listeners s) (conns s) x (processes s) (closing s) (wg s)
    (hostSigners s) (connCountVSCode s) (connCountJetBrains s)
    (connCountSSHSession s) (nextChan s) (closedChans s).
Definition withProcesses (x : gset Process) (s : Server) : Server :=
  mkServer (listeners s) (conns s) (sessions s) x (closing s) (wg s)
    (hostSigners s) (connCountVSCode s) (connCountJetBrains s)
    (connCountSSHSession s) (nextChan s) (closedChans s).
Definition withWg (x : Z) (s : Server) : Server :=
  mkServer (listeners s) (conns s) (sessions s) (processes s) (closing s) x
    (hostSigners s) (connCountVSCode s) (connCountJetBrains s)
    (connCountSSHSession s) (nextChan s) (closedChans s).
Definition withHostSigners (x : nat) (s : Server) : Server :=
  mkServer (listeners s) (conns s) (sessions s) (processes s) (closing s)
    (wg s) x (connCountVSCode s) (connCountJetBrains s)
    (connCountSSHSession s) (nextChan s) (closedChans s).
Definition addVSCode (d : Z) (s : Server) : Server :=
  mkServer (listeners s) (conns s) (sessions s) (processes s) (closing s)
    (wg s) (hostSigners s) (connCountVSCode s + d) (connCountJetBrains s)
    (connCountSSHSession s) (nextChan s) (closedChans s).
Definition addSSHSession (d : Z) (s : Server) : Server :=
  mkServer (listeners s) (conns s) (sessions s) (processes s) (closing s)
    (wg s) (hostSigners s) (connCountVSCode s) (connCountJetBrains s)
    (connCountSSHSession s + d) (nextChan s) (closedChans s).

(** [s.closing = make(chan struct{})]: a channel that no one has seen. *)
Definition makeClosing (s : Server) : Server :=
  mkServer (listeners s) (conns s) (sessions s) (processes s)
    (Some (nextChan s)) (wg s) (hostSigners s) (connCountVSCode s)
    (connCountJetBrains s) (connCountSSHSession s) (S (nextChan s))
    (closedChans s).

(** [close(s.closing); s.closing = nil], for the channel [c] in [closing]. *)
Definition clearClosing (c : Chan) (s : Server) : Server :=
  mkServer (listeners s) (conns s) (sessions s) (processes s) None (wg s)
    (hostSigners s) (connCountVSCode s) (connCountJetBrains s)
    (connCountSSHSession s) (nextChan s) ({[c]} ∪ closedChans s).

(** *** The tracker

    Each function is one critical section of [s.mu] and is taken as one
    atomic step. A goroutine that has to wait on the [closing] channel is
    [Parked] on it: it holds no lock and has changed nothing, and runs the
    same test again once the channel has been closed. *)

Inductive parked (A : Type) : Type :=
| Proceeds (a : A)
| Parked (on : Chan).
Arguments Proceeds {A} a.
Arguments Parked {A} on.

Definition trackListener (l : Listener) (add : bool) (s : Server)
  : parked Server :=
  if add then
    match closing s with
    | Some c => Parked c
    | None => Proceeds (withListeners ({[l]} ∪ listeners s) (withWg (wg s + 1) s))
    end
  else Proceeds (withListeners (listeners s ∖ {[l]}) (withWg (wg s - 1) s)).

Definition trackConn (l : Listener) (c : Conn) (add : bool) (s : Server)
  : bool * Server :=
  if add then
    let found := bool_decide (l ∈ listeners s) in
    if bool_decide (closing s ≠ None) || negb found then (false, s)
    else (true, withConns ({[c]} ∪ conns s) (withWg (wg s + 1) s))
  else (true, withConns (conns s ∖ {[c]}) (withWg (wg s - 1) s)).

Definition trackSession (ss : SessionID) (add : bool) (s : Server)
  : bool * Server :=
  if add then
    if bool_decide (closing s ≠ None) then (false, s)
    else (true, withSessions ({[ss]} ∪ sessions s) (withWg (wg s + 1) s))
  else (true, withSessions (sessions s ∖ {[ss]}) (withWg (wg s - 1) s)).

Definition trackProcess (p : Process) (add : bool) (s : Server)
  : bool * Server :=
  if add then
    if bool_decide (closing s ≠ None) then (false, s)
    else (true, withProcesses ({[p]} ∪ processes s) (withWg (wg s + 1) s))
  else (true, withProcesses (processes s ∖ {[p]}) (withWg (wg s - 1) s)).

(** *** [Close], in its three critical sections

    [Close_enter] is the first one (up to the first [s.mu.Unlock()]): a
    caller that finds [closing] set waits on that channel, any other
    caller becomes the closer. [srvCloseErr] is what [s.srv.Close()]
    returns. The Go maps are ranged over in some order; [elements] fixes
    one. *)

Inductive CloseEntry : Type :=
| CloseWaits (c : Chan)
| CloseRuns (s : Server) (tr : list event) (err : option error).

Definition Close_enter (srvCloseErr : option error) (s : Server) : CloseEntry :=
  match closing s with
  | Some c => CloseWaits c
  | None =>
      CloseRuns (makeClosing s)
        ([EvLog Debug "closing server";
          EvLog Debug "closing all active listeners"]
         ++ (EvListenerClose <$> elements (listeners s))
         ++ [EvLog Debug "closing all active sessions"]
         ++ (EvSessionClose <$> elements (sessions s))
         ++ [EvLog Debug "closing all active connections"]
         ++ (EvConnClose <$> elements (conns s))
         ++ (EvCmdCancel <$> elements (processes s))
         ++ [EvLog Debug "closing SSH server"; EvSrvClose])
        srvCloseErr
  end.

(** The caller that waits: [<-closing] returns once the channel is closed,
    and [Close] returns the error. *)
Definition Close_waiter (c : Chan) (s : Server) : parked error :=
  if bool_decide (c ∈ closedChans s)
  then Proceeds (ErrorString "server is closed")
  else Parked c.

(** The closer, with the lock released: the X11 forwarder is closed and
    [s.wg.Wait()] returns when the counter is zero. *)
Definition Close_x11 : list event :=
  [EvLog Debug "closing X11 forwarding"; EvX11Close;
   EvLog Debug "waiting for all goroutines to exit"].

Definition wgWait (s : Server) : bool := wg s =? 0.

(** The last critical section of the closer, which then returns [err]. *)
Definition Close_leave (s : Server) : outcome Server :=
  match closing s with
  | Some c => Returns (clearClosing c s)
  | None => Panics "close of nil channel"
  end.

(** [Close] on a server that no other goroutine touches meanwhile. *)
Definition Close (srvCloseErr : option error) (s : Server)
  : option (option error * Server * list event) :=
  match Close_enter srvCloseErr s with
  | CloseWaits _ => None       (* waits for a closer that never comes *)
  | CloseRuns s1 tr err =>
      if wgWait s1 then
        match Close_leave s1 with
        | Returns s2 =>
            Some (err, s2, tr ++ Close_x11 ++ [EvLog Debug "closing server done"])
        | _ => None
        end
      else None                (* waits for the counter *)
  end.

(** *** [Serve] and [UpdateHostSigner] *)

Inductive ServeEntry : Type :=
| ServeFails (e : error)
| ServeParked (c : Chan)
| Serving (s : Server).       (* the listener is tracked; Accept loop *)

Definition Serve_enter (l : Listener) (s : Server) : ServeEntry :=
  if (hostSigners s =? 0)%nat then ServeFails (ErrorString "no host keys set")
  else match trackListener l true s with
       | Parked c => ServeParked c
       | Proceeds s' => Serving s'
       end.

(** [Accept] has failed with [acceptErr]: the deferred calls, then the
    error is returned as it is. *)
Definition Serve_leave (l : Listener) (acceptErr : error) (s : Server)
  : error * parked Server * list event :=
  (acceptErr, trackListener l false s, [EvListenerClose l]).

(** [handleConn], up to the call of the library, and its deferred calls. *)
Definition handleConn_enter (l : Listener) (c : Conn) (s : Server)
  : bool * Server * list event :=
  let '(ok, s') := trackConn l c true s in
  if ok then (true, s', [EvLog Info "started serving ssh connection"])
  else (false, s', [EvLog Info "received connection after server closed";
                    EvConnClose c]).

Definition handleConn_leave (l : Listener) (c : Conn) (s : Server)
  : Server * list event :=
  (snd (trackConn l c false s), [EvConnClose c]).

(** All the keys are RSA keys from [CoderSigner], and a key of the same
    algorithm is replaced. *)
Definition UpdateHostSigner (s : Server) : Server :=
  withHostSigners (Nat.max 1 (hostSigners s)) s.

(** ** The command builder *)

Global Instance result_ret : MRet result := fun _ a => Ok a.
Global Instance result_bind : MBind result := fun _ _ f r =>
  match r with
  | Ok a => f a
  | Err e => Err e
  end.

Global Instance result_fmap : FMap result := fun _ _ f r =>
  match r with
  | Ok a => Ok (f a)
  | Err e => Err e
  end.

(** [r], with its error wrapped in [msg] ([xerrors.Errorf(msg + ": %w")]). *)
Definition wrapErr {A} (msg : string) (r : result A) : result A :=
  match r with
  | Ok a => Ok a
  | Err e => Err (Wrapped msg e)
  end.

Definition isWindows (host : Host) : bool := String.eqb (GOOS host) "windows".

Definition CommandEnv (host : Host) (cfg : Config) (ei : option EnvInfoer)
    (addEnv : list string) : result (string * string * list string) :=
  let ei := default (SystemEnvInfo host) ei in
  username ← wrapErr "get current user" (User ei);
  shell ← wrapErr "get user shell" (Shell ei username);
  let dir := WorkingDirectory cfg in
  let err := osStat host dir in
  dir ← (if String.eqb dir "" || bool_decide (err ≠ None)
         then wrapErr "get home dir" (HomeDir ei)
         else Ok dir);
  let env := Environ ei ++ addEnv in
  let env := env ++ ["USER=" +:+ username] in
  let env := env ++ ["LOGNAME=" +:+ username] in
  let env := env ++ ["SHELL=" +:+ shell] in
  env ← wrapErr "apply env" (UpdateEnv cfg env);
  Ok (shell, dir, env).

(** ["-c"], or ["/c"] on Windows. *)
Definition caller (host : Host) : string :=
  if isWindows host then "/c" else "-c".

(** The shebang line of a script, as [CreateCommand] cuts it out: the first
    line of the trimmed script, trimmed, without its ["#!"]. *)
Definition shebangOf (host : Host) (script : string) : string :=
  let shebang :=
    GoStrings.beforeFirst (ascii_of_nat 10)
      (GoStrings.TrimSpace (unicode host) script) in
  let shebang := GoStrings.TrimSpace (unicode host) shebang in
  GoStrings.TrimPrefix shebang "#!".

(** The name and the arguments that [CreateCommand] arrives at before the
    [ModifyCommand] hook. [words[0]] of an empty [words] is a run-time
    panic (index out of range). *)
Definition commandLine (host : Host) (shell script : string)
  : outcome (string * list string) :=
  let caller := caller host in
  let name := shell in
  let args := [caller; script] in
  let shebanged : outcome (string * list string) :=
    if GoStrings.HasPrefix (GoStrings.TrimSpace (unicode host) script) "#!" then
      match shellquoteSplit host (shebangOf host script) with
      | Err e => Fails (Wrapped "split shebang" e)
      | Ok words =>
          match words with
          | [] => Panics "index out of range [0] with length 0"
          | name :: rest =>
              let args := if (1 <? length words)%nat then rest else [] in
              Returns (name, args ++ [caller; script])
          end
      end
    else Returns (name, args) in
  match shebanged with
  | Returns (name, args) =>
      if (String.length script =? 0)%nat
      then Returns (name, [] ++ (if negb (isWindows host) then ["-l"] else []))
      else Returns (name, args)
  | other => other
  end.

Definition SSH_CLIENT : string := "SSH_CLIENT=0.0.0.0 0 0".
Definition SSH_CONNECTION : string := "SSH_CONNECTION=0.0.0.0 0 0.0.0.0 0".

(** [CreateCommand]. The debug log of a modified command is left out. *)
Definition CreateCommand (host : Host) (cfg : Config) (script : string)
    (env : list string) (ei : option EnvInfoer) : outcome Cmd :=
  let ei := default (SystemEnvInfo host) ei in
  match CommandEnv host cfg (Some ei) env with
  | Err e => Fails (Wrapped "prepare command env" e)
  | Ok (shell, dir, env) =>
      match commandLine host shell script with
      | Returns (name, args) =>
          let '(modifiedName, modifiedArgs) := ModifyCommand ei name args in
          let cmd := PTYCommandContext host modifiedName modifiedArgs in
          let cmd := withDir dir cmd in
          let cmd := withEnv env cmd in
          let cmd := withEnv (Env cmd ++ [SSH_CLIENT]) cmd in
          let cmd := withEnv (Env cmd ++ [SSH_CONNECTION]) cmd in
          Returns cmd
      | Fails e => Fails e
      | Panics msg => Panics msg
      end
  end.

(** ** The file-transfer guard *)

Definition fileTransferBlocked (cfg : Config) (session : ssh.Session) : bool :=
  if negb (BlockFileTransfer cfg) then false
  else if String.eqb (ssh.Subsystem session) "sftp" then true
  else
    match ssh.Command session with
    | [] => false
    | c :: _ =>
        let c := filepath.Base c in
        existsb (fun cmd => String.eqb cmd c) BlockedFileTransferCommands
    end.

(** ** The handler's monad

    A computation reads and updates the state of the handler's goroutine
    and appends to the trace of events. The state holds the server, the
    [sessionCloseTracker] once the session has been wrapped in one (the
    variable [scr]), the variable [reason] that [closeCause] assigns, and the
    number of [Write] calls made on the session so far. *)

Record St : Type := mkSt {
  server : Server;
  scr : option sessionCloseTracker;
  reason : string;
  written : nat;
}.

Definition M (A : Type) : Type := St -> A * St * list event.

Global Instance M_ret : MRet M := fun _ a st => (a, st, []).
Global Instance M_bind : MBind M := fun _ _ f m st =>
  let '(a, st1, t1) := m st in
  let '(b, st2, t2) := f a st1 in
  (b, st2, t1 ++ t2).

Global Instance M_fmap : FMap M := fun _ _ f m st =>
  let '(a, st1, t1) := m st in (f a, st1, t1).

Definition emit (e : event) : M unit := fun st => (tt, st, [e]).

Definition onServer {A} (f : Server -> A * Server) : M A := fun st =>
  let '(a, s') := f (server st) in
  (a, mkSt s' (scr st) (reason st) (written st), []).

Definition when (b : bool) (m : M unit) : M unit :=
  if b then m else mret tt.

(** What the outside world answers during one session. *)
Record Oracle : Type := mkOracle {
  writeErr : nat -> option error;       (* of the n-th Write on the session *)
  x11Handler : Z * bool;                (* display, handled *)
  containerEnvInfo : string -> string -> result EnvInfoer;
                        (* agentcontainers.EnvInfo, of container and user *)
  agentListener : result string;        (* ssh.NewAgentListener: its address *)
  sftpNewServer : option error;
  sftpServe : option error;
  stdinPipe : option error;             (* cmd.StdinPipe *)
  cmdStart : result Process;            (* cmd.Start *)
  cmdCancelErr : option error;          (* cmdCancel *)
  cmdOutput : list string;              (* what the process writes *)
  clientSignals : list string;          (* signals sent while it runs *)
  cmdWait : option error;               (* cmd.Wait *)
  ptyStart : result Process;            (* pty.Start *)
  ptyOutput : list string;              (* chunks read from the PTY *)
  ptyReadErr : option error;            (* error that ends the output copy *)
  processWait : option error;           (* process.Wait *)
  ptyClose : option error;              (* ptty.Close *)
}.

(** Where the handler takes an accepted session. *)
Inductive route : Type :=
| RouteBlocked                          (* the file-transfer guard *)
| RouteSFTP (err : option error)        (* sftpHandler and its result *)
| RouteSFTPContainer                    (* sftp into a container *)
| RouteUnsupported                      (* any other subsystem *)
| RouteX11Failed
| RouteExec (r : outcome unit).         (* sessionStart and its result *)

Section Session.

Context (host : Host) (cfg : Config) (oracle : Oracle).

(** *** The session, seen through the tracker when there is one *)

Definition sessionWrite (p : string) : M (option error) := fun st =>
  let err := writeErr oracle (written st) in
  (err, mkSt (server st) (scr st) (reason st) (S (written st)),
   [EvWrite p err]).

Definition sessionExit (c : Z) : M unit := fun st =>
  (tt, mkSt (server st) (track c <$> scr st) (reason st) (written st),
   [EvExit c]).

Definition sessionClose : M unit := fun st =>
  (tt, mkSt (server st) (track 1 <$> scr st) (reason st) (written st),
   [EvClose]).

(** [closeCause]: assigns [reason] when the session is reported, and
    does nothing otherwise. *)
Definition closeCause (r : string) : M unit := fun st =>
  (tt, mkSt (server st) (scr st)
         (if scr st is Some _ then r else reason st) (written st), []).

(** *** Banners and the message of the day *)

Definition MaxScanTokenSize : N := 65536.
Definition ErrTooLong : error := ErrorString "bufio.Scanner: token too long".

Definition dropCR (rline : string) : string :=
  match rline with
  | String c rest => if Ascii.eqb c (ascii_of_nat 13) then rest else rline
  | EmptyString => rline
  end.

(** The lines of [bufio.ScanLines] over [s]: [rcur] is the line read so
    far, last byte first, and [n] its length. *)
Fixpoint scanFrom (rcur : string) (n : N) (s : string)
  : list string * option error :=
  match s with
  | EmptyString =>
      if (n =? 0)%N then ([], None)
      else if (MaxScanTokenSize <=? n)%N then ([], Some ErrTooLong)
      else ([String.rev (dropCR rcur)], None)
  | String c s' =>
      if Ascii.eqb c (ascii_of_nat 10) then
        if (MaxScanTokenSize <=? n)%N then ([], Some ErrTooLong)
        else
          let '(ls, e) := scanFrom EmptyString 0%N s' in
          (String.rev (dropCR rcur) :: ls, e)
      else scanFrom (String c rcur) (N.succ n) s'
  end.

(** The tokens of a [bufio.Scanner] over [r], and [s.Err()]. *)
Definition scan (r : Reader) : list string * option error :=
  let '(ls, e) := scanFrom EmptyString 0%N (content r) in
  (ls, if e is Some _ then e else readErr r).

Fixpoint writeLines (ls : list string) : M (option error) :=
  match ls with
  | [] => mret None
  | l :: ls' =>
      err ← sessionWrite (l +:+ cr +:+ nl);
      match err with
      | Some e => mret (Some (Wrapped "write line" e))
      | None => writeLines ls'
      end
  end.

Definition writeWithCarriageReturn (src : Reader) : M (option error) :=
  let '(ls, e) := scan src in
  err ← writeLines ls;
  match err with
  | Some e' => mret (Some e')
  | None =>
      match e with
      | Some e' => mret (Some (Wrapped "read line" e'))
      | None => mret None
      end
  end.

Definition showAnnouncementBanner (banner : BannerConfig) : M (option error) :=
  if Enabled banner && negb (String.eqb (Message banner) "") then
    let message :=
      GoStrings.TrimSpace (unicode host) (Message banner) +:+ nl +:+ nl in
    writeWithCarriageReturn (mkReader message None)
  else mret None.

Definition showMOTD (filename : string) : M (option error) :=
  if String.eqb filename "" then mret None
  else
    match fsOpen host filename with
    | Err err =>
        if isNotExist err then mret None
        else mret (Some (Wrapped "open MOTD" err))
    | Ok f => writeWithCarriageReturn f
    end.

Definition isLoginShell (rawCommand : string) : bool :=
  (String.length rawCommand =? 0)%nat.

Definition isQuietLogin (rawCommand : string) : bool :=
  if negb (isLoginShell rawCommand) then true
  else
    match userHomeDir host with
    | Err _ => false
    | Ok homedir =>
        bool_decide (fsStat host (filepathJoin host homedir ".hushlogin") = None)
    end.

(** The loop over the banners: it stops at the first one that fails. *)
Fixpoint showBanners (banners : list BannerConfig) : M unit :=
  match banners with
  | [] => mret tt
  | banner :: rest =>
      err ← showAnnouncementBanner banner;
      match err with
      | Some _ =>
          emit (EvLog LogError "agent failed to show announcement banner")
      | None => showBanners rest
      end
  end.

(** *** The runners

    The goroutines of a runner are put in one order: the signals that the
    client sends are delivered first, then the output is copied. The copy
    of the client's input to the process, the changes of the window size
    and the listener of a forwarded agent leave no event. *)

Definition handleSignal (p : Process) (ssig : string) : M unit :=
  emit (EvLog Info "received signal from client");;
  emit (EvProcessSignal p ssig).

Fixpoint handleSignals (p : Process) (sigs : list string) : M unit :=
  match sigs with
  | [] => mret tt
  | sig :: rest => handleSignal p sig;; handleSignals p rest
  end.

(** [io.Copy] to the session: it stops at the first failed [Write]. *)
Fixpoint copyToSession (chunks : list string) : M (option error) :=
  match chunks with
  | [] => mret None
  | chunk :: rest =>
      err ← sessionWrite chunk;
      match err with
      | Some e => mret (Some e)
      | None => copyToSession rest
      end
  end.

(** [startNonPTYSession] up to the point where the process is tracked:
    the command (with [Cancel] set to nil) and its process, or the error
    that the runner returns. [cmd.SysProcAttr], a value of the platform,
    is not part of [Cmd]. *)
Definition startNonPTYSession_setup (cmd : Cmd) : M (error + Cmd * Process) :=
  let cmd := withCancel None cmd in
  match stdinPipe oracle with
  | Some err => mret (inl (Wrapped "create stdin pipe" err))
  | None =>
      match cmdStart oracle with
      | Err err =>
          emit (EvStart cmd false (Some err));;
          mret (inl (Wrapped "start" err))
      | Ok process =>
          emit (EvStart cmd false None);;
          ok ← onServer (trackProcess process true);
          if negb ok then
            (* must be closing *)
            emit (EvCmdCancel process);;
            mret (inl (Errorf "failed to track process" (cmdCancelErr oracle)))
          else mret (inr (cmd, process))
      end
  end.

(** The runner while its process runs: the signals of the client are
    passed on, the output goes to the session, and [cmd.Wait()] returns. *)
Definition startNonPTYSession_wait (process : Process) : M (option error) :=
  handleSignals process (clientSignals oracle);;
  copyToSession (cmdOutput oracle);;
  mret (cmdWait oracle).

(** The deferred [s.trackProcess(cmd.Process, false)]. *)
Definition startNonPTYSession_leave (process : Process) : M unit :=
  onServer (trackProcess process false);; mret tt.

Definition startNonPTYSession (cmd : Cmd) : M (option error) :=
  r ← startNonPTYSession_setup cmd;
  match r with
  | inl err => mret (Some err)
  | inr (cmd, process) =>
      err ← startNonPTYSession_wait process;
      startNonPTYSession_leave process;;
      mret err
  end.

(** What the end of the command's context does to a started command
    (os/exec): the [Cancel] hook is called when there is one. *)
Definition contextDone (cmd : Cmd) (process : Process) : M unit :=
  match Cancel cmd with
  | Some CancelKill => emit (EvProcessSignal process "KILL")
  | None => mret tt
  end.

Definition startPTYSession (session : ssh.Session) (cmd : Cmd) (sshPty : Pty)
  : M (option error) :=
  emit EvDisablePTYEmulation;;
  when (isLoginShell (ssh.RawCommand session))
    (match AnnouncementBanners cfg with
     | Some banners => showBanners banners
     | None => mret tt
     end);;
  when (negb (isQuietLogin (ssh.RawCommand session)))
    (err ← showMOTD (MOTDFile cfg);
     when (bool_decide (err ≠ None))
       (emit (EvLog LogError "agent failed to show MOTD")));;
  let cmd := withEnv (Env cmd ++ ["TERM=" +:+ Term sshPty]) cmd in
  match ptyStart oracle with
  | Err err =>
      emit (EvStart cmd true (Some err));;
      mret (Some (Wrapped "start command" err))
  | Ok process =>
      emit (EvStart cmd true None);;
      handleSignals process (clientSignals oracle);;
      retErr ← (err ← copyToSession (ptyOutput oracle);
                let err := if err is Some _ then err else ptyReadErr oracle in
                emit (EvLog Debug "copy output done");;
                match err with
                | Some e => mret (Some (Wrapped "copy error" e))
                | None =>
                    match processWait oracle with
                    | Some e =>
                        when (bool_decide (asExitError e = None))
                          (emit (EvLog Warn "process wait exited with error"));;
                        mret (Some (Wrapped "process wait" e))
                    | None => mret None
                    end
                end);
      (* the deferred call that closes the PTY *)
      match ptyClose oracle with
      | Some closeErr =>
          emit (EvLog Warn "failed to close tty");;
          mret (if retErr is None then Some closeErr else retErr)
      | None => mret retErr
      end
  end.

Definition sftpHandler : M (option error) :=
  emit EvDisablePTYEmulation;;
  when (if userHomeDir host is Err _ then true else false)
    (emit (EvLog Warn
       "get sftp working directory failed, unable to get home dir"));;
  match sftpNewServer oracle with
  | Some err =>
      emit (EvLog Debug "initialize sftp server");;
      mret (Some (Wrapped "initialize sftp server" err))
  | None =>
      r ← (let err := sftpServe oracle in
           if match err with None => true | Some e => isEOF e end then
             sessionExit 0;; mret None
           else
             emit (EvLog Warn "sftp server closed with error");;
             sessionExit 1;;
             mret (Wrapped "sftp server closed with error" <$> err));
      (* the deferred server.Close(), which closes the session *)
      sessionClose;;
      mret r
  end.

Definition sessionStart (session : ssh.Session) (env : list string)
    (container containerUser : string) : M (outcome unit) :=
  let ofErr (err : option error) : outcome unit :=
    match err with Some e => Fails e | None => Returns tt end in
  let ei : result (option EnvInfoer) :=
    if ExperimentalContainers cfg && negb (String.eqb container "")
    then Some <$> containerEnvInfo oracle container containerUser
    else Ok None in
  match ei with
  | Err err => mret (Fails err)
  | Ok ei =>
      match CreateCommand host cfg (ssh.RawCommand session) env ei with
      | Fails err => mret (Fails err)
      | Panics msg => mret (Panics msg)
      | Returns cmd =>
          let withAgent : result Cmd :=
            if ssh.AgentRequested session then
              match agentListener oracle with
              | Err err => Err (Wrapped "new agent listener" err)
              | Ok addr =>
                  Ok (withEnv (Env cmd ++ ["SSH_AUTH_SOCK=" +:+ addr]) cmd)
              end
            else Ok cmd in
          match withAgent with
          | Err err => mret (Fails err)
          | Ok cmd =>
              match ssh.PtyReq session with
              | Some sshPty => ofErr <$> startPTYSession session cmd sshPty
              | None => ofErr <$> startNonPTYSession cmd
              end
          end
      end
  end.

(** *** The session handler *)

Definition blockedMessage : string :=
  String (ascii_of_nat 2) BlockedFileTransferErrorMessage +:+ nl.

(** The handler from the file-transfer guard to its last statement. The
    result names the arm that was taken, for the statements below; the
    handler itself returns nothing. *)
Definition dispatch (session : ssh.Session) (env : list string) : M route :=
  if fileTransferBlocked cfg session then
    emit (EvLog Warn "file transfer blocked");;
    when (String.eqb (ssh.Subsystem session) "")
      (sessionWrite blockedMessage;; mret tt);;
    closeCause "file transfer blocked";;
    sessionExit BlockedFileTransferErrorCode;;
    mret RouteBlocked
  else
    let '(container, containerUser, env) := extractContainerInfo env in
    when (negb (String.eqb container "")) (emit (EvLog Debug "container info"));;
    let ss := ssh.Subsystem session in
    if String.eqb ss "" then
      env ← match ssh.X11Req session with
            | Some x11 =>
                let '(display, handled) := x11Handler oracle in
                if negb handled then
                  emit (EvLog LogError "x11 handler failed");;
                  closeCause "x11 handler failed";;
                  sessionExit 1;;
                  mret None
                else
                  mret (Some (env ++ ["DISPLAY=localhost:" +:+ itoa display
                                        +:+ "." +:+ itoa (ScreenNumber x11)]))
            | None => mret (Some env)
            end;
      match env with
      | None => mret RouteX11Failed
      | Some env =>
          r ← sessionStart session env container containerUser;
          match r with
          | Panics msg => mret (RouteExec r)
          | Fails err =>
              match asExitError err with
              | Some exit =>
                  let code := if exit =? -1 then 255 else exit in
                  emit (EvLog Info "ssh session returned");;
                  closeCause ("process exited with error status: " +:+ itoa exit);;
                  sessionExit code;;
                  mret (RouteExec r)
              | None =>
                  emit (EvLog Warn "ssh session failed");;
                  closeCause (Error err);;
                  sessionExit MagicSessionErrorCode;;
                  mret (RouteExec r)
              end
          | Returns _ =>
              emit (EvLog Info "normal ssh session exit");;
              sessionExit 0;;
              mret (RouteExec r)
          end
      end
    else if String.eqb ss "sftp" then
      if ExperimentalContainers cfg && negb (String.eqb container "") then
        closeCause "sftp not yet supported with containers";;
        sessionExit 1;;
        mret RouteSFTPContainer
      else
        err ← sftpHandler;
        when (bool_decide (err ≠ None))
          (closeCause (from_option Error "" err));;
        mret (RouteSFTP err)
    else
      emit (EvLog Warn "unsupported subsystem");;
      closeCause ("unsupported subsystem: " +:+ ss);;
      sessionExit 1;;
      mret RouteUnsupported.

(** The [switch] on the magic type: the counter that is incremented, to
    be decremented by a deferred call. *)
Definition countServer (magicType : MagicSessionType) (d : Z) (s : Server)
  : Server :=
  match magicType with
  | MagicSessionTypeVSCode => addVSCode d s
  | MagicSessionTypeSSH => addSSHSession d s
  | _ => s
  end.

Definition countSession (magicType : MagicSessionType) (d : Z) : M unit :=
  onServer (fun s => (tt, countServer magicType d s)).

Definition reportSession (magicType : MagicSessionType) : bool :=
  negb (bool_decide (magicType = MagicSessionTypeJetBrains)).

(** [session = scr], a fresh tracker around the session. *)
Definition wrapSession : M unit := fun st =>
  (tt, mkSt (server st) (Some newTracker) (reason st) (written st), []).

(** The deferred [disconnected(scr.exitCode(), reason)]. *)
Definition deferredDisconnected : M unit := fun st =>
  match scr st with
  | Some t => (tt, st, [EvDisconnected (exitCode t) (reason st)])
  | None => (tt, st, [])
  end.

Definition rejectedReason : string :=
  "unable to accept new session, server is closing".

(** An accepted session, from the [switch] on its type to the call of
    [ReportConnection]. *)
Definition enterSession (session : ssh.Session) (magicType : MagicSessionType)
  : M unit :=
  countSession magicType 1;;
  when (bool_decide (magicType = MagicSessionTypeUnknown))
    (emit (EvLog Warn "invalid magic ssh session type specified"));;
  when (reportSession magicType)
    (wrapSession;;
     emit (EvReportConnection magicType (ssh.RemoteAddr session))).

(** The deferred calls of an accepted session, the last one first; a
    panic of the command builder goes on once they have run. *)
Definition deferredCalls (session : ssh.Session) (magicType : MagicSessionType)
    (r : route) : M unit :=
  deferredDisconnected;;
  countSession magicType (-1);;
  onServer (trackSession (ssh.ID session) false);;
  match r with
  | RouteExec (Panics msg) => emit (EvPanic msg)
  | _ => mret tt
  end.

(** The result is [None] for a session that was not admitted, and the
    arm taken otherwise. *)
Definition sessionHandler (session : ssh.Session) : M (option route) :=
  emit (EvLog Info "handling ssh session");;
  let '(magicType, magicTypeRaw, env) :=
    extractMagicSessionType (unicode host) (ssh.Environ session) in
  ok ← onServer (trackSession (ssh.ID session) true);
  if negb ok then
    (* Report connection attempt even if we couldn't accept it. *)
    emit (EvReportConnection magicType (ssh.RemoteAddr session));;
    emit (EvLog Info rejectedReason);;
    sessionClose;;
    emit (EvDisconnected 1 rejectedReason);;
    mret None
  else
    enterSession session magicType;;
    r ← dispatch session env;
    deferredCalls session magicType r;;
    mret (Some r).

End Session.

(** The state in which a handler starts, and its run. *)
Definition initSt (s : Server) : St := mkSt s None "" 0.

(** The state of a goroutine that finds the server at [s]. *)
Definition withServer (s : Server) (st : St) : St :=
  mkSt s (scr st) (reason st) (written st).

(** A computation that neither reads nor changes the server: it runs the
    same, whatever the other goroutines have made of the server. *)
Definition serverFree {A} (m : M A) : Prop :=
  forall s st,
    m (withServer s st) = ((m st).1.1, withServer s (m st).1.2, (m st).2).

Definition runHandler (host : Host) (cfg : Config) (oracle : Oracle)
    (s : Server) (session : ssh.Session) : option route * Server * list event :=
  let '(r, st, tr) := sessionHandler host cfg oracle session (initSt s) in
  (r, server st, tr).

(** An event that neither reports nor ends a session. *)
Definition quietEv (e : event) : Prop :=
  match e with
  | EvReportConnection _ _ | EvDisconnected _ _ | EvExit _ | EvClose => False
  | _ => True
  end.

(** A computation that leaves the tracker and the reason alone and emits
    quiet events only. *)
Definition quiet {A} (m : M A) : Prop :=
  forall st, scr (m st).1.2 = scr st
             /\ reason (m st).1.2 = reason st
             /\ Forall quietEv (m st).2.

(** The session is admitted: [trackSession(session, true)] succeeds. *)
Definition accepted (s : Server) (session : ssh.Session) : bool :=
  (trackSession (ssh.ID session) true s).1.

(** An event other than a report of a connection or of its end. *)
Definition plainEv (e : event) : Prop :=
  match e with
  | EvReportConnection _ _ | EvDisconnected _ _ => False
  | _ => True
  end.

(** What an event of the session does to the tracker around it. *)
Definition trackEv (t : sessionCloseTracker) (e : event) : sessionCloseTracker :=
  match e with
  | EvExit c => track c t
  | EvClose => track 1 t
  | _ => t
  end.

(** A computation whose calls of [Exit] and [Close] all go through the
    tracker, when there is one, and that reports nothing. *)
Definition tracked {A} (m : M A) : Prop :=
  forall st, scr (m st).1.2 = (fun t => fold_left trackEv (m st).2 t) <$> scr st
             /\ Forall plainEv (m st).2.

(** The type of a session and the environment left by the classifier. *)
Definition magicOf (host : Host) (session : ssh.Session) : MagicSessionType :=
  (extractMagicSessionType (unicode host) (ssh.Environ session)).1.1.

Definition envOf (host : Host) (session : ssh.Session) : list string :=
  (extractMagicSessionType (unicode host) (ssh.Environ session)).2.

(** The state in which an accepted session is dispatched. *)
Definition enteredSt (host : Host) (s : Server) (session : ssh.Session) : St :=
  mkSt (countServer (magicOf host session) 1
          (trackSession (ssh.ID session) true s).2)
       (if reportSession (magicOf host session) then Some newTracker else None)
       "" 0.

(** The environment with which the handler calls [sessionStart]: the one
    left by [extractContainerInfo], with [DISPLAY] when X11 is forwarded. *)
Definition execEnv (oracle : Oracle) (session : ssh.Session)
    (env : list string) : list string :=
  let env := (extractContainerInfo env).2 in
  match ssh.X11Req session with
  | Some x11 =>
      env ++ ["DISPLAY=localhost:" +:+ itoa (x11Handler oracle).1
                +:+ "." +:+ itoa (ScreenNumber x11)]
  | None => env
  end.

(** What [sessionStart] returns to the handler of an accepted session. *)
Definition runnerResult (host : Host) (cfg : Config) (oracle : Oracle)
    (s : Server) (session : ssh.Session) : outcome unit :=
  (sessionStart host cfg oracle session
     (execEnv oracle session (envOf host session))
     (extractContainerInfo (envOf host session)).1.1
     (extractContainerInfo (envOf host session)).1.2
     (enteredSt host s session)).1.1.

(** The events of the entry of an accepted session, and those of its
    deferred calls in the state [st] that the dispatch has left. *)
Definition enterTrace (host : Host) (session : ssh.Session) : list event :=
  (if bool_decide (magicOf host session = MagicSessionTypeUnknown)
   then [EvLog Warn "invalid magic ssh session type specified"] else [])
  ++ (if reportSession (magicOf host session)
      then [EvReportConnection (magicOf host session) (ssh.RemoteAddr session)]
      else []).

Definition deferredTrace (st : St) (r : route) : list event :=
  (if scr st is Some t then [EvDisconnected (exitCode t) (reason st)] else [])
  ++ (if r is RouteExec (Panics msg) then [EvPanic msg] else []).

(** *** What a trace says *)

Definition exits (tr : list event) : list Z :=
  omap (fun e => if e is EvExit c then Some c else None) tr.

Definition writes (tr : list event) : list string :=
  omap (fun e => if e is EvWrite p _ then Some p else None) tr.

Definition starts (tr : list event) : list Cmd :=
  omap (fun e => if e is EvStart cmd _ _ then Some cmd else None) tr.

Definition reports (tr : list event) : list (MagicSessionType * string) :=
  omap (fun e => if e is EvReportConnection t ip then Some (t, ip) else None) tr.

Definition disconnects (tr : list event) : list (Z * string) :=
  omap (fun e => if e is EvDisconnected c r then Some (c, r) else None) tr.

(** The exit code that the calls of [Exit] and [Close] in a trace leave in
    a tracker that has seen all of them: the code of the first [Exit] if
    no [Close] comes before it, 1 if a [Close] comes first, and the zero
    value if there is neither. *)
Fixpoint firstExit (tr : list event) : Z :=
  match tr with
  | [] => 0
  | EvExit c :: _ => c
  | EvClose :: _ => 1
  | _ :: rest => firstExit rest
  end.

(** ** [Shutdown]

    One run of [Shutdown(ctx)] is fixed by when (if ever) [ctx] is done and
    with which error, when the [Close] of the goroutine sends its result
    on [ch] and what that result is, which case [select] takes when both
    are ready, and how long after the [select] the context is tested
    again. Instants are natural numbers. *)

Record ShutdownRun : Type := mkShutdownRun {
  cancelAt : option nat;        (* the instant from which ctx is done *)
  ctxError : error;             (* ctx.Err() from then on *)
  closeAt : option nat;         (* the instant at which ch has the result *)
  closeResult : option error;   (* what s.Close() returned *)
  selectCtx : bool;             (* select takes <-ctx.Done() in a tie *)
  recheckAfter : nat;
}.

(** [ctx.Err()] at instant [t]. *)
Definition ctxErr (r : ShutdownRun) (t : nat) : option error :=
  match cancelAt r with
  | Some c => if (c <=? t)%nat then Some (ctxError r) else None
  | None => None
  end.

(** The instant at which the [select] returns, if it does. *)
Definition selectAt (r : ShutdownRun) : option nat :=
  match cancelAt r, closeAt r with
  | Some c, Some k => Some (Nat.min c k)
  | Some c, None => Some c
  | None, Some k => Some k
  | None, None => None
  end.

(** The error that [Shutdown] returns; [None] when it never returns. *)
Definition Shutdown (r : ShutdownRun) : option (option error) :=
  match selectAt r with
  | None => None
  | Some t =>
      let ctxReady := bool_decide (ctxErr r t ≠ None) in
      let chReady := if closeAt r is Some k then (k <=? t)%nat else false in
      let err :=
        if ctxReady && (negb chReady || selectCtx r)
        then ctxErr r t
        else closeResult r in
      (* Re-check for context cancellation precedence. *)
      let err :=
        if ctxErr r (t + recheckAfter r) is Some e then Some e else err in
      Some (Wrapped "close server" <$> err)
  end.

(** The instant at which [Shutdown] returns. *)
Definition returnAt (r : ShutdownRun) : option nat :=
  (fun t => (t + recheckAfter r)%nat) <$> selectAt r.

(** ** Steps of the other goroutines

    What the goroutines that serve listeners, connections and sessions may
    do to the server between two critical sections of a [Close]. A
    process is untracked by its runner alone, once [Wait] has returned:
    [running] holds of the processes that are still waited for. *)

Inductive serverStep (running : Process -> Prop) : Server -> Server -> Prop :=
| StepListener l add s s' :
    trackListener l add s = Proceeds s' -> serverStep running s s'
| StepConn l c add s : serverStep running s (trackConn l c add s).2
| StepSession ss add s : serverStep running s (trackSession ss add s).2
| StepProcessAdd p s : serverStep running s (trackProcess p true s).2
| StepProcessRemove p s :
    ~ running p -> serverStep running s (trackProcess p false s).2
| StepVSCode d s : serverStep running s (addVSCode d s)
| StepSSHSession d s : serverStep running s (addSSHSession d s)
| StepHostSigner s : serverStep running s (UpdateHostSigner s).

(** Any step of the tracker. *)
Definition trackerStep : Server -> Server -> Prop :=
  serverStep (fun _ => False).

(** ** The runners without a PTY, as goroutines

    A runner tracks the process that its own [cmd.Start] has returned,
    waits for it, and untracks that same process in its deferred call, the
    one call of [trackProcess(_, false)] in the file. [waiting] holds the
    processes whose runners wait: a process comes into it with the setup
    of its runner and goes out of it with the deferred call of that
    runner. What [cmd.Start] returns is a new process, not one that a
    runner still waits for. The other goroutines take the steps of the
    tracker that remove no process; a [Close] enters and leaves. A step is
    labelled with the process that it untracks, if it is the deferred call
    of a runner. *)




(** The channel in [closing] is open and was made by [Close]; so was every
    closed channel. *)
Definition chanInv (s : Server) : Prop :=
  (∀ c, closing s = Some c → (c ∉ closedChans s) ∧ (c < nextChan s)%nat)
  ∧ (∀ c, c ∈ closedChans s → (c < nextChan s)%nat).

(** ** Environment entries, by key

    An entry [KEY=VALUE] is split at its first ["="]. These definitions
    say what it is for a variable to occur in an environment; the
    classifier above does not use them. *)

Definition envSplit (kv : string) : option (string * string) :=
  (fun v => (GoStrings.beforeFirst "="%char kv, v))
    <$> GoStrings.afterFirst "="%char kv.

(** The value of [kv] when it is an entry of the variable [name]. *)
Definition valueOf (name kv : string) : option string :=
  match envSplit kv with
  | Some (k, v) => if String.eqb k name then Some v else None
  | None => None
  end.

(** The value of the last entry of [name], if it has one. *)
Definition lastValueOf (name : string) (env : list string) : option string :=
  last (omap (valueOf name) env).

(** [env] without the entries of [name]. *)
Definition removeVar (name : string) (env : list string) : list string :=
  List.filter (fun kv => negb (bool_decide (is_Some (valueOf name kv)))) env.

(** The mapping of values to session types in the words of the
    specification: the empty value is [ssh], ["vscode"] and ["jetbrains"]
    are themselves and any other value is [unknown], whatever the case of
    the letters. *)
Definition statedMagicType (u : GoStrings.Unicode) (value : string)
  : MagicSessionType :=
  let v := GoStrings.ToLower u value in
  if String.eqb v "" then MagicSessionTypeSSH
  else if String.eqb v "vscode" then MagicSessionTypeVSCode
  else if String.eqb v "jetbrains" then MagicSessionTypeJetBrains
  else MagicSessionTypeUnknown.

Definition statedExtract (u : GoStrings.Unicode) (env : list string)
  : MagicSessionType * list string :=
  (statedMagicType u
     (default "" (lastValueOf MagicSessionTypeEnvironmentVariable env)),
   removeVar MagicSessionTypeEnvironmentVariable env).

(** The shape of a trace in which a connection is reported: the report,
    later the [disconnected] with the code that the calls of [Exit] and
    [Close] have left, and no other report, [Exit] or [Close] around
    them. *)
Definition reported (host : Host) (session : ssh.Session) (tr : list event)
  : Prop :=
  exists pre mid post reason,
    tr = pre
         ++ [EvReportConnection (magicOf host session) (ssh.RemoteAddr session)]
         ++ mid ++ [EvDisconnected (firstExit tr) reason] ++ post
    /\ Forall quietEv pre /\ Forall plainEv mid /\ Forall quietEv post.

(** *** What a login shell is shown

    The lines that the banners and the message of the day come to,
    each with its carriage return and line feed. *)

Definition crlf (line : string) : string := line +:+ cr +:+ nl.





(** Every [Write] on the session succeeds. *)
Definition allWritesOk (oracle : Oracle) : Prop :=
  forall n, writeErr oracle n = None.



(** An event of the banners and the message of the day. *)
Definition showEv (e : event) : Prop :=
  match e with
  | EvWrite _ _ | EvLog _ _ => True
  | _ => False
  end.


(** In the words of the specification: [ReportConnection] is invoked if
    and only if the session was admitted. *)
Definition statedReportIffAccepted (host : Host) (cfg : Config)
    (oracle : Oracle) (s : Server) (session : ssh.Session) : Prop :=
  reports (runHandler host cfg oracle s session).2 <> []
  <-> accepted s session = true.

(** No entry has the NAME of the magic variable as a prefix without being
    an entry of that variable: the environments on which the scan and the
    filter of [extractMagicSessionType] agree on what an occurrence is. *)
Definition cleanEnv (env : list string) : Prop :=
  Forall (fun kv =>
    GoStrings.HasPrefix kv MagicSessionTypeEnvironmentVariable = true ->
    GoStrings.HasPrefix kv (MagicSessionTypeEnvironmentVariable +:+ "=") = true)
    env.

(** ** A concrete host, configuration and session to run the model on *)

Module Sample.

Definition ei : EnvInfoer :=
  mkEnvInfoer (Ok "coder") (fun _ => Ok "/bin/bash") (Ok "/home/coder")
    ["PATH=/usr/bin"] (fun name args => (name, args)).

(** A splitter that knows no quoting: the words between blanks. *)
Definition split (s : string) : result (list string) := Ok (String.words s).

(** Tables without a letter or a blank outside ASCII. *)
Definition asciiTables : GoStrings.Unicode :=
  GoStrings.mkUnicode (fun s => s) (fun s => s) (fun s => s).

Definition host : Host :=
  mkHost "linux" ei
    (fun p => if String.eqb p "/workspace" then None else Some ErrNotExist)
    (Ok "/home/coder") split CommandContext
    (fun _ => Some ErrNotExist)
    (fun p => if String.eqb p "/etc/motd"
              then Ok (mkReader ("Welcome" +:+ nl +:+ "to coder" +:+ nl) None)
              else Err ErrNotExist)
    (fun d f => d +:+ "/" +:+ f) asciiTables.



Definition cfg : Config :=
  mkConfig "/etc/motd" (Some [mkBanner true "Hello"; mkBanner false "Hidden"])
    (fun env => Ok env) "/workspace" true false.

(** The process ends as [wait] says. *)
Definition oracleWith (wait : option error) : Oracle :=
  mkOracle (fun _ => None) (10, true)
    (fun _ _ => Err (ErrorString "no container"))
    (Ok "/tmp/agent.sock") None None None (Ok 7%positive) None ["hi" +:+ nl]
    [] wait (Ok 8%positive) ["$ "] None wait None.

Definition oracle : Oracle := oracleWith None.

Definition session (env : list string) (raw : string) (cmd : list string)
    (subsystem : string) (pty : option Pty) : ssh.Session :=
  ssh.mkSession 1%positive env raw cmd subsystem pty None false "10.0.0.1:22".

Definition serving : Server := UpdateHostSigner NewServer.

(** The same server, with a [Close] in flight. *)
Definition closingServer : Server := makeClosing serving.

Definition echo : ssh.Session := session [] "echo hi" ["echo"; "hi"] "" None.

Definition scp : ssh.Session :=
  session [] "/usr/bin/scp -t /tmp" ["/usr/bin/scp"; "-t"; "/tmp"] "" None.

Definition login : ssh.Session :=
  session ["TERM=xterm"] "" [] "" (Some (mkPty "xterm")).

Definition shell : Cmd :=
  mkCmd "/bin/bash" ["/bin/bash"; "-l"] ["PATH=/usr/bin"] "/workspace"
    (Some CancelKill).

Definition killed : error := ExitError (-1) "signal: killed".

(** The context is cancelled at instant 2, [Close] returns nil at 5. *)
Definition cancelled : ShutdownRun :=
  mkShutdownRun (Some 2%nat) (ErrorString "context canceled") (Some 5%nat)
    None false 0.

End Sample.


(** ** More of the server

    [ConnStats], the timeouts that [NewServer] gives the SSH library, and
    predicates on computations and traces for the properties of the
    handler's bookkeeping. *)

Record ConnStats : Type := mkConnStats {
  Sessions : Z;
  VSCode : Z;
  JetBrains : Z;
}.

(** [(s *Server).ConnStats()]. *)
Definition Server_ConnStats (s : Server) : ConnStats :=
  mkConnStats (connCountSSHSession s) (connCountVSCode s)
    (connCountJetBrains s).

(** A computation that leaves the server as it is. *)
Definition keepsServer {A} (m : M A) : Prop :=
  forall st, server (m st).1.2 = server st.

(** The entries of the three variables that the handler reads and strips. *)
Definition sessionVariable (kv : string) : bool :=
  bool_decide (is_Some (valueOf MagicSessionTypeEnvironmentVariable kv))
  || bool_decide (is_Some (valueOf ContainerEnvironmentVariable kv))
  || bool_decide (is_Some (valueOf ContainerUserEnvironmentVariable kv)).

(** What a runner leaves of the server [s] that it found: [s] itself, or
    [s] without the process that [cmd.Start] has returned. *)
Definition afterRunner (oracle : Oracle) (s s' : Server) : Prop :=
  s' = s
  \/ exists p, cmdStart oracle = Ok p
               /\ s' = withProcesses (processes s ∖ {[p]}) s.

Definition runsOn (oracle : Oracle) {A} (m : M A) : Prop :=
  forall st, afterRunner oracle (server st) (server (m st).1.2).

(** What a trace closes and cancels. *)
Definition closedListeners (tr : list event) : list Listener :=
  omap (fun e => if e is EvListenerClose l then Some l else None) tr.

Definition closedSessions (tr : list event) : list SessionID :=
  omap (fun e => if e is EvSessionClose ss then Some ss else None) tr.

Definition closedConns (tr : list event) : list Conn :=
  omap (fun e => if e is EvConnClose c then Some c else None) tr.

Definition cancelled (tr : list event) : list Process :=
  omap (fun e => if e is EvCmdCancel p then Some p else None) tr.

(** A computation all of whose events satisfy [P]. *)
Definition emitsOnly (P : event -> Prop) {A} (m : M A) : Prop :=
  forall st, Forall P (m st).2.

(** An event other than the start of a process. *)
Definition notStart (e : event) : Prop :=
  match e with
  | EvStart _ _ _ => False
  | _ => True
  end.

(** The event of a [Write] of the line [l] that succeeds. *)
Definition wrote (l : string) : event := EvWrite (crlf l) None.

(** The bytes of a string. *)
Definition bytes (s : string) : list ascii := String.list_ascii_of_string s.

(** A computation that starts the commands [l], in whatever state. *)
Definition startsExactly (l : list Cmd) {A} (m : M A) : Prop :=
  forall st, starts (m st).2 = l.

(** The reason that [closeCause r] leaves in a handler that was in the
    state [st], without a reason yet: [r] when the session is wrapped in
    a tracker, which is when it is reported, and none otherwise. *)
Definition causeIn (st : St) (r : string) : string :=
  if scr st is Some _ then r else "".

(** The calls of [disconnected] for an accepted session that ends with
    the code [c] and the reason [r]: one, unless the session is of
    JetBrains, which is not reported. *)
Definition disconnectedWith (host : Host) (session : ssh.Session) (c : Z)
    (r : string) : list (Z * string) :=
  if reportSession (magicOf host session) then [(c, r)] else [].

(** ** The timeouts that [NewServer] sets on the SSH server

    [time.Duration] is a number of nanoseconds; the division is that of
    Go's integers. The fields of the server that [NewServer] does not set
    have their zero value. *)

Definition Second : Z := 1000000000.

Record Timeouts : Type := mkTimeouts {
  ClientAliveCountMax : Z;
  ClientAliveInterval : Z;
  srvMaxTimeout : Z;            (* srv.MaxTimeout *)
}.

Definition NewServer_timeouts (MaxTimeout : Z) : Timeouts :=
  if 3 * Second <=? MaxTimeout
  then mkTimeouts 3 (Z.quot MaxTimeout 3) 0
  else mkTimeouts 0 0 MaxTimeout.

(** The text of the lines [ls], each followed by CR and LF. *)
Definition crlfText (ls : list string) : string :=
  fold_right (fun l s => l +:+ cr +:+ nl +:+ s) "" ls.

(** A line as the scanner returns it: without a line feed, and shorter
    than the scanner's buffer. *)
Definition wholeLine (l : string) : Prop :=
  ("010"%char ∉ bytes l) /\ (N.of_nat (String.length l) < 65536)%N.

(** ** The tracker as the file uses it

    [Serve], [handleConn], the session handler and the runner without a
    PTY each add a resource of their own (a listener, a connection, a
    session or a process that nothing else has added) and remove that
    same resource in a deferred call. [orderlyStep] is a step of one of
    them, or of a [Close]. *)

Definition trackedCount (s : Server) : nat :=
  (size (listeners s) + size (conns s) + size (sessions s)
   + size (processes s))%nat.

Inductive orderlyStep : Server -> Server -> Prop :=
| ListenerEnters l s s' :
    l ∉ listeners s -> Serve_enter l s = Serving s' -> orderlyStep s s'
| ListenerLeaves l e s s' tr :
    l ∈ listeners s -> Serve_leave l e s = (e, Proceeds s', tr) ->
    orderlyStep s s'
| ConnEnters l c s s' tr :
    c ∉ conns s -> handleConn_enter l c s = (true, s', tr) -> orderlyStep s s'
| ConnLeaves l c s :
    c ∈ conns s -> orderlyStep s (handleConn_leave l c s).1
| SessionEnters ss s s' :
    ss ∉ sessions s -> trackSession ss true s = (true, s') -> orderlyStep s s'
| SessionLeaves ss s :
    ss ∈ sessions s -> orderlyStep s (trackSession ss false s).2
| ProcessEnters p s s' :
    p ∉ processes s -> trackProcess p true s = (true, s') -> orderlyStep s s'
| ProcessLeaves p s :
    p ∈ processes s -> orderlyStep s (trackProcess p false s).2
| SessionCounted magicType d s : orderlyStep s (countServer magicType d s)
| HostSignerUpdated s : orderlyStep s (UpdateHostSigner s)
| CloseEnters e s s' tr err :
    Close_enter e s = CloseRuns s' tr err -> orderlyStep s s'
| CloseLeaves s s' :
    wgWait s = true -> Close_leave s = Returns s' -> orderlyStep s s'.

(** ** More sessions and runs of the sample host *)

Module Cases.

(** A VS Code session that names a container. *)
Definition vscode : ssh.Session :=
  Sample.session ["A=1"; "CODER_SSH_SESSION_TYPE=vscode";
                  "CODER_CONTAINER=dev"; "B=2"]
    "echo hi" ["echo"; "hi"] "" None.

(** A session into the container dev, whose user is named twice. *)
Definition devcontainer : ssh.Session :=
  Sample.session ["A=1"; "CODER_CONTAINER=dev"; "CODER_CONTAINER_USER=root";
                  "CODER_CONTAINER_USER=coder"; "B=2"]
    "echo hi" ["echo"; "hi"] "" None.

(** The configuration of the sample, with containers, and a world in
    which no container is found. *)
Definition cfgContainers : Config :=
  mkConfig "/etc/motd" None (fun env => Ok env) "/workspace" true true.

Definition oracleContainers : Oracle :=
  mkOracle (fun _ => None) (10, true)
    (fun container user =>
       Err (ErrorString ("no container " +:+ container
                           +:+ " for user " +:+ user)))
    (Ok "/tmp/agent.sock") None None None (Ok 7%positive) None ["hi" +:+ nl]
    [] None (Ok 8%positive) ["$ "] None None None.

(** Sessions that ask for a subsystem. *)
Definition gopher : ssh.Session := Sample.session [] "" [] "gopher" None.
Definition sftp : ssh.Session := Sample.session [] "" [] "sftp" None.

(** An editor in a PTY. *)
Definition vim : ssh.Session :=
  Sample.session ["TERM=xterm"] "vim" ["vim"] "" (Some (mkPty "xterm")).

(** The configuration of the sample, with file transfers allowed. *)
Definition cfgOpen : Config :=
  mkConfig "/etc/motd" None (fun env => Ok env) "/workspace" false false.

(** The sftp server ends as [serve] says. *)
Definition oracleSftp (serve : option error) : Oracle :=
  mkOracle (fun _ => None) (10, true)
    (fun _ _ => Err (ErrorString "no container"))
    (Ok "/tmp/agent.sock") None serve None (Ok 7%positive) None ["hi" +:+ nl]
    [] None (Ok 8%positive) ["$ "] None None None.

(** The PTY cannot be closed in the end. *)
Definition oracleCloseFails : Oracle :=
  mkOracle (fun _ => None) (10, true)
    (fun _ _ => Err (ErrorString "no container"))
    (Ok "/tmp/agent.sock") None None None (Ok 7%positive) None ["hi" +:+ nl]
    [] None (Ok 8%positive) ["$ "] None None
    (Some (ErrorString "close /dev/ptmx: input/output error")).

(** A host on which the user cannot be looked up. *)
Definition nobody : EnvInfoer :=
  mkEnvInfoer (Err (ErrorString "user: unknown userid 1000"))
    (fun _ => Ok "/bin/bash") (Ok "/home/coder") []
    (fun name args => (name, args)).

(** The serving server of the sample, once [Serve] has tracked the
    listener 5. *)
Definition listening : Server :=
  match Serve_enter 5%positive Sample.serving with
  | Serving s => s
  | _ => Sample.serving
  end.

(** The context is cancelled at instant 2 and [Close] never returns. *)
Definition stuck : ShutdownRun :=
  mkShutdownRun (Some 2%nat) (ErrorString "context deadline exceeded") None
    None false 1.

(** [Close] fails at instant 3 under a context that is never cancelled. *)
Definition failed : ShutdownRun :=
  mkShutdownRun None (ErrorString "context canceled") (Some 3%nat)
    (Some (ErrorString "ssh: server closed")) true 0.

End Cases.

(** * Properties *)

(** ** Byte strings *)

Section StringFacts.

Lemma append_nil (b : string) : "" +:+ b = b.
Proof. reflexivity. Qed.

Lemma append_cons (x : ascii) (a b : string) :
  String x a +:+ b = String x (a +:+ b).
Proof. reflexivity. Qed.

Lemma append_assoc (a b c : string) : (a +:+ b) +:+ c = a +:+ (b +:+ c).
Proof.
  induction a as [|x a IH]; [done|]. by rewrite !append_cons, IH.
Qed.

Lemma HasPrefix_append (p r : string) : GoStrings.HasPrefix (p +:+ r) p = true.
Proof.
  unfold GoStrings.HasPrefix. induction p as [|x p IH].
  - by destruct r.
  - rewrite append_cons. simpl. destruct (ascii_dec x x); [exact IH | done].
Qed.

Lemma HasPrefix_split (s p : string) :
  GoStrings.HasPrefix s p = true ->
  s = p +:+ GoStrings.drop (String.length p) s.
Proof.
  unfold GoStrings.HasPrefix. revert s.
  induction p as [|x p IH]; intros s H; [done|].
  destruct s as [|y s]; [done|]. simpl in H.
  destruct (ascii_dec x y) as [->|]; [|done].
  rewrite append_cons. simpl. f_equal. by apply IH.
Qed.

Lemma drop_append (p r : string) : GoStrings.drop (String.length p) (p +:+ r) = r.
Proof.
  induction p as [|x p IH]; [by destruct r|].
  rewrite append_cons. exact IH.
Qed.

Lemma TrimPrefix_append (p r : string) : GoStrings.TrimPrefix (p +:+ r) p = r.
Proof.
  unfold GoStrings.TrimPrefix. by rewrite HasPrefix_append, drop_append.
Qed.

Lemma HasPrefix_weaken (s p q : string) :
  GoStrings.HasPrefix s (p +:+ q) = true -> GoStrings.HasPrefix s p = true.
Proof.
  intros H. apply HasPrefix_split in H. rewrite H, append_assoc.
  apply HasPrefix_append.
Qed.

(** An entry that splits is its key, ["="] and its value. *)
Lemma envSplit_inv (kv k v : string) :
  envSplit kv = Some (k, v) -> kv = k +:+ "=" +:+ v.
Proof.
  unfold envSplit. revert k.
  induction kv as [|c kv IH]; intros k; simpl; [done|].
  destruct (Ascii.eqb c "=") eqn:E; simpl.
  - apply Ascii.eqb_eq in E as ->. by intros [= <- <-].
  - destruct (GoStrings.afterFirst "=" kv) as [w|] eqn:Ew; simpl; [|done].
    intros [= <- <-]. rewrite append_cons. f_equal. by apply IH.
Qed.

Lemma envSplit_append (k v : string) :
  GoStrings.afterFirst "="%char k = None ->
  envSplit (k +:+ "=" +:+ v) = Some (k, v).
Proof.
  unfold envSplit. induction k as [|c k IH]; [done|].
  rewrite append_cons. simpl.
  destruct (Ascii.eqb c "=") eqn:E; [done|]. intros Hk.
  specialize (IH Hk).
  destruct (GoStrings.afterFirst "=" (k +:+ "=" +:+ v)); simpl in *; [|done].
  by injection IH as -> ->.
Qed.

(** [kv] is an entry of [name] with value [v] exactly when it reads
    [name=v]. *)
Lemma valueOf_Some (name kv v : string) :
  GoStrings.afterFirst "="%char name = None ->
  valueOf name kv = Some v <-> kv = name +:+ "=" +:+ v.
Proof.
  intros Hname. unfold valueOf. split.
  - destruct (envSplit kv) as [[k w]|] eqn:E; [|done].
    destruct (String.eqb k name) eqn:Ek; [|done].
    apply String.eqb_eq in Ek as ->. intros [= ->]. by apply envSplit_inv.
  - intros ->. rewrite envSplit_append by done. by rewrite String.eqb_refl.
Qed.

Lemma HasPrefix_assignment (name kv : string) :
  GoStrings.afterFirst "="%char name = None ->
  GoStrings.HasPrefix kv (name +:+ "=")
  = bool_decide (is_Some (valueOf name kv)).
Proof.
  intros Hname.
  destruct (GoStrings.HasPrefix kv (name +:+ "=")) eqn:E; symmetry.
  - apply bool_decide_eq_true. apply HasPrefix_split in E.
    rewrite append_assoc in E.
    eexists. by apply valueOf_Some.
  - apply bool_decide_eq_false. intros [v Hv].
    apply valueOf_Some in Hv; [|done]. subst kv.
    by rewrite <- append_assoc, HasPrefix_append in E.
Qed.

End StringFacts.

(** ** The session classifier *)

Section Classifier.

Context (u : GoStrings.Unicode).

Local Abbreviation NAME := MagicSessionTypeEnvironmentVariable.

Lemma NAME_no_eq : GoStrings.afterFirst "="%char NAME = None.
Proof. reflexivity. Qed.

Lemma magicScanStep_valueOf (rawType kv : string) :
  (GoStrings.HasPrefix kv NAME = true ->
   GoStrings.HasPrefix kv (NAME +:+ "=") = true) ->
  magicScanStep rawType kv = default rawType (valueOf NAME kv).
Proof.
  intros H. unfold magicScanStep.
  destruct (GoStrings.HasPrefix kv NAME) eqn:E; simpl.
  - specialize (H eq_refl). apply HasPrefix_split in H.
    rewrite append_assoc in H.
    pose proof (proj2 (valueOf_Some NAME kv _ NAME_no_eq) H) as ->.
    simpl. rewrite H at 1. rewrite <- append_assoc.
    apply TrimPrefix_append.
  - destruct (valueOf NAME kv) as [v|] eqn:Ev; [|done].
    apply valueOf_Some in Ev; [|exact NAME_no_eq]. subst kv.
    by rewrite HasPrefix_append in E.
Qed.

Lemma lastValueOf_cons (name kv : string) (env : list string) :
  lastValueOf name (kv :: env)
  = match lastValueOf name env with
    | Some v => Some v
    | None => valueOf name kv
    end.
Proof.
  unfold lastValueOf. simpl.
  destruct (valueOf name kv) as [v|]; simpl.
  - rewrite last_cons. by destruct (last _).
  - by destruct (last _).
Qed.

Lemma scan_lastValueOf (env : list string) (rawType : string) :
  cleanEnv env ->
  fold_left magicScanStep env rawType
  = default rawType (lastValueOf NAME env).
Proof.
  intros Hclean. revert rawType.
  induction Hclean as [|kv env Hkv _ IH]; intros rawType; [done|].
  simpl. rewrite IH, lastValueOf_cons, magicScanStep_valueOf by done.
  by destruct (lastValueOf NAME env).
Qed.

Lemma DeleteFunc_removeVar (env : list string) :
  slices.DeleteFunc env (fun kv => GoStrings.HasPrefix kv (NAME +:+ "="))
  = removeVar NAME env.
Proof.
  unfold slices.DeleteFunc, removeVar.
  induction env as [|kv env IH]; [done|]. simpl.
  rewrite IH. by rewrite (HasPrefix_assignment NAME kv NAME_no_eq).
Qed.

Lemma magicTypeOfRaw_cases (rawType : string) :
  let v := GoStrings.ToLower u rawType in
  (v = "" \/ v = "ssh" -> magicTypeOfRaw u rawType = MagicSessionTypeSSH)
  /\ (v = "vscode" -> magicTypeOfRaw u rawType = MagicSessionTypeVSCode)
  /\ (v = "jetbrains" -> magicTypeOfRaw u rawType = MagicSessionTypeJetBrains)
  /\ (v <> "" -> v <> "ssh" -> v <> "vscode" -> v <> "jetbrains" ->
      magicTypeOfRaw u rawType = MagicSessionTypeUnknown).
Proof.
  unfold magicTypeOfRaw. cbv zeta. repeat split.
  - by intros [-> | ->].
  - by intros ->.
  - by intros ->.
  - intros H1 H2 H3 H4.
    apply String.eqb_neq in H1, H2, H3, H4. by rewrite H1, H2, H3, H4.
Qed.

(** The tables of Unicode have no say on ASCII. *)
Lemma ToLower_ASCII (s : string) :
  GoStrings.allASCII s = true ->
  GoStrings.ToLower u s = GoStrings.lowerASCII s.
Proof. unfold GoStrings.ToLower. by intros ->. Qed.

(** C4, as stated, fails: the value ["ssh"] is neither empty nor
    ["vscode"] nor ["jetbrains"], and the session type is [ssh], not
    [unknown], whatever the tables of Unicode. *)
Lemma stated_magic_type_fails_for_ssh :
  ~ exists tables,
      (let '(t, _, filtered) :=
         extractMagicSessionType tables ["CODER_SSH_SESSION_TYPE=ssh"]
       in (t, filtered))
      = statedExtract tables ["CODER_SSH_SESSION_TYPE=ssh"].
Proof. intros [tables H]. vm_compute in H. discriminate H. Qed.

(** C4, amended: of every environment, [extractMagicSessionType] returns
    the environment without the entries of CODER_SSH_SESSION_TYPE, the
    others in their order, and the session type that the raw type [raw]
    that it returns stands for once [strings.ToLower] has lower-cased it
    (empty or ["ssh"] is ssh, ["vscode"] is vscode, ["jetbrains"] is
    jetbrains, anything else is unknown; on an ASCII value the letters
    [A-Z] are folded). On an environment in which every entry that starts
    with CODER_SSH_SESSION_TYPE is an entry of that variable, [raw] is the
    value of the last entry of the variable, and the empty string when
    there is none. *)
Theorem extractMagicSessionType_last_occurrence (env : list string) :
  exists t raw,
    extractMagicSessionType u env = (t, raw, removeVar NAME env)
    /\ (let v := GoStrings.ToLower u raw in
        (v = "" \/ v = "ssh" -> t = MagicSessionTypeSSH)
        /\ (v = "vscode" -> t = MagicSessionTypeVSCode)
        /\ (v = "jetbrains" -> t = MagicSessionTypeJetBrains)
        /\ (v <> "" -> v <> "ssh" -> v <> "vscode" -> v <> "jetbrains" ->
            t = MagicSessionTypeUnknown))
    /\ (GoStrings.allASCII raw = true ->
        GoStrings.ToLower u raw = GoStrings.lowerASCII raw)
    /\ (cleanEnv env -> raw = default "" (lastValueOf NAME env)).
Proof.
  exists (magicTypeOfRaw u (fold_left magicScanStep env "")),
         (fold_left magicScanStep env "").
  split; [|split; [|split]].
  - unfold extractMagicSessionType. by rewrite DeleteFunc_removeVar.
  - apply magicTypeOfRaw_cases.
  - apply ToLower_ASCII.
  - intros Hclean. by apply scan_lastValueOf.
Qed.

(** The scan tests the NAME without the ["="]: an entry of another
    variable whose name starts with it becomes the raw type, and the
    session is classified as unknown. *)
Example extractMagicSessionType_longer_name :
  extractMagicSessionType u
    ["CODER_SSH_SESSION_TYPE=vscode"; "CODER_SSH_SESSION_TYPE_EXTRA=1"]
  = (MagicSessionTypeUnknown, "CODER_SSH_SESSION_TYPE_EXTRA=1",
     ["CODER_SSH_SESSION_TYPE_EXTRA=1"]).
Proof. reflexivity. Qed.

(** With the tables of Go, in which the capital I with a dot above
    (U+0130, the bytes 196 and 176) is lowered to i, the value
    JETBRA(U+0130)NS is that of a session of JetBrains. *)
Example extractMagicSessionType_dotted_I :
  let raw := "JETBRA" +:+ String "196" (String "176" "NS") in
  GoStrings.MapToLower u raw = "jetbrains" ->
  extractMagicSessionType u ["CODER_SSH_SESSION_TYPE=" +:+ raw]
  = (MagicSessionTypeJetBrains, raw, []).
Proof.
  cbv zeta. intros Hlower. unfold extractMagicSessionType, magicTypeOfRaw.
  cbv zeta. replace (fold_left magicScanStep _ _)
    with ("JETBRA" +:+ String "196" (String "176" "NS")) by reflexivity.
  unfold GoStrings.ToLower.
  replace (GoStrings.allASCII _) with false by reflexivity.
  by rewrite Hlower.
Qed.

End Classifier.

(** The last of two entries of the variable decides, and its letters are
    folded. *)
Lemma extractMagicSessionType_last_occurrence_witness :
  cleanEnv ["A=1"; "CODER_SSH_SESSION_TYPE=ssh";
            "CODER_SSH_SESSION_TYPE=VSCode"; "B=2"]
  /\ extractMagicSessionType Sample.asciiTables
       ["A=1"; "CODER_SSH_SESSION_TYPE=ssh";
        "CODER_SSH_SESSION_TYPE=VSCode"; "B=2"]
     = (MagicSessionTypeVSCode, "VSCode", ["A=1"; "B=2"]).
Proof.
  assert (cleanEnv ["A=1"; "CODER_SSH_SESSION_TYPE=ssh";
                    "CODER_SSH_SESSION_TYPE=VSCode"; "B=2"]) as H.
  { repeat constructor; vm_compute; congruence. }
  split; [exact H|].
  destruct (extractMagicSessionType_last_occurrence Sample.asciiTables
              ["A=1"; "CODER_SSH_SESSION_TYPE=ssh";
               "CODER_SSH_SESSION_TYPE=VSCode"; "B=2"])
    as (t & raw & -> & (_ & Hvscode & _) & Hascii & Hraw).
  rewrite (Hraw H) in *.
  by rewrite (Hvscode (Hascii eq_refl)).
Defined.

(** ** The command builder *)

Section CommandBuilder.

Context (host : Host) (cfg : Config).

(** The shape of the command line, case by case. *)
Lemma commandLine_cases (shell script : string) :
  (script = "" ->
   commandLine host shell script
   = Returns (shell, if isWindows host then [] else ["-l"]))
  /\ (script <> "" ->
      GoStrings.HasPrefix (GoStrings.TrimSpace (unicode host) script) "#!"
      = false ->
      commandLine host shell script = Returns (shell, [caller host; script]))
  /\ (forall w ws,
      GoStrings.HasPrefix (GoStrings.TrimSpace (unicode host) script) "#!"
      = true ->
      shellquoteSplit host (shebangOf host script) = Ok (w :: ws) ->
      commandLine host shell script = Returns (w, ws ++ [caller host; script]))
  /\ (forall e,
      GoStrings.HasPrefix (GoStrings.TrimSpace (unicode host) script) "#!"
      = true ->
      shellquoteSplit host (shebangOf host script) = Err e ->
      commandLine host shell script = Fails (Wrapped "split shebang" e))
  /\ (GoStrings.HasPrefix (GoStrings.TrimSpace (unicode host) script) "#!"
      = true ->
      shellquoteSplit host (shebangOf host script) = Ok [] ->
      commandLine host shell script
      = Panics "index out of range [0] with length 0").
Proof.
  unfold commandLine, shebangOf, caller. repeat split.
  - intros ->. simpl. by destruct (isWindows host).
  - intros Hne Hsh. rewrite Hsh.
    destruct script; [done|]. reflexivity.
  - intros w ws Hsh Hsplit. rewrite Hsh, Hsplit.
    destruct script as [|c script]; [done|].
    by destruct ws.
  - intros e Hsh Hsplit. by rewrite Hsh, Hsplit.
  - intros Hsh Hsplit. by rewrite Hsh, Hsplit.
Qed.

(** C5: a script that is a shebang without an interpreter makes
    [CreateCommand] panic. The script ["#!"] has an empty shebang line,
    the splitter returns no word for it, and [words[0]] is out of range:
    neither a command nor an error is returned. *)
Theorem CreateCommand_shebang_without_words
    (env : list string) (ei : option EnvInfoer)
    (shell dir : string) (env' : list string) :
  CommandEnv host cfg (Some (default (SystemEnvInfo host) ei)) env
  = Ok (shell, dir, env') ->
  shellquoteSplit host "" = Ok [] ->
  CreateCommand host cfg "#!" env ei
  = Panics "index out of range [0] with length 0".
Proof.
  intros Henv Hsplit. unfold CreateCommand. rewrite Henv.
  destruct (commandLine_cases shell "#!") as (_ & _ & _ & _ & Hpanic).
  by rewrite Hpanic.
Qed.

(** C8: the working directory and the environment of a built command.
    The directory is [WorkingDirectory()] when that is not empty and
    [os.Stat] succeeds on it, and the home directory of the user
    otherwise. The environment is what [UpdateEnv] makes of the user's
    environment followed by the forwarded one and by USER, LOGNAME and
    SHELL, with SSH_CLIENT and SSH_CONNECTION, at their fixed values,
    after it. *)
Theorem CreateCommand_dir_and_env
    (script : string) (env : list string) (ei : option EnvInfoer) (cmd : Cmd) :
  CreateCommand host cfg script env ei = Returns cmd ->
  let ei' := default (SystemEnvInfo host) ei in
  let wd := WorkingDirectory cfg in
  exists username shell updated,
    User ei' = Ok username
    /\ Shell ei' username = Ok shell
    /\ UpdateEnv cfg
         (Environ ei' ++ env
          ++ ["USER=" +:+ username; "LOGNAME=" +:+ username;
              "SHELL=" +:+ shell])
       = Ok updated
    /\ Env cmd
       = updated ++ ["SSH_CLIENT=0.0.0.0 0 0";
                     "SSH_CONNECTION=0.0.0.0 0 0.0.0.0 0"]
    /\ (wd <> "" /\ osStat host wd = None -> Dir cmd = wd)
    /\ (wd = "" \/ osStat host wd <> None -> HomeDir ei' = Ok (Dir cmd)).
Proof.
  unfold CreateCommand, CommandEnv. simpl. intros H.
  destruct (User _) as [username|] eqn:Hu; simpl in H; [|done].
  destruct (Shell _ username) as [shell|] eqn:Hs; simpl in H; [|done].
  exists username, shell.
  set (home := String.eqb (WorkingDirectory cfg) ""
               || bool_decide (osStat host (WorkingDirectory cfg) ≠ None)) in *.
  destruct home eqn:Hhome; subst home.
  - destruct (HomeDir _) as [h|] eqn:Hh; simpl in H; [|done].
    rewrite <- !app_assoc in H. simpl in H.
    destruct (UpdateEnv cfg _) as [updated|] eqn:Hup; simpl in H; [|done].
    destruct (commandLine host shell script) as [[name args]| |]; [|done..].
    destruct (ModifyCommand _ name args) as [mn ma].
    injection H as <-. exists updated. simpl.
    rewrite <- app_assoc. repeat split; try done.
    intros [Hne Hstat]. apply orb_true_iff in Hhome as [Hw|Hst].
    + by apply String.eqb_eq in Hw.
    + apply bool_decide_eq_true in Hst. by rewrite Hstat in Hst.
  - simpl in H. rewrite <- !app_assoc in H. simpl in H.
    destruct (UpdateEnv cfg _) as [updated|] eqn:Hup; simpl in H; [|done].
    destruct (commandLine host shell script) as [[name args]| |]; [|done..].
    destruct (ModifyCommand _ name args) as [mn ma].
    injection H as <-. exists updated. simpl.
    rewrite <- app_assoc. repeat split; try done.
    apply orb_false_iff in Hhome as [Hw Hst].
    apply String.eqb_neq in Hw. apply bool_decide_eq_false in Hst.
    intros [?|?]; [done|]. by destruct Hst.
Qed.

End CommandBuilder.

(** On the sample host, the script ["#!"] makes [CreateCommand] panic. *)
Lemma CreateCommand_shebang_without_words_witness :
  CreateCommand Sample.host Sample.cfg "#!" ["TERM=xterm"] None
  = Panics "index out of range [0] with length 0".
Proof.
  apply (CreateCommand_shebang_without_words Sample.host Sample.cfg
           ["TERM=xterm"] None "/bin/bash" "/workspace"
           ["PATH=/usr/bin"; "TERM=xterm"; "USER=coder"; "LOGNAME=coder";
            "SHELL=/bin/bash"]); reflexivity.
Defined.

(** The command built for [echo hi] on the sample host. *)
Lemma CreateCommand_dir_and_env_witness :
  exists username shell updated,
    User Sample.ei = Ok username
    /\ Shell Sample.ei username = Ok shell
    /\ UpdateEnv Sample.cfg
         (Environ Sample.ei ++ ["TERM=xterm"]
          ++ ["USER=" +:+ username; "LOGNAME=" +:+ username;
              "SHELL=" +:+ shell])
       = Ok updated
    /\ Env (mkCmd "/bin/bash" ["/bin/bash"; "-c"; "echo hi"]
              ["PATH=/usr/bin"; "TERM=xterm"; "USER=coder"; "LOGNAME=coder";
               "SHELL=/bin/bash"; "SSH_CLIENT=0.0.0.0 0 0";
               "SSH_CONNECTION=0.0.0.0 0 0.0.0.0 0"]
              "/workspace" (Some CancelKill))
       = updated ++ ["SSH_CLIENT=0.0.0.0 0 0";
                     "SSH_CONNECTION=0.0.0.0 0 0.0.0.0 0"]
    /\ ("/workspace" <> "" /\ osStat Sample.host "/workspace" = None ->
        Dir (mkCmd "/bin/bash" ["/bin/bash"; "-c"; "echo hi"]
               ["PATH=/usr/bin"; "TERM=xterm"; "USER=coder"; "LOGNAME=coder";
                "SHELL=/bin/bash"; "SSH_CLIENT=0.0.0.0 0 0";
                "SSH_CONNECTION=0.0.0.0 0 0.0.0.0 0"]
               "/workspace" (Some CancelKill)) = "/workspace")
    /\ ("/workspace" = "" \/ osStat Sample.host "/workspace" <> None ->
        HomeDir Sample.ei
        = Ok (Dir (mkCmd "/bin/bash" ["/bin/bash"; "-c"; "echo hi"]
               ["PATH=/usr/bin"; "TERM=xterm"; "USER=coder"; "LOGNAME=coder";
                "SHELL=/bin/bash"; "SSH_CLIENT=0.0.0.0 0 0";
                "SSH_CONNECTION=0.0.0.0 0 0.0.0.0 0"]
               "/workspace" (Some CancelKill)))).
Proof.
  apply (CreateCommand_dir_and_env Sample.host Sample.cfg "echo hi"
           ["TERM=xterm"] None). reflexivity.
Defined.

(** ** Runs of the handler's monad *)

Section Runs.

Lemma run_bind {A B} (m : M A) (f : A -> M B) (st : St) :
  (m ≫= f) st
  = let '(a, st1, t1) := m st in
    let '(b, st2, t2) := f a st1 in (b, st2, t1 ++ t2).
Proof. reflexivity. Qed.

Lemma run_ret {A} (a : A) (st : St) : (mret a : M A) st = (a, st, []).
Proof. reflexivity. Qed.

Lemma run_fmap {A B} (g : A -> B) (m : M A) (st : St) :
  (g <$> m) st = let '(a, st1, t1) := m st in (g a, st1, t1).
Proof. reflexivity. Qed.

Lemma quiet_ret {A} (a : A) : quiet (mret a : M A).
Proof. intros st. by repeat split. Qed.

Lemma quiet_bind {A B} (m : M A) (f : A -> M B) :
  quiet m -> (forall a, quiet (f a)) -> quiet (m ≫= f).
Proof.
  intros Hm Hf st. rewrite run_bind.
  destruct (Hm st) as (H1 & H2 & H3).
  destruct (m st) as [[a st1] t1]. simpl in *.
  destruct (Hf a st1) as (H4 & H5 & H6).
  destruct (f a st1) as [[b st2] t2]. simpl in *.
  repeat split; [congruence..|]. by apply Forall_app.
Qed.

Lemma quiet_fmap {A B} (g : A -> B) (m : M A) : quiet m -> quiet (g <$> m).
Proof.
  intros Hm st. rewrite run_fmap. destruct (Hm st) as (H1 & H2 & H3).
  by destruct (m st) as [[a st1] t1].
Qed.

Lemma quiet_emit (e : event) : quietEv e -> quiet (emit e).
Proof. intros He st. repeat split; [done..|]. by repeat constructor. Qed.

Lemma quiet_onServer {A} (f : Server -> A * Server) : quiet (onServer f).
Proof. intros st. unfold onServer. by destruct (f (server st)). Qed.

Lemma quiet_when (b : bool) (m : M unit) : quiet m -> quiet (when b m).
Proof. destruct b; [done|]. intros _. apply quiet_ret. Qed.

Lemma quiet_sessionWrite oracle (p : string) : quiet (sessionWrite oracle p).
Proof. intros st. repeat split; [done..|]. by repeat constructor. Qed.

End Runs.

Create HintDb quiet.
#[export] Hint Resolve quiet_ret quiet_emit quiet_onServer quiet_when
  quiet_sessionWrite quiet_fmap : quiet.
#[export] Hint Extern 1 (quietEv _) => exact I : quiet.

(** Goes through a computation, statement by statement. *)
Ltac quiet_auto :=
  repeat first
    [ progress cbv zeta
    | match goal with
      | |- quiet (_ ≫= _) => apply quiet_bind; [|intros ?]
      | |- quiet (when _ _) => apply quiet_when
      | |- quiet (match ?x with _ => _ end) => destruct x
      end
    | solve [eauto with quiet] ].

Section QuietRunners.

Context (host : Host) (cfg : Config) (oracle : Oracle).

Lemma quiet_writeLines (ls : list string) : quiet (writeLines oracle ls).
Proof. induction ls; simpl; quiet_auto. Qed.

Lemma quiet_copyToSession (chunks : list string) :
  quiet (copyToSession oracle chunks).
Proof. induction chunks; simpl; quiet_auto. Qed.

Lemma quiet_handleSignals (p : Process) (sigs : list string) :
  quiet (handleSignals p sigs).
Proof. induction sigs; simpl; unfold handleSignal; quiet_auto. Qed.

Lemma quiet_writeWithCarriageReturn (src : Reader) :
  quiet (writeWithCarriageReturn oracle src).
Proof.
  pose proof quiet_writeLines. unfold writeWithCarriageReturn. quiet_auto.
Qed.

Lemma quiet_showBanners (banners : list BannerConfig) :
  quiet (showBanners host oracle banners).
Proof.
  pose proof quiet_writeWithCarriageReturn.
  induction banners; simpl; unfold showAnnouncementBanner; quiet_auto.
Qed.

Lemma quiet_showMOTD (filename : string) :
  quiet (showMOTD host oracle filename).
Proof.
  pose proof quiet_writeWithCarriageReturn. unfold showMOTD. quiet_auto.
Qed.

Lemma quiet_startPTYSession session cmd sshPty :
  quiet (startPTYSession host cfg oracle session cmd sshPty).
Proof.
  pose proof quiet_showBanners. pose proof quiet_showMOTD.
  pose proof quiet_handleSignals. pose proof quiet_copyToSession.
  unfold startPTYSession. quiet_auto.
Qed.

Lemma quiet_startNonPTYSession cmd :
  quiet (startNonPTYSession oracle cmd).
Proof.
  pose proof quiet_handleSignals. pose proof quiet_copyToSession.
  unfold startNonPTYSession, startNonPTYSession_setup,
    startNonPTYSession_wait, startNonPTYSession_leave. quiet_auto.
Qed.

Lemma quiet_sessionStart session env container containerUser :
  quiet (sessionStart host cfg oracle session env container containerUser).
Proof.
  pose proof quiet_startPTYSession. pose proof quiet_startNonPTYSession.
  unfold sessionStart. quiet_auto.
Qed.

End QuietRunners.

(** ** The file-transfer guard *)

Section Guard.

Context (host : Host) (cfg : Config) (oracle : Oracle).

Lemma fileTransferBlocked_iff (session : ssh.Session) :
  fileTransferBlocked cfg session = true
  <-> BlockFileTransfer cfg = true
      /\ (ssh.Subsystem session = "sftp"
          \/ exists c rest,
               ssh.Command session = c :: rest
               /\ filepath.Base c ∈ ["nc"; "rsync"; "scp"; "sftp"]).
Proof.
  unfold fileTransferBlocked.
  destruct (BlockFileTransfer cfg); cbn [negb]; [|by intuition].
  destruct (String.eqb (ssh.Subsystem session) "sftp") eqn:Hs.
  { apply String.eqb_eq in Hs. by intuition. }
  apply String.eqb_neq in Hs.
  destruct (ssh.Command session) as [|c rest].
  { split; [done|]. intros [_ [?|(c & rest & ? & _)]]; done. }
  rewrite existsb_exists. split.
  - intros (x & Hin & Heq). apply String.eqb_eq in Heq as ->.
    split; [done|]. right. exists c, rest. split; [done|].
    by apply list_elem_of_In.
  - intros [_ [?|(c' & rest' & [= <- <-] & Hin)]]; [done|].
    exists (filepath.Base c). split; [by apply list_elem_of_In|].
    apply String.eqb_refl.
Qed.

End Guard.

(** ** Runs of the session handler *)

Section HandlerRuns.

Context (host : Host) (cfg : Config) (oracle : Oracle).

Lemma run_emit (e : event) (st : St) : emit e st = (tt, st, [e]).
Proof. reflexivity. Qed.

Lemma trackSession_closing (s : Server) (ss : SessionID) :
  closing s <> None -> trackSession ss true s = (false, s).
Proof.
  intros H. unfold trackSession. by rewrite bool_decide_eq_true_2.
Qed.

Lemma trackSession_open (s : Server) (ss : SessionID) :
  closing s = None -> (trackSession ss true s).1 = true.
Proof.
  intros H. unfold trackSession. rewrite bool_decide_eq_false_2; [done|].
  rewrite H. intros Hn. by apply Hn.
Qed.

Lemma accepted_open (s : Server) (session : ssh.Session) :
  accepted s session = true <-> closing s = None.
Proof.
  unfold accepted. split.
  - destruct (closing s) as [c|] eqn:Hc; [|done].
    rewrite trackSession_closing by (by rewrite Hc). done.
  - apply trackSession_open.
Qed.

(** A session that is not admitted. *)
Lemma rejected_run (s : Server) (session : ssh.Session) :
  closing s <> None ->
  runHandler host cfg oracle s session
  = (None, s,
     [EvLog Info "handling ssh session";
      EvReportConnection (magicOf host session) (ssh.RemoteAddr session);
      EvLog Info rejectedReason; EvClose;
      EvDisconnected 1 rejectedReason]).
Proof.
  intros H. unfold runHandler, sessionHandler, magicOf.
  destruct (extractMagicSessionType _) as [[magicType raw] env].
  rewrite run_bind, run_emit. rewrite run_bind.
  unfold onServer at 1. simpl server.
  rewrite (trackSession_closing _ _ H). reflexivity.
Qed.

Lemma run_enterSession (session : ssh.Session) (st : St) :
  enterSession session (magicOf host session) st
  = (tt,
     mkSt (countServer (magicOf host session) 1 (server st))
       (if reportSession (magicOf host session) then Some newTracker else scr st)
       (reason st) (written st),
     enterTrace host session).
Proof.
  unfold enterSession, enterTrace. destruct st.
  by destruct (magicOf host session).
Qed.

Lemma run_deferredCalls (session : ssh.Session) (m : MagicSessionType)
    (r : route) (st : St) :
  (deferredCalls session m r st).2 = deferredTrace st r
  /\ server (deferredCalls session m r st).1.2
     = (trackSession (ssh.ID session) false (countServer m (-1) (server st))).2.
Proof.
  unfold deferredCalls, deferredTrace, deferredDisconnected.
  rewrite !run_bind. destruct st as [srv [t|] reason written]; simpl.
  - destruct r as [| | | | |[]]; by rewrite ?app_nil_r.
  - destruct r as [| | | | |[]]; by rewrite ?app_nil_r.
Qed.

(** An accepted session: the trace is that of the dispatch, between the
    events of the entry and those of the deferred calls. *)
Lemma accepted_run (s : Server) (session : ssh.Session) :
  closing s = None ->
  runHandler host cfg oracle s session
  = let '(r, st, trd) :=
      dispatch host cfg oracle session (envOf host session)
        (enteredSt host s session) in
    (Some r,
     (trackSession (ssh.ID session) false
        (countServer (magicOf host session) (-1) (server st))).2,
     [EvLog Info "handling ssh session"]
     ++ enterTrace host session ++ trd ++ deferredTrace st r).
Proof.
  intros H. unfold runHandler, sessionHandler, envOf, enteredSt.
  pose proof (run_enterSession session) as Henter.
  pose proof (run_deferredCalls session (magicOf host session)) as Hdefer.
  unfold magicOf in *.
  destruct (extractMagicSessionType _) as [[magicType raw] env].
  cbn [fst snd] in *.
  pose proof (trackSession_open s (ssh.ID session) H) as Hok.
  rewrite run_bind, run_emit. rewrite run_bind.
  unfold onServer at 1. simpl server.
  destruct (trackSession (ssh.ID session) true s) as [ok s1].
  simpl in Hok. subst ok. cbn [negb fst snd].
  rewrite run_bind, Henter. cbn [server scr reason written initSt].
  rewrite run_bind.
  destruct (dispatch _ _ _ _ _ _) as [[r st] trd].
  rewrite run_bind.
  destruct (Hdefer r st) as [Htr Hsrv].
  destruct (deferredCalls _ _ _ _) as [[u st'] trf]. simpl in *.
  subst trf. rewrite Hsrv.
  by rewrite app_nil_r.
Qed.

End HandlerRuns.

(** ** The tracker around the session *)

Section Tracked.

Lemma quietEv_plainEv (e : event) : quietEv e -> plainEv e.
Proof. by destruct e. Qed.

Lemma trackEv_quiet (tr : list event) (t : sessionCloseTracker) :
  Forall quietEv tr -> fold_left trackEv tr t = t.
Proof.
  intros H. revert t. induction H as [|e tr He _ IH]; intros t; [done|].
  simpl. rewrite IH. by destruct e.
Qed.

Lemma quiet_tracked {A} (m : M A) : quiet m -> tracked m.
Proof.
  intros Hm st. destruct (Hm st) as (H1 & _ & H3). split.
  - rewrite H1. destruct (scr st); [|done]. simpl.
    by rewrite trackEv_quiet.
  - eapply Forall_impl; [exact H3 | apply quietEv_plainEv].
Qed.

Lemma tracked_ret {A} (a : A) : tracked (mret a : M A).
Proof. apply quiet_tracked, quiet_ret. Qed.

Lemma tracked_bind {A B} (m : M A) (f : A -> M B) :
  tracked m -> (forall a, tracked (f a)) -> tracked (m ≫= f).
Proof.
  intros Hm Hf st. rewrite run_bind.
  destruct (Hm st) as (H1 & H2).
  destruct (m st) as [[a st1] t1]. simpl in *.
  destruct (Hf a st1) as (H3 & H4).
  destruct (f a st1) as [[b st2] t2]. simpl in *.
  split; [|by apply Forall_app].
  rewrite H3, H1. destruct (scr st); [|done]. simpl.
  by rewrite fold_left_app.
Qed.

Lemma tracked_when (b : bool) (m : M unit) : tracked m -> tracked (when b m).
Proof. destruct b; [done|]. intros _. apply tracked_ret. Qed.

Lemma tracked_sessionExit (c : Z) : tracked (sessionExit c).
Proof.
  intros st. split; [|by repeat constructor].
  simpl. by destruct (scr st).
Qed.

Lemma tracked_sessionClose : tracked sessionClose.
Proof.
  intros st. split; [|by repeat constructor].
  simpl. by destruct (scr st).
Qed.

Lemma tracked_closeCause (r : string) : tracked (closeCause r).
Proof.
  intros st. split; [|by constructor]. simpl. by destruct (scr st).
Qed.

(** [exitOnce] has fired: the tracker does not change any more. *)
Lemma trackEv_fired (tr : list event) (t : sessionCloseTracker) :
  exitOnce t = true -> fold_left trackEv tr t = t.
Proof.
  revert t. induction tr as [|e tr IH]; intros t Ht; [done|]. simpl.
  assert (trackEv t e = t) as ->; [|by apply IH].
  destruct e; try done; unfold trackEv, track; by rewrite Ht.
Qed.

(** The code in a fresh tracker after the events of a trace. *)
Lemma exitCode_firstExit (tr : list event) :
  exitCode (fold_left trackEv tr newTracker) = firstExit tr.
Proof.
  induction tr as [|e tr IH]; [done|].
  destruct e; try exact IH; simpl; by rewrite trackEv_fired.
Qed.

Lemma firstExit_quiet (pre tr : list event) :
  Forall quietEv pre -> firstExit (pre ++ tr) = firstExit tr.
Proof.
  induction 1 as [|e pre He _ IH]; [done|]. simpl. by destruct e.
Qed.

End Tracked.

Create HintDb tracked.
#[export] Hint Resolve tracked_ret tracked_when tracked_sessionExit
  tracked_sessionClose tracked_closeCause : tracked.

Ltac tracked_auto :=
  repeat first
    [ progress cbv zeta
    | match goal with
      | |- tracked (_ ≫= _) => apply tracked_bind; [|intros ?]
      | |- tracked (when _ _) => apply tracked_when
      | |- tracked (match ?x with _ => _ end) => destruct x
      end
    | solve [eauto with tracked]
    | solve [apply quiet_tracked; quiet_auto] ].

Section TrackedHandler.

Context (host : Host) (cfg : Config) (oracle : Oracle).

Lemma tracked_sftpHandler : tracked (sftpHandler host oracle).
Proof. unfold sftpHandler. tracked_auto. Qed.

Lemma tracked_dispatch (session : ssh.Session) (env : list string) :
  tracked (dispatch host cfg oracle session env).
Proof.
  pose proof tracked_sftpHandler.
  pose proof (quiet_sessionStart host cfg oracle).
  unfold dispatch. tracked_auto.
Qed.

End TrackedHandler.

(** ** What the traces of the handler say *)

Section Traces.

Lemma exits_app (a b : list event) : exits (a ++ b) = exits a ++ exits b.
Proof. apply omap_app. Qed.

Lemma writes_app (a b : list event) : writes (a ++ b) = writes a ++ writes b.
Proof. apply omap_app. Qed.

Lemma starts_app (a b : list event) : starts (a ++ b) = starts a ++ starts b.
Proof. apply omap_app. Qed.

Lemma exits_quiet (tr : list event) : Forall quietEv tr -> exits tr = [].
Proof. induction 1 as [|e tr He _ IH]; [done|]. by destruct e. Qed.

Lemma exits_enterTrace (host : Host) (session : ssh.Session) :
  exits (enterTrace host session) = []
  /\ writes (enterTrace host session) = [] /\ starts (enterTrace host session) = [].
Proof.
  unfold enterTrace.
  by destruct (bool_decide _), (reportSession _).
Qed.

Lemma exits_deferredTrace (st : St) (r : route) :
  exits (deferredTrace st r) = []
  /\ writes (deferredTrace st r) = [] /\ starts (deferredTrace st r) = [].
Proof.
  unfold deferredTrace. destruct (scr st), r as [| | | | |[]]; done.
Qed.

End Traces.

Section GuardedRuns.

Context (host : Host) (cfg : Config) (oracle : Oracle).

Lemma dispatch_blocked (session : ssh.Session) (env : list string) (st : St) :
  fileTransferBlocked cfg session = true ->
  exists st',
    dispatch host cfg oracle session env st
    = (RouteBlocked, st',
       [EvLog Warn "file transfer blocked"]
       ++ (if String.eqb (ssh.Subsystem session) ""
           then [EvWrite blockedMessage (writeErr oracle (written st))]
           else [])
       ++ [EvExit 65]).
Proof.
  intros H. unfold dispatch. rewrite H.
  destruct (String.eqb (ssh.Subsystem session) ""); eexists; reflexivity.
Qed.

(** C2: the guard blocks a session exactly when [BlockFileTransfer] is
    set and the subsystem is sftp or the base name of the first word of
    the command is one of nc, rsync, scp and sftp; and the handler of an
    accepted session that the guard blocks starts no process, exits the
    session with code 65 and nothing else, and writes to it the bytes 02,
    "File transfer has been disabled." and a new line when the subsystem
    is empty, and nothing otherwise. *)
Theorem blocked_file_transfer (s : Server) (session : ssh.Session) :
  (fileTransferBlocked cfg session = true
   <-> BlockFileTransfer cfg = true
       /\ (ssh.Subsystem session = "sftp"
           \/ exists c rest,
                ssh.Command session = c :: rest
                /\ filepath.Base c ∈ ["nc"; "rsync"; "scp"; "sftp"]))
  /\ (accepted s session = true ->
      fileTransferBlocked cfg session = true ->
      let tr := (runHandler host cfg oracle s session).2 in
      starts tr = []
      /\ exits tr = [65]
      /\ writes tr
         = if String.eqb (ssh.Subsystem session) ""
           then [String "002" "File transfer has been disabled."
                 +:+ String "010" ""]
           else []).
Proof.
  split; [apply fileTransferBlocked_iff|].
  intros Hopen Hblocked. apply accepted_open in Hopen.
  rewrite (accepted_run _ _ _ _ _ Hopen).
  destruct (dispatch_blocked session (envOf host session) (enteredSt host s session)
              Hblocked) as [st' ->].
  cbn [snd].
  destruct (exits_enterTrace host session) as (He1 & He2 & He3).
  destruct (exits_deferredTrace st' RouteBlocked) as (Hd1 & Hd2 & Hd3).
  rewrite !starts_app, !exits_app, !writes_app.
  rewrite He1, He2, He3, Hd1, Hd2, Hd3.
  by destruct (String.eqb (ssh.Subsystem session) "").
Qed.

Lemma dispatch_exec_exits (session : ssh.Session) (env : list string)
    (st : St) (r : outcome unit) :
  (dispatch host cfg oracle session env st).1.1 = RouteExec r ->
  exits (dispatch host cfg oracle session env st).2
  = match r with
    | Returns _ => [0]
    | Fails e =>
        match asExitError e with
        | Some c => [if c =? -1 then 255 else c]
        | None => [229]
        end
    | Panics _ => []
    end
  /\ r = (sessionStart host cfg oracle session (execEnv oracle session env)
            (extractContainerInfo env).1.1 (extractContainerInfo env).1.2
            st).1.1.
Proof.
  destruct (fileTransferBlocked cfg session) eqn:Hb.
  { by destruct (dispatch_blocked session env st Hb) as [st' ->]. }
  unfold dispatch, execEnv. rewrite Hb.
  destruct (extractContainerInfo env) as [[container containerUser] env1].
  cbn [fst snd]. rewrite run_bind.
  destruct (when _ _ st) as [[u st1] t1] eqn:Hwhen.
  assert (exits t1 = [] /\ st1 = st) as [Ht1 ->].
  { unfold when in Hwhen. destruct (negb _); by injection Hwhen as <- <- <-. }
  destruct (String.eqb (ssh.Subsystem session) ""); cycle 1.
  { destruct (String.eqb (ssh.Subsystem session) "sftp"); [|by simpl].
    destruct (ExperimentalContainers cfg && _); [by simpl|].
    rewrite !run_bind.
    destruct (sftpHandler host oracle st) as [[err st2] t2].
    rewrite run_bind. by destruct (when _ _ st2) as [[? ?] ?]. }
  rewrite run_bind.
  destruct (ssh.X11Req session) as [x11|].
  - destruct (x11Handler oracle) as [display handled].
    destruct handled; cbn [negb fst]; [|by simpl].
    rewrite run_ret.
    pose proof (quiet_sessionStart host cfg oracle session
                  (env1 ++ ["DISPLAY=localhost:" +:+ itoa display +:+ "."
                              +:+ itoa (ScreenNumber x11)])
                  container containerUser st) as (_ & _ & Hq).
    rewrite run_bind.
    destruct (sessionStart _ _ _ _ _ _ _ st) as [[r' st3] t3].
    cbn [fst snd] in *. apply exits_quiet in Hq.
    destruct r' as [[]|e|msg]; [| destruct (asExitError e) as [c|] eqn:Hc |];
      simpl; intros [= <-]; rewrite ?exits_app, ?Ht1, ?Hq, ?Hc; by rewrite ?Hc.
  - rewrite run_ret.
    pose proof (quiet_sessionStart host cfg oracle session env1
                  container containerUser st) as (_ & _ & Hq).
    rewrite run_bind.
    destruct (sessionStart _ _ _ _ _ _ _ st) as [[r' st3] t3].
    cbn [fst snd] in *. apply exits_quiet in Hq.
    destruct r' as [[]|e|msg]; [| destruct (asExitError e) as [c|] eqn:Hc |];
      simpl; intros [= <-]; rewrite ?exits_app, ?Ht1, ?Hq, ?Hc; by rewrite ?Hc.
Qed.

(** C3: the exit code of a session that is routed to a runner. The
    handler gets [r] from [sessionStart]; when [r] is an error that is or
    wraps an exec ExitError of code [c], it exits the session with [c],
    and with 255 when [c] is -1; when [r] is any other error, with 229;
    when [r] is nil, with 0. No other exit status is sent. *)
Theorem exec_exit_code (s : Server) (session : ssh.Session) (r : outcome unit) :
  (runHandler host cfg oracle s session).1.1 = Some (RouteExec r) ->
  let tr := (runHandler host cfg oracle s session).2 in
  r = runnerResult host cfg oracle s session
  /\ (forall e c, r = Fails e -> asExitError e = Some c ->
      exits tr = [if c =? -1 then 255 else c])
  /\ (forall e, r = Fails e -> asExitError e = None -> exits tr = [229])
  /\ (r = Returns tt -> exits tr = [0]).
Proof.
  destruct (closing s) as [c|] eqn:Hclosing.
  { rewrite rejected_run by (by rewrite Hclosing). done. }
  rewrite (accepted_run _ _ _ _ _ Hclosing).
  pose proof (dispatch_exec_exits session (envOf host session)
                (enteredSt host s session) r) as Hd.
  destruct (dispatch _ _ _ _ _ _) as [[r' st] trd].
  cbn [fst snd] in *. intros [= ->]. destruct (Hd eq_refl) as [Hex Hstart].
  destruct (exits_enterTrace host session) as (He1 & _).
  destruct (exits_deferredTrace st (RouteExec r)) as (Hd1 & _).
  rewrite !exits_app, He1, Hd1, Hex, app_nil_r. simpl.
  split; [exact Hstart|]. repeat split.
  - intros e c -> Hc. by rewrite Hc.
  - intros e -> Hc. by rewrite Hc.
  - by intros ->.
Qed.

End GuardedRuns.

(** ** Reports of connections *)

Section Reports.

Context (host : Host) (cfg : Config) (oracle : Oracle).

Lemma reports_app (a b : list event) :
  reports (a ++ b) = reports a ++ reports b.
Proof. apply omap_app. Qed.

Lemma disconnects_app (a b : list event) :
  disconnects (a ++ b) = disconnects a ++ disconnects b.
Proof. apply omap_app. Qed.

Lemma reports_plain (tr : list event) :
  Forall plainEv tr -> reports tr = [] /\ disconnects tr = [].
Proof.
  induction 1 as [|e tr He _ [IH1 IH2]]; [done|]. by destruct e.
Qed.

Lemma firstExit_disconnected (mid post : list event) (c : Z) (r : string) :
  Forall quietEv post ->
  firstExit (mid ++ EvDisconnected c r :: post) = firstExit mid.
Proof.
  intros Hpost. induction mid as [|e mid IH].
  - simpl. rewrite <- (app_nil_r post). by rewrite firstExit_quiet.
  - by destruct e.
Qed.

Lemma reported_once (session : ssh.Session) (tr : list event) :
  reported host session tr ->
  reports tr = [(magicOf host session, ssh.RemoteAddr session)]
  /\ exists reason, disconnects tr = [(firstExit tr, reason)].
Proof.
  intros (pre & mid & post & reason & Htr & Hpre & Hmid & Hpost).
  assert (reports pre = [] /\ disconnects pre = []) as [Hr1 Hd1].
  { apply reports_plain. eapply Forall_impl; [exact Hpre|].
    apply quietEv_plainEv. }
  assert (reports post = [] /\ disconnects post = []) as [Hr3 Hd3].
  { apply reports_plain. eapply Forall_impl; [exact Hpost|].
    apply quietEv_plainEv. }
  apply reports_plain in Hmid as [Hr2 Hd2].
  split; [|exists reason]; rewrite Htr at 1.
  - rewrite !reports_app, Hr1, Hr2, Hr3. reflexivity.
  - rewrite !disconnects_app, Hd1, Hd2, Hd3. reflexivity.
Qed.

Lemma reported_rejected (s : Server) (session : ssh.Session) :
  closing s <> None ->
  reported host session (runHandler host cfg oracle s session).2
  /\ firstExit (runHandler host cfg oracle s session).2 = 1.
Proof.
  intros H. rewrite rejected_run by done. split; [|done].
  exists [EvLog Info "handling ssh session"],
         [EvLog Info rejectedReason; EvClose], [], rejectedReason.
  repeat split; by repeat constructor.
Qed.

Lemma reported_accepted (s : Server) (session : ssh.Session) :
  closing s = None ->
  let tr := (runHandler host cfg oracle s session).2 in
  if bool_decide (magicOf host session = MagicSessionTypeJetBrains)
  then Forall plainEv tr
  else reported host session tr.
Proof.
  intros H. rewrite (accepted_run _ _ _ _ _ H).
  pose proof (tracked_dispatch host cfg oracle session (envOf host session)
                (enteredSt host s session)) as [Hscr Hplain].
  destruct (dispatch _ _ _ _ _ _) as [[r st] trd]. cbn [fst snd] in *.
  unfold enterTrace, deferredTrace, enteredSt, reportSession in *.
  cbn [scr] in Hscr.
  destruct (bool_decide (magicOf host session = MagicSessionTypeJetBrains)) eqn:Hj.
  - cbn [negb] in *. simpl in Hscr. rewrite Hscr.
    apply bool_decide_eq_true in Hj. rewrite Hj. simpl.
    constructor; [done|]. apply Forall_app. split; [done|].
    destruct r as [| | | | |[]]; by repeat constructor.
  - cbn [negb] in *. simpl in Hscr. rewrite Hscr.
    set (pre := [EvLog Info "handling ssh session"]
                ++ (if bool_decide (magicOf host session = MagicSessionTypeUnknown)
                    then [EvLog Warn "invalid magic ssh session type specified"]
                    else [])).
    set (post := if r is RouteExec (Panics msg) then [EvPanic msg] else []).
    assert (Forall quietEv pre) as Hpre.
    { subst pre.
      destruct (bool_decide (magicOf host session = MagicSessionTypeUnknown));
        simpl; by repeat constructor. }
    assert (Forall quietEv post) as Hpost.
    { subst post. destruct r as [| | | | |[]]; by repeat constructor. }
    exists pre, trd, post, (reason st).
    repeat split; [|done..].
    rewrite exitCode_firstExit.
    assert (firstExit
              (pre ++ [EvReportConnection (magicOf host session)
                         (ssh.RemoteAddr session)]
               ++ trd ++ [EvDisconnected (firstExit trd) (reason st)] ++ post)
            = firstExit trd) as Hfe.
    { rewrite firstExit_quiet by done. simpl.
      by rewrite firstExit_disconnected. }
    subst pre. rewrite <- !app_assoc in *. by rewrite Hfe.
Qed.

(** C1, amended: [ReportConnection] is invoked once by the handler of
    every session, admitted or not, except that of an admitted JetBrains
    session, which invokes neither it nor a [disconnected]. Where it is
    invoked, the [disconnected] that it returns is invoked once, after it
    and after every [Exit] and [Close] of the handler, with the code of
    the first [Exit], 1 when a [Close] came first (as it does for a
    session that was not admitted), and 0 when there was neither. *)
Theorem report_and_disconnected (s : Server) (session : ssh.Session) :
  let tr := (runHandler host cfg oracle s session).2 in
  if accepted s session
     && bool_decide (magicOf host session = MagicSessionTypeJetBrains)
  then reports tr = [] /\ disconnects tr = []
  else reported host session tr
       /\ reports tr = [(magicOf host session, ssh.RemoteAddr session)]
       /\ (exists reason, disconnects tr = [(firstExit tr, reason)])
       /\ (accepted s session = false -> firstExit tr = 1).
Proof.
  unfold accepted. destruct (closing s) as [c|] eqn:Hclosing.
  - assert (closing s <> None) as Hne by (by rewrite Hclosing).
    rewrite (trackSession_closing _ _ Hne). cbn [fst andb].
    destruct (reported_rejected s session Hne) as [Hrep Hone].
    destruct (reported_once _ _ Hrep) as [Hr Hd]. by repeat split.
  - rewrite (trackSession_open _ _ Hclosing). cbn [andb].
    pose proof (reported_accepted s session Hclosing) as H.
    destruct (bool_decide _).
    + by apply reports_plain.
    + destruct (reported_once _ _ H) as [Hr Hd]. by repeat split.
Qed.

End Reports.

(** ** Banners and the message of the day *)

Section LoginShell.

Context (host : Host) (cfg : Config) (oracle : Oracle).

Lemma run_writeLines_cons (l : string) (ls : list string) (st : St) :
  writeLines oracle (l :: ls) st
  = let st1 := mkSt (server st) (scr st) (reason st) (S (written st)) in
    match writeErr oracle (written st) with
    | Some e =>
        (Some (Wrapped "write line" e), st1, [EvWrite (crlf l) (Some e)])
    | None =>
        let '(r, st2, tr) := writeLines oracle ls st1 in
        (r, st2, EvWrite (crlf l) None :: tr)
    end.
Proof.
  cbn [writeLines]. rewrite run_bind. unfold sessionWrite at 1.
  cbv beta iota zeta. by destruct (writeErr oracle (written st)).
Qed.

Lemma writeLines_spec (ls : list string) (st : St) :
  let r := writeLines oracle ls st in
  Forall showEv r.2
  /\ writes r.2 `prefix_of` crlf <$> ls
  /\ (r.1.1 = None -> writes r.2 = crlf <$> ls)
  /\ (allWritesOk oracle -> r.1.1 = None).
Proof.
  revert st. induction ls as [|l ls IH]; intros st.
  { repeat split; try done. }
  cbv zeta. rewrite run_writeLines_cons. cbv zeta.
  destruct (writeErr oracle (written st)) as [e|] eqn:He.
  - cbn [fst snd]. repeat split.
    + by repeat constructor.
    + exists (crlf <$> ls). reflexivity.
    + done.
    + intros Hok. by rewrite Hok in He.
  - specialize (IH (mkSt (server st) (scr st) (reason st) (S (written st)))).
    destruct (writeLines oracle ls _) as [[err st'] tr].
    cbn [fst snd] in *. destruct IH as (H1 & H2 & H3 & H4). repeat split.
    + by constructor.
    + by apply prefix_cons.
    + intros Herr. change (crlf l :: writes tr = crlf l :: (crlf <$> ls)).
      by rewrite H3.
    + done.
Qed.

Lemma writeWithCarriageReturn_spec (src : Reader) (st : St) :
  let r := writeWithCarriageReturn oracle src st in
  Forall showEv r.2
  /\ writes r.2 `prefix_of` crlf <$> (scan src).1
  /\ (r.1.1 = None -> writes r.2 = crlf <$> (scan src).1)
  /\ (allWritesOk oracle -> writes r.2 = crlf <$> (scan src).1)
  /\ (allWritesOk oracle -> (scan src).2 = None -> r.1.1 = None).
Proof.
  unfold writeWithCarriageReturn. destruct (scan src) as [ls e].
  rewrite run_bind.
  pose proof (writeLines_spec ls st) as (H1 & H2 & H3 & H4).
  destruct (writeLines oracle ls st) as [[err st'] tr]. simpl in *.
  destruct err as [e'|]; simpl.
  - rewrite app_nil_r. repeat split; try done.
    + intros Hok. by specialize (H4 Hok).
    + intros Hok. by specialize (H4 Hok).
  - destruct e; simpl; rewrite app_nil_r; repeat split; auto; done.
Qed.








(** *** What is logged, and when *)









End LoginShell.

(** ** The resource tracker and the server's lifecycle *)

Section Lifecycle.

Lemma serverStep_closing (running : Process -> Prop) (s s' : Server) :
  serverStep running s s' ->
  closing s' = closing s
  /\ closedChans s' = closedChans s
  /\ nextChan s' = nextChan s
  /\ (hostSigners s <> O -> hostSigners s' <> O).
Proof.
  intros Hstep.
  destruct Hstep as [l add s s' H|l c add s|ss add s|p s|p s _|d s|d s|s].
  - unfold trackListener in H.
    destruct add; [destruct (closing s) eqn:E; [done|]|];
      injection H as <-; by rewrite ?E.
  - unfold trackConn. destruct add; [|done]. by destruct (_ || _).
  - unfold trackSession. destruct add; [|done]. by destruct (bool_decide _).
  - unfold trackProcess. by destruct (bool_decide _).
  - done.
  - done.
  - done.
  - repeat split; try done. unfold UpdateHostSigner. simpl. lia.
Qed.

Lemma serverSteps_closing (running : Process -> Prop) (s s' : Server) :
  rtc (serverStep running) s s' ->
  closing s' = closing s
  /\ closedChans s' = closedChans s
  /\ nextChan s' = nextChan s
  /\ (hostSigners s <> O -> hostSigners s' <> O).
Proof.
  induction 1 as [s|s s1 s2 Hstep _ IH]; [done|].
  apply serverStep_closing in Hstep as (H1 & H2 & H3 & H4).
  destruct IH as (I1 & I2 & I3 & I4).
  repeat split; [congruence..|auto].
Qed.

(** [NewServer] satisfies the invariant of the channels, and the steps
    of the tracker and of [Close] keep it. *)
Lemma chanInv_NewServer : chanInv NewServer.
Proof. split; [done|]. intros c Hc. set_solver. Qed.

Lemma chanInv_step (running : Process -> Prop) (s s' : Server) :
  serverStep running s s' -> chanInv s -> chanInv s'.
Proof.
  intros Hstep [H1 H2].
  apply serverStep_closing in Hstep as (E1 & E2 & E3 & _).
  unfold chanInv. by rewrite E1, E2, E3.
Qed.

Lemma chanInv_Close_enter (e : option error) (s s' : Server)
    (tr : list event) (err : option error) :
  Close_enter e s = CloseRuns s' tr err -> chanInv s -> chanInv s'.
Proof.
  unfold Close_enter. destruct (closing s) eqn:E; [done|].
  intros [= <- _ _] [H1 H2]. split; simpl.
  - intros c [= <-]. split; [|lia]. intros Hc. apply H2 in Hc. lia.
  - intros c Hc. apply H2 in Hc. lia.
Qed.

Lemma chanInv_Close_leave (s s' : Server) :
  Close_leave s = Returns s' -> chanInv s -> chanInv s'.
Proof.
  unfold Close_leave. destruct (closing s) as [c|] eqn:E; [|done].
  intros [= <-] [H1 H2]. split; simpl; [done|].
  intros c' Hc. apply elem_of_union in Hc as [Hc|Hc]; [|by apply H2].
  apply elem_of_singleton in Hc as ->. by apply H1.
Qed.

(** [Close] returns on a server that is not closing and that no goroutine
    is left on, with [closing] nil again and the error of the library. *)
Lemma Close_returns (e : option error) (s : Server) :
  closing s = None -> wg s = 0 ->
  exists s' tr, Close e s = Some (e, s', tr) /\ closing s' = None.
Proof.
  intros Hc Hwg. unfold Close, Close_enter, wgWait, Close_leave.
  rewrite Hc. simpl. rewrite Hwg. simpl. by eexists _, _.
Qed.

(** The gate, in a state in which [closing] is set. *)
Lemma gate_shut (s : Server) (c : Chan) :
  closing s = Some c ->
  (forall l, trackListener l true s = Parked c)
  /\ (forall l k, trackConn l k true s = (false, s))
  /\ (forall ss, trackSession ss true s = (false, s))
  /\ (forall p, trackProcess p true s = (false, s))
  /\ (forall e, Close_enter e s = CloseWaits c).
Proof.
  intros Hc. split; [|split; [|split; [|split]]].
  - intros l. unfold trackListener. by rewrite Hc.
  - intros l k. unfold trackConn. by rewrite Hc.
  - intros ss. unfold trackSession. by rewrite Hc.
  - intros p. unfold trackProcess. by rewrite Hc.
  - intros e. unfold Close_enter. by rewrite Hc.
Qed.

(** C7: the gate of the [closing] channel. A [Close] that finds
    [closing] nil sets it, to a channel [c]. From then on, whatever the
    other goroutines do and until the closer leaves, [closing] is [c], a
    listener that is added waits on [c], a connection, a session or a
    process is refused with the server unchanged, and another caller of
    [Close] waits on [c] too. When the closer leaves, [closing] is nil
    again, the caller that waited returns the error "server is closed",
    and [Serve] tracks a new listener. *)
Theorem closing_gate (e : option error) (s : Server) :
  chanInv s ->
  closing s = None ->
  exists c s0 tr,
    Close_enter e s = CloseRuns s0 tr e
    /\ closing s0 = Some c
    /\ forall s1,
         rtc trackerStep s0 s1 ->
         closing s1 = Some c
         /\ (forall l, trackListener l true s1 = Parked c)
         /\ (forall l k, trackConn l k true s1 = (false, s1))
         /\ (forall ss, trackSession ss true s1 = (false, s1))
         /\ (forall p, trackProcess p true s1 = (false, s1))
         /\ (forall e', Close_enter e' s1 = CloseWaits c)
         /\ Close_waiter c s1 = Parked c
         /\ exists s2,
              Close_leave s1 = Returns s2
              /\ closing s2 = None
              /\ Close_waiter c s2 = Proceeds (ErrorString "server is closed")
              /\ forall l,
                   hostSigners s <> O ->
                   exists s3, Serve_enter l s2 = Serving s3
                              /\ l ∈ listeners s3.
Proof.
  intros Hinv Hopen.
  destruct (Close_enter e s) as [c'|s0 tr err] eqn:Henter.
  { unfold Close_enter in Henter. by rewrite Hopen in Henter. }
  pose proof (chanInv_Close_enter _ _ _ _ _ Henter Hinv) as Hinv0.
  unfold Close_enter in Henter. rewrite Hopen in Henter.
  injection Henter as <- <- <-.
  exists (nextChan s). eexists _, _. split; [done|]. split; [done|].
  intros s1 Hsteps.
  apply serverSteps_closing in Hsteps as (E1 & E2 & E3 & E4).
  cbn [closing makeClosing] in E1.
  destruct (gate_shut s1 (nextChan s) E1) as (G1 & G2 & G3 & G4 & G5).
  split; [done|]. split; [done|]. split; [done|]. split; [done|].
  split; [done|]. split; [done|]. split.
  { unfold Close_waiter. rewrite E2.
    rewrite bool_decide_eq_false_2; [done|].
    by apply (proj1 Hinv0 (nextChan s)). }
  unfold Close_leave. rewrite E1. eexists. split; [done|].
  split; [done|]. split.
  - unfold Close_waiter. cbn [closedChans clearClosing].
    rewrite bool_decide_eq_true_2; [done|].
    apply elem_of_union. left. by apply elem_of_singleton.
  - intros l Hkeys. unfold Serve_enter. cbn [hostSigners clearClosing].
    apply E4 in Hkeys. apply Nat.eqb_neq in Hkeys. rewrite Hkeys.
    eexists. split; [done|]. cbn [listeners withListeners].
    apply elem_of_union. left. by apply elem_of_singleton.
Qed.

End Lifecycle.

(** ** Processes without a PTY *)

Section NonPTYSetup.

Context (oracle : Oracle).

Lemma run_setup (cmd : Cmd) (st : St) (cmd' : Cmd) (p : Process)
    (st' : St) (tr : list event) :
  startNonPTYSession_setup oracle cmd st = (inr (cmd', p), st', tr) ->
  cmd' = withCancel None cmd
  /\ cmdStart oracle = Ok p
  /\ closing (server st) = None
  /\ server st' = (trackProcess p true (server st)).2
  /\ tr = [EvStart cmd' false None].
Proof.
  unfold startNonPTYSession_setup.
  destruct (stdinPipe oracle); [done|].
  destruct (cmdStart oracle) as [q|]; [|done].
  rewrite run_bind, run_emit, run_bind. unfold onServer.
  cbv beta iota zeta. unfold trackProcess at 1.
  destruct (closing (server st)) as [c|] eqn:Hc.
  - by rewrite bool_decide_eq_true_2.
  - rewrite bool_decide_eq_false_2 by (intros Hn; by apply Hn).
    cbn. intros [= <- <- <- <-]. repeat split; try done.
    unfold trackProcess. rewrite Hc.
    by rewrite bool_decide_eq_false_2 by (intros Hn; by apply Hn).
Qed.

End NonPTYSetup.

Section RunnersPool.

(** *** The processes that runners wait for *)






End RunnersPool.

Section NonPTY.

Context (oracle : Oracle).

(** *** Computations that leave the server out *)

Lemma withServer_same (st : St) : withServer (server st) st = st.
Proof. by destruct st. Qed.

Lemma serverFree_ret {A} (a : A) : serverFree (mret a : M A).
Proof. by intros s st. Qed.

Lemma serverFree_emit (e : event) : serverFree (emit e).
Proof. by intros s st. Qed.

Lemma serverFree_sessionWrite (p : string) : serverFree (sessionWrite oracle p).
Proof. by intros s st. Qed.

Lemma serverFree_bind {A B} (m : M A) (f : A -> M B) :
  serverFree m -> (forall a, serverFree (f a)) -> serverFree (m ≫= f).
Proof.
  intros Hm Hf s st. rewrite !run_bind, (Hm s st).
  destruct (m st) as [[a st1] t1]. cbn [fst snd].
  rewrite (Hf a s st1). by destruct (f a st1) as [[b st2] t2].
Qed.

Lemma serverFree_handleSignals (p : Process) (sigs : list string) :
  serverFree (handleSignals p sigs).
Proof.
  induction sigs as [|sig sigs IH]; [apply serverFree_ret|].
  cbn [handleSignals]. unfold handleSignal.
  repeat first [apply serverFree_bind; [|intros ?] | apply serverFree_emit | exact IH].
Qed.

Lemma serverFree_copyToSession (chunks : list string) :
  serverFree (copyToSession oracle chunks).
Proof.
  induction chunks as [|chunk chunks IH]; [apply serverFree_ret|].
  cbn [copyToSession]. apply serverFree_bind; [apply serverFree_sessionWrite|].
  intros [e|]; [apply serverFree_ret|exact IH].
Qed.

Lemma serverFree_wait (p : Process) :
  serverFree (startNonPTYSession_wait oracle p).
Proof.
  unfold startNonPTYSession_wait.
  apply serverFree_bind; [apply serverFree_handleSignals|intros ?].
  apply serverFree_bind; [apply serverFree_copyToSession|intros ?].
  apply serverFree_ret.
Qed.

Lemma serverFree_server {A} (m : M A) (st : St) :
  serverFree m -> server (m st).1.2 = server st.
Proof.
  intros Hm. pose proof (Hm (server st) st) as H.
  rewrite withServer_same in H. rewrite H at 1. reflexivity.
Qed.

Lemma handleSignals_no_cancel (p : Process) (sigs : list string) (st : St) :
  forall q, EvCmdCancel q ∉ (handleSignals p sigs st).2.
Proof.
  intros q. revert st. induction sigs as [|sig sigs IH]; intros st.
  - apply not_elem_of_nil.
  - cbn [handleSignals]. unfold handleSignal. rewrite !run_bind, !run_emit.
    specialize (IH st). destruct (handleSignals p sigs st) as [[u st1] t1].
    cbn in *. intros Hin.
    apply elem_of_cons in Hin as [Hin|Hin]; [done|].
    apply elem_of_cons in Hin as [Hin|Hin]; [done|]. done.
Qed.

Lemma copyToSession_no_cancel (chunks : list string) (st : St) :
  forall q, EvCmdCancel q ∉ (copyToSession oracle chunks st).2.
Proof.
  intros q. revert st. induction chunks as [|chunk chunks IH]; intros st.
  - apply not_elem_of_nil.
  - cbn [copyToSession]. rewrite run_bind. unfold sessionWrite at 1.
    cbv beta iota zeta.
    destruct (writeErr oracle (written st)) as [e|].
    + cbn. intros Hin. apply elem_of_cons in Hin as [Hin|Hin]; [done|].
      by apply not_elem_of_nil in Hin.
    + specialize (IH (mkSt (server st) (scr st) (reason st) (S (written st)))).
      destruct (copyToSession oracle chunks _) as [[u st1] t1].
      cbn in *. intros Hin.
      apply elem_of_cons in Hin as [Hin|Hin]; [done|]. done.
Qed.

(** The runner, while it waits: what [cmd.Wait] returns, and no cancel. *)
Lemma run_wait (p : Process) (st : St) :
  (startNonPTYSession_wait oracle p st).1.1 = cmdWait oracle
  /\ forall q, EvCmdCancel q ∉ (startNonPTYSession_wait oracle p st).2.
Proof.
  unfold startNonPTYSession_wait. rewrite run_bind.
  pose proof (handleSignals_no_cancel p (clientSignals oracle) st) as Q1.
  destruct (handleSignals p (clientSignals oracle) st) as [[u1 st1] t1].
  rewrite run_bind.
  pose proof (copyToSession_no_cancel (cmdOutput oracle) st1) as Q2.
  destruct (copyToSession oracle (cmdOutput oracle) st1) as [[u2 st2] t2].
  rewrite run_ret. cbn [fst snd] in *. split; [done|].
  intros q Hin. rewrite app_nil_r in Hin.
  apply elem_of_app in Hin as [Hin|Hin]; [by apply (Q1 q)|by apply (Q2 q)].
Qed.

(** The runner is its setup, its wait and its deferred call, in a row. *)
Lemma startNonPTYSession_parts (cmd : Cmd) (st : St) (cmd' : Cmd)
    (p : Process) (st1 : St) (tr1 : list event) :
  startNonPTYSession_setup oracle cmd st = (inr (cmd', p), st1, tr1) ->
  startNonPTYSession oracle cmd st
  = ((startNonPTYSession_wait oracle p st1).1.1,
     (startNonPTYSession_leave p (startNonPTYSession_wait oracle p st1).1.2).1.2,
     tr1 ++ (startNonPTYSession_wait oracle p st1).2).
Proof.
  intros Hsetup. unfold startNonPTYSession. rewrite run_bind, Hsetup.
  rewrite run_bind.
  destruct (startNonPTYSession_wait oracle p st1) as [[err st2] tr2].
  rewrite run_bind. unfold startNonPTYSession_leave at 1.
  rewrite run_bind. unfold onServer at 1.
  destruct (trackProcess p false (server st2)) as [ok s3] eqn:Hleave.
  rewrite !run_ret. cbn [fst snd app].
  unfold startNonPTYSession_leave. rewrite run_bind. unfold onServer.
  rewrite Hleave, run_ret. cbn [fst snd]. by rewrite !app_nil_r.
Qed.


(** The runner does not cancel a process that it has tracked. *)
Lemma startNonPTYSession_no_cancel (cmd : Cmd) (st : St) :
  closing (server st) = None ->
  forall q, EvCmdCancel q ∉ (startNonPTYSession oracle cmd st).2.
Proof.
  intros Hopen q.
  destruct (startNonPTYSession_setup oracle cmd st)
    as [[[e|[c p]] st1] t1] eqn:Hs.
  - unfold startNonPTYSession. rewrite run_bind, Hs, run_ret.
    cbn [fst snd]. rewrite app_nil_r.
    unfold startNonPTYSession_setup in Hs.
    destruct (stdinPipe oracle).
    { injection Hs as <- <- <-. apply not_elem_of_nil. }
    destruct (cmdStart oracle) as [p|].
    2:{ injection Hs as <- <- <-. cbn. intros Hin.
        apply elem_of_cons in Hin as [Hin|Hin]; [done|].
        by apply not_elem_of_nil in Hin. }
    rewrite run_bind, run_emit, run_bind in Hs. unfold onServer in Hs.
    cbv beta iota zeta in Hs. unfold trackProcess at 1 in Hs.
    rewrite Hopen in Hs.
    rewrite bool_decide_eq_false_2 in Hs by (intros Hn; by apply Hn).
    done.
  - rewrite (startNonPTYSession_parts _ _ _ _ _ _ Hs). cbn [fst snd].
    apply run_setup in Hs as (_ & _ & _ & _ & ->).
    pose proof (run_wait p st1) as [_ Hquiet].
    intros Hin. apply elem_of_app in Hin as [Hin|Hin].
    + apply elem_of_cons in Hin as [Hin|Hin]; [done|].
      by apply not_elem_of_nil in Hin.
    + by apply (Hquiet q).
Qed.

End NonPTY.

(** ** [Shutdown] *)

Section ShutdownFacts.

Lemma ctxErr_mono (r : ShutdownRun) (t t' : nat) (e : error) :
  ctxErr r t = Some e -> (t <= t')%nat -> ctxErr r t' = Some e.
Proof.
  unfold ctxErr. destruct (cancelAt r) as [c|]; [|done].
  destruct (c <=? t)%nat eqn:E; [|done]. intros [= <-] Hle.
  apply Nat.leb_le in E.
  assert ((c <=? t')%nat = true) as -> by (apply Nat.leb_le; lia). done.
Qed.

(** C10: the cancellation of the context goes before the result of
    [Close]. If the context is done no later than [Close] has finished,
    [Shutdown] returns the error of the context, wrapped, whatever
    [Close] returned; and if [Shutdown] returns nil, then [Close]
    returned nil and the context was not done at any instant up to the
    return. A [Close] that returns nil under a context that is never
    cancelled makes [Shutdown] return nil. *)
Theorem Shutdown_context_precedence (r : ShutdownRun) :
  (forall c k,
     cancelAt r = Some c -> closeAt r = Some k -> (c <= k)%nat ->
     Shutdown r = Some (Some (Wrapped "close server" (ctxError r))))
  /\ (Shutdown r = Some None ->
      closeResult r = None
      /\ exists k t,
           closeAt r = Some k /\ returnAt r = Some t /\ (k <= t)%nat
           /\ forall t', (t' <= t)%nat -> ctxErr r t' = None)
  /\ (forall k,
        closeAt r = Some k -> closeResult r = None -> cancelAt r = None ->
        Shutdown r = Some None).
Proof.
  repeat split.
  - intros c k Hc Hk Hle. unfold Shutdown, selectAt, ctxErr.
    rewrite Hc, Hk. rewrite Nat.min_l by done.
    assert ((c <=? c + recheckAfter r)%nat = true) as ->
      by (apply Nat.leb_le; lia).
    done.
  - revert H. unfold Shutdown, returnAt.
    destruct (selectAt r) as [t|] eqn:Hsel; [|done]. cbn.
    destruct (ctxErr r (t + recheckAfter r)) as [e|] eqn:Hre; [done|].
    assert (ctxErr r t = None) as Hnow.
    { destruct (ctxErr r t) as [e|] eqn:Hc; [|done].
      apply (ctxErr_mono _ _ (t + recheckAfter r)) in Hc; [|lia].
      congruence. }
    rewrite Hnow. rewrite bool_decide_eq_false_2 by (intros Hn; by apply Hn).
    cbn. by destruct (closeResult r).
  - revert H. unfold Shutdown, returnAt.
    destruct (selectAt r) as [t|] eqn:Hsel; [|done]. cbn.
    destruct (ctxErr r (t + recheckAfter r)) as [e|] eqn:Hre; [done|].
    intros _.
    assert (forall t', (t' <= t + recheckAfter r)%nat -> ctxErr r t' = None)
      as Hnever.
    { intros t' Hle. destruct (ctxErr r t') as [e|] eqn:Hc; [|done].
      apply (ctxErr_mono _ _ (t + recheckAfter r)) in Hc; [|lia].
      congruence. }
    unfold selectAt in Hsel.
    destruct (closeAt r) as [k|] eqn:Hk.
    + exists k, (t + recheckAfter r)%nat. repeat split; try done.
      destruct (cancelAt r) as [c|] eqn:Hc; [|injection Hsel as <-; lia].
      assert (~ (c <= t + recheckAfter r)%nat) as Hlate.
      { intros Hle. specialize (Hnever c Hle). unfold ctxErr in Hnever.
        by rewrite Hc, Nat.leb_refl in Hnever. }
      injection Hsel as <-. lia.
    + destruct (cancelAt r) as [c|] eqn:Hc; [|done].
      injection Hsel as <-. specialize (Hnever c ltac:(lia)).
      unfold ctxErr in Hnever. rewrite Hc, Nat.leb_refl in Hnever. done.
  - intros k Hk Hres Hc. unfold Shutdown, selectAt, ctxErr.
    by rewrite Hc, Hk, Hres.
Qed.

End ShutdownFacts.

(** ** The statements above, on the sample host *)

(** C1, as stated, fails: a session that is not admitted is reported. *)
Lemma report_without_admission :
  ~ statedReportIffAccepted Sample.host Sample.cfg Sample.oracle
      Sample.closingServer Sample.echo.
Proof.
  intros [H _]. assert (accepted Sample.closingServer Sample.echo = true) as Ha.
  { apply H. vm_compute. discriminate. }
  vm_compute in Ha. discriminate.
Qed.

(** A session that comes in while the server closes is reported with 1. *)
Lemma report_and_disconnected_witness :
  accepted Sample.closingServer Sample.echo = false
  /\ firstExit (runHandler Sample.host Sample.cfg Sample.oracle
                  Sample.closingServer Sample.echo).2 = 1.
Proof.
  assert (accepted Sample.closingServer Sample.echo = false) as Ha
    by reflexivity.
  split; [exact Ha|].
  pose proof (report_and_disconnected Sample.host Sample.cfg Sample.oracle
                Sample.closingServer Sample.echo) as H.
  cbv zeta in H. rewrite Ha in H. cbn [andb] in H.
  destruct H as (_ & _ & _ & H). exact (H eq_refl).
Defined.

(** The blocked [scp] of the sample: no process, the message, exit 65. *)
Lemma blocked_file_transfer_witness :
  let tr := (runHandler Sample.host Sample.cfg Sample.oracle Sample.serving
               Sample.scp).2 in
  starts tr = []
  /\ exits tr = [65]
  /\ writes tr
     = [String "002" "File transfer has been disabled." +:+ String "010" ""].
Proof.
  apply (proj2 (blocked_file_transfer Sample.host Sample.cfg Sample.oracle
                  Sample.serving Sample.scp)); reflexivity.
Defined.

(** A login shell that a signal kills exits the session with 255. *)
Lemma exec_exit_code_witness :
  exits (runHandler Sample.host Sample.cfg (Sample.oracleWith (Some Sample.killed))
           Sample.serving Sample.login).2 = [255].
Proof.
  assert ((runHandler Sample.host Sample.cfg
             (Sample.oracleWith (Some Sample.killed)) Sample.serving
             Sample.login).1.1
          = Some (RouteExec (Fails (Wrapped "process wait" Sample.killed))))
    as Hroute by reflexivity.
  destruct (exec_exit_code _ _ _ _ _ _ Hroute) as (_ & H & _).
  exact (H _ (-1) eq_refl eq_refl).
Defined.




Lemma chanInv_serving : chanInv Sample.serving.
Proof.
  eapply (chanInv_step (fun _ => False)); [|apply chanInv_NewServer].
  apply StepHostSigner.
Defined.

(** A [Close] of the serving server of the sample sets [closing], and a
    session is refused; once the closer has left, the server serves a
    listener. *)
Lemma closing_gate_witness :
  exists c s0 tr,
    Close_enter None Sample.serving = CloseRuns s0 tr None
    /\ closing s0 = Some c
    /\ trackSession 1%positive true s0 = (false, s0)
    /\ exists s2,
         Close_leave s0 = Returns s2
         /\ closing s2 = None
         /\ Close_waiter c s2 = Proceeds (ErrorString "server is closed")
         /\ exists s3, Serve_enter 5%positive s2 = Serving s3
                       /\ 5%positive ∈ listeners s3.
Proof.
  destruct (closing_gate None Sample.serving chanInv_serving eq_refl)
    as (c & s0 & tr & Henter & Hc & Hsteps).
  exists c, s0, tr. split; [done|]. split; [done|].
  destruct (Hsteps _ (rtc_refl _ _))
    as (_ & _ & _ & Hsession & _ & _ & _ & s2 & Hleave & Hnil & Hwait & Hserve).
  split; [apply Hsession|].
  exists s2. split; [done|]. split; [done|]. split; [done|].
  apply Hserve. discriminate.
Defined.

(** A context cancelled before [Close] is done: its error is returned. *)
Lemma Shutdown_context_precedence_witness :
  Shutdown Sample.cancelled
  = Some (Some (Wrapped "close server" (ErrorString "context canceled"))).
Proof.
  apply (proj1 (Shutdown_context_precedence Sample.cancelled) 2%nat 5%nat);
    [reflexivity | reflexivity | repeat constructor].
Defined.

(** * More properties of the code *)

(** ** The container variables *)

Section ContainerInfo.

Local Abbreviation CONTAINER := ContainerEnvironmentVariable.
Local Abbreviation CONTAINER_USER := ContainerUserEnvironmentVariable.

Lemma CONTAINER_no_eq : GoStrings.afterFirst "="%char CONTAINER = None.
Proof. reflexivity. Qed.

Lemma CONTAINER_USER_no_eq : GoStrings.afterFirst "="%char CONTAINER_USER = None.
Proof. reflexivity. Qed.

(** The test and the trim of one variable in the loop. *)
Lemma scanStep_valueOf (name acc kv : string) :
  GoStrings.afterFirst "="%char name = None ->
  (if GoStrings.HasPrefix kv (name +:+ "=")
   then GoStrings.TrimPrefix kv (name +:+ "=") else acc)
  = default acc (valueOf name kv).
Proof.
  intros Hname. rewrite (HasPrefix_assignment name kv Hname).
  destruct (valueOf name kv) as [v|] eqn:Hv.
  - rewrite bool_decide_eq_true_2 by (by eexists).
    apply valueOf_Some in Hv; [|done]. subst kv.
    rewrite <- append_assoc. apply TrimPrefix_append.
  - rewrite bool_decide_eq_false_2; [done|]. by intros [v Hv'].
Qed.

Lemma containerScan_lastValueOf (env : list string) (c u : string) :
  fold_left containerScanStep env (c, u)
  = (default c (lastValueOf CONTAINER env),
     default u (lastValueOf CONTAINER_USER env)).
Proof.
  revert c u. induction env as [|kv env IH]; intros c u; [done|].
  cbn [fold_left]. unfold containerScanStep at 2.
  rewrite (scanStep_valueOf CONTAINER c kv CONTAINER_no_eq).
  rewrite (scanStep_valueOf CONTAINER_USER u kv CONTAINER_USER_no_eq).
  rewrite IH, !lastValueOf_cons.
  by destruct (lastValueOf CONTAINER env), (lastValueOf CONTAINER_USER env).
Qed.

Lemma DeleteFunc_container (env : list string) :
  slices.DeleteFunc env (fun kv =>
    GoStrings.HasPrefix kv (CONTAINER +:+ "=")
    || GoStrings.HasPrefix kv (CONTAINER_USER +:+ "="))
  = removeVar CONTAINER_USER (removeVar CONTAINER env).
Proof.
  unfold slices.DeleteFunc, removeVar.
  induction env as [|kv env IH]; [done|]. cbn [List.filter].
  rewrite IH.
  rewrite (HasPrefix_assignment CONTAINER kv CONTAINER_no_eq).
  rewrite (HasPrefix_assignment CONTAINER_USER kv CONTAINER_USER_no_eq).
  destruct (bool_decide (is_Some (valueOf CONTAINER kv))); [done|].
  cbn [orb negb List.filter].
  by destruct (bool_decide (is_Some (valueOf CONTAINER_USER kv))).
Qed.

Lemma containerInfo_eq (env : list string) :
  extractContainerInfo env
  = (default "" (lastValueOf CONTAINER env),
     default "" (lastValueOf CONTAINER_USER env),
     removeVar CONTAINER_USER (removeVar CONTAINER env)).
Proof.
  unfold extractContainerInfo.
  by rewrite containerScan_lastValueOf, DeleteFunc_container.
Qed.

(** X1: [extractContainerInfo] returns, for CODER_CONTAINER and for
    CODER_CONTAINER_USER, the value of the last entry whose key is exactly
    that variable (the empty string when there is none), and the
    environment without the entries of the two variables, the others in
    their order. Unlike the scan of the session type, test and trim use
    the same prefix, so this holds of every environment. *)
Theorem extractContainerInfo_last_occurrence (env : list string) :
  extractContainerInfo env
  = (default "" (lastValueOf ContainerEnvironmentVariable env),
     default "" (lastValueOf ContainerUserEnvironmentVariable env),
     removeVar ContainerUserEnvironmentVariable
       (removeVar ContainerEnvironmentVariable env)).
Proof. apply containerInfo_eq. Qed.

End ContainerInfo.

(** ** The environment that reaches the runner *)

Section ForwardedEnvironment.

Context (host : Host) (cfg : Config) (oracle : Oracle).

Lemma valueOf_other (name name' kv : string) :
  name <> name' -> is_Some (valueOf name kv) -> valueOf name' kv = None.
Proof.
  unfold valueOf. intros Hne [v Hv].
  destruct (envSplit kv) as [[k w]|]; [|done].
  destruct (String.eqb k name) eqn:Ek; [|done].
  apply String.eqb_eq in Ek as ->.
  destruct (String.eqb name name') eqn:E; [|done].
  by apply String.eqb_eq in E.
Qed.

Lemma lastValueOf_removeVar (name name' : string) (env : list string) :
  name <> name' ->
  lastValueOf name (removeVar name' env) = lastValueOf name env.
Proof.
  intros Hne. unfold lastValueOf, removeVar. f_equal.
  induction env as [|kv env IH]; [done|]. cbn [List.filter].
  destruct (valueOf name kv) as [v|] eqn:Hv.
  - rewrite (valueOf_other name name' kv Hne) by (by eexists).
    rewrite bool_decide_eq_false_2 by (by intros [? ?]).
    cbn [negb omap list_omap]. by rewrite Hv, IH.
  - destruct (bool_decide _); cbn [negb omap list_omap]; by rewrite Hv, IH.
Qed.

Lemma removeVar_sessionVariables (env : list string) :
  removeVar ContainerUserEnvironmentVariable
    (removeVar ContainerEnvironmentVariable
       (removeVar MagicSessionTypeEnvironmentVariable env))
  = List.filter (fun kv => negb (sessionVariable kv)) env.
Proof.
  unfold removeVar, sessionVariable.
  induction env as [|kv env IH]; [done|]. cbn [List.filter].
  destruct (bool_decide (is_Some (valueOf MagicSessionTypeEnvironmentVariable kv)));
    cbn [negb orb]; [done|].
  cbn [List.filter].
  destruct (bool_decide (is_Some (valueOf ContainerEnvironmentVariable kv)));
    cbn [negb orb]; [done|].
  cbn [List.filter].
  destruct (bool_decide (is_Some (valueOf ContainerUserEnvironmentVariable kv)));
    cbn [negb orb]; by rewrite ?IH.
Qed.

(** X2: what the handler passes to [sessionStart]. Of the environment of
    the session, the entries of CODER_SSH_SESSION_TYPE, CODER_CONTAINER
    and CODER_CONTAINER_USER are left out and every other entry is kept, in
    its order; when X11 is forwarded, DISPLAY comes after them. The
    container and its user are the values of the last entries of their
    variables: with [ExperimentalContainers] set and a container named,
    it is for these two that [agentcontainers.EnvInfo] is asked, and its
    error for them is the error of the session. *)
Theorem forwarded_environment (s : Server) (session : ssh.Session)
    (r : outcome unit) :
  (runHandler host cfg oracle s session).1.1 = Some (RouteExec r) ->
  let env :=
    List.filter (fun kv => negb (sessionVariable kv)) (ssh.Environ session)
    ++ match ssh.X11Req session with
       | Some x11 =>
           ["DISPLAY=localhost:" +:+ itoa (x11Handler oracle).1
              +:+ "." +:+ itoa (ScreenNumber x11)]
       | None => []
       end in
  let container :=
    default "" (lastValueOf ContainerEnvironmentVariable
                  (ssh.Environ session)) in
  let containerUser :=
    default "" (lastValueOf ContainerUserEnvironmentVariable
                  (ssh.Environ session)) in
  r = (sessionStart host cfg oracle session env container containerUser
         (enteredSt host s session)).1.1
  /\ (ExperimentalContainers cfg = true -> container <> "" ->
      forall e,
        containerEnvInfo oracle container containerUser = Err e ->
        r = Fails e).
Proof.
  intros Hroute env container containerUser.
  assert (r = (sessionStart host cfg oracle session env container
                 containerUser (enteredSt host s session)).1.1) as Hr.
  { revert Hroute. subst env container containerUser.
    destruct (closing s) as [c|] eqn:Hclosing.
    { rewrite rejected_run by (by rewrite Hclosing). done. }
    rewrite (accepted_run _ _ _ _ _ Hclosing).
    pose proof (dispatch_exec_exits host cfg oracle session (envOf host session)
                  (enteredSt host s session) r) as Hd.
    destruct (dispatch _ _ _ _ _ _) as [[r' st] trd].
    cbn [fst snd] in *. intros [= ->]. destruct (Hd eq_refl) as [_ ->].
    unfold execEnv, envOf, extractMagicSessionType. cbn [snd].
    rewrite DeleteFunc_removeVar, containerInfo_eq.
    cbn [fst snd].
    rewrite !lastValueOf_removeVar by done.
    rewrite removeVar_sessionVariables.
    destruct (ssh.X11Req session); by rewrite ?app_nil_r. }
  split; [exact Hr|].
  intros Hcontainers Hnamed e Hinfo. rewrite Hr. unfold sessionStart.
  apply String.eqb_neq in Hnamed. by rewrite Hcontainers, Hnamed, Hinfo.
Qed.

End ForwardedEnvironment.

(** ** The tracker, one resource at a time *)

Section TrackerRoundTrips.

Lemma add_remove `{Countable K} (x : K) (X : gset K) :
  x ∉ X -> ({[x]} ∪ X) ∖ {[x]} = X.
Proof.
  intros Hx. apply set_eq. intros y.
  rewrite elem_of_difference, elem_of_union, elem_of_singleton.
  split; [by intros [[?|?] ?]|].
  intros Hy. split; [by right|]. by intros ->.
Qed.

Lemma elem_of_add `{Countable K} (x : K) (X : gset K) : x ∈ {[x]} ∪ X.
Proof. apply elem_of_union. left. by apply elem_of_singleton. Qed.

Lemma wg_back (z : Z) : z + 1 - 1 = z.
Proof. lia. Qed.

(** X3: a resource that is added to the tracker of a server that is not
    closing, and then removed, leaves the server as it was, the counter of
    the wait group included, provided it was not tracked before; in
    between it is tracked. This holds of listeners, of connections (whose
    listener has to be tracked), of sessions and of processes. *)
Theorem tracker_add_remove (s : Server) :
  closing s = None ->
  (forall l, l ∉ listeners s ->
     exists s1, trackListener l true s = Proceeds s1
                /\ l ∈ listeners s1 /\ wg s1 = wg s + 1
                /\ trackListener l false s1 = Proceeds s)
  /\ (forall l c, l ∈ listeners s -> c ∉ conns s ->
     exists s1, trackConn l c true s = (true, s1)
                /\ c ∈ conns s1 /\ wg s1 = wg s + 1
                /\ trackConn l c false s1 = (true, s))
  /\ (forall ss, ss ∉ sessions s ->
     exists s1, trackSession ss true s = (true, s1)
                /\ ss ∈ sessions s1 /\ wg s1 = wg s + 1
                /\ trackSession ss false s1 = (true, s))
  /\ (forall p, p ∉ processes s ->
     exists s1, trackProcess p true s = (true, s1)
                /\ p ∈ processes s1 /\ wg s1 = wg s + 1
                /\ trackProcess p false s1 = (true, s)).
Proof.
  intros Hopen. repeat split.
  - intros l Hl. unfold trackListener. rewrite Hopen. eexists.
    split; [done|]. split; [apply elem_of_add|]. split; [done|].
    destruct s. cbn in *. by rewrite add_remove, wg_back.
  - intros l c Hl Hc. unfold trackConn. rewrite Hopen.
    rewrite bool_decide_eq_false_2 by (intros Hn; by apply Hn).
    rewrite (bool_decide_eq_true_2 _ Hl). cbn [negb orb]. eexists.
    split; [done|]. split; [apply elem_of_add|]. split; [done|].
    destruct s. cbn in *. by rewrite add_remove, wg_back.
  - intros ss Hss. unfold trackSession. rewrite Hopen.
    rewrite bool_decide_eq_false_2 by (intros Hn; by apply Hn). eexists.
    split; [done|]. split; [apply elem_of_add|]. split; [done|].
    destruct s. cbn in *. by rewrite add_remove, wg_back.
  - intros p Hp. unfold trackProcess. rewrite Hopen.
    rewrite bool_decide_eq_false_2 by (intros Hn; by apply Hn). eexists.
    split; [done|]. split; [apply elem_of_add|]. split; [done|].
    destruct s. cbn in *. by rewrite add_remove, wg_back.
Qed.

End TrackerRoundTrips.

(** ** [Serve], [handleConn] and the host key *)

Section Serving.

(** X4: [Serve] on a server that has a host key and is not closing tracks
    the listener while it accepts connections; when [Accept] fails, it
    closes the listener, returns the error of [Accept] as it is, and
    leaves the server as it found it. *)
Theorem Serve_returns_server (l : Listener) (acceptErr : error) (s : Server) :
  hostSigners s <> 0%nat -> closing s = None -> l ∉ listeners s ->
  exists s1,
    Serve_enter l s = Serving s1
    /\ l ∈ listeners s1
    /\ Serve_leave l acceptErr s1
       = (acceptErr, Proceeds s, [EvListenerClose l]).
Proof.
  intros Hkeys Hopen Hl. unfold Serve_enter, Serve_leave, trackListener.
  apply Nat.eqb_neq in Hkeys. rewrite Hkeys, Hopen. eexists.
  split; [done|]. split; [apply elem_of_add|].
  destruct s. cbn in *. by rewrite add_remove, wg_back.
Qed.

(** X5: [Serve] fails for want of a host key exactly when the server has
    none, with the error "no host keys set" and before it touches the
    tracker: a new server cannot serve, and a server on which
    [UpdateHostSigner] has been called can. A second [UpdateHostSigner]
    replaces the key of the first. *)
Theorem Serve_needs_host_key (l : Listener) (s : Server) :
  (forall e, Serve_enter l s = ServeFails e
             <-> hostSigners s = 0%nat /\ e = ErrorString "no host keys set")
  /\ Serve_enter l NewServer = ServeFails (ErrorString "no host keys set")
  /\ (forall e, Serve_enter l (UpdateHostSigner s) <> ServeFails e)
  /\ UpdateHostSigner (UpdateHostSigner s) = UpdateHostSigner s.
Proof.
  split; [|split; [done|split]].
  - intros e. unfold Serve_enter. destruct (hostSigners s =? 0)%nat eqn:E.
    + apply Nat.eqb_eq in E. split; [by intros [= <-]|by intros [_ ->]].
    + apply Nat.eqb_neq in E.
      destruct (trackListener l true s); split; try done; by intros [? _].
  - intros e. unfold Serve_enter, UpdateHostSigner.
    cbn [hostSigners withHostSigners].
    destruct (Nat.max 1 (hostSigners s)) eqn:E; [lia|]. cbn [Nat.eqb].
    by destruct (trackListener l true _).
  - unfold UpdateHostSigner, withHostSigners. destruct s. cbn. f_equal. lia.
Qed.

(** X6: [handleConn] serves a connection only on a server that is not
    closing and from a listener that is still tracked; any other
    connection is closed at once and the server is not touched. A
    connection that is served is tracked meanwhile, and closed and
    untracked at the end, which leaves the server as it was. *)
Theorem handleConn_tracks_or_closes (l : Listener) (c : Conn) (s : Server) :
  (closing s <> None \/ l ∉ listeners s ->
   handleConn_enter l c s
   = (false, s, [EvLog Info "received connection after server closed";
                 EvConnClose c]))
  /\ (closing s = None -> l ∈ listeners s -> c ∉ conns s ->
      exists s1,
        handleConn_enter l c s
        = (true, s1, [EvLog Info "started serving ssh connection"])
        /\ c ∈ conns s1
        /\ handleConn_leave l c s1 = (s, [EvConnClose c])).
Proof.
  split.
  - intros H. unfold handleConn_enter, trackConn.
    assert (bool_decide (closing s ≠ None) || negb (bool_decide (l ∈ listeners s))
            = true) as ->; [|done].
    destruct H as [H|H].
    + by rewrite (bool_decide_eq_true_2 _ H).
    + rewrite (bool_decide_eq_false_2 _ H). apply orb_true_r.
  - intros Hopen Hl Hc. unfold handleConn_enter, handleConn_leave, trackConn.
    rewrite Hopen.
    rewrite bool_decide_eq_false_2 by (intros Hn; by apply Hn).
    rewrite (bool_decide_eq_true_2 _ Hl). cbn [negb orb]. eexists.
    split; [done|]. split; [apply elem_of_add|].
    destruct s. cbn in *. by rewrite add_remove, wg_back.
Qed.

End Serving.

(** ** The handler's bookkeeping *)

Section KeepsServer.

Lemma keeps_ret {A} (a : A) : keepsServer (mret a : M A).
Proof. by intros st. Qed.

Lemma keeps_bind {A B} (m : M A) (f : A -> M B) :
  keepsServer m -> (forall a, keepsServer (f a)) -> keepsServer (m ≫= f).
Proof.
  intros Hm Hf st. rewrite run_bind. specialize (Hm st).
  destruct (m st) as [[a st1] t1]. specialize (Hf a st1).
  destruct (f a st1) as [[b st2] t2]. cbn [fst snd] in *. congruence.
Qed.

Lemma keeps_fmap {A B} (g : A -> B) (m : M A) :
  keepsServer m -> keepsServer (g <$> m).
Proof.
  intros Hm st. rewrite run_fmap. specialize (Hm st).
  by destruct (m st) as [[a st1] t1].
Qed.

Lemma keeps_emit (e : event) : keepsServer (emit e).
Proof. by intros st. Qed.

Lemma keeps_when (b : bool) (m : M unit) :
  keepsServer m -> keepsServer (when b m).
Proof. destruct b; [done|]. intros _. apply keeps_ret. Qed.

Lemma keeps_sessionWrite oracle (p : string) :
  keepsServer (sessionWrite oracle p).
Proof. by intros st. Qed.

Lemma keeps_sessionExit (c : Z) : keepsServer (sessionExit c).
Proof. by intros st. Qed.

Lemma keeps_sessionClose : keepsServer sessionClose.
Proof. by intros st. Qed.

Lemma keeps_closeCause (r : string) : keepsServer (closeCause r).
Proof. by intros st. Qed.

End KeepsServer.

Create HintDb keeps.
#[export] Hint Resolve keeps_ret keeps_emit keeps_when keeps_fmap
  keeps_sessionWrite keeps_sessionExit keeps_sessionClose keeps_closeCause
  : keeps.

Ltac keeps_auto :=
  repeat first
    [ progress cbv zeta
    | match goal with
      | |- keepsServer (_ ≫= _) => apply keeps_bind; [|intros ?]
      | |- keepsServer (when _ _) => apply keeps_when
      | |- keepsServer (match ?x with _ => _ end) => destruct x
      end
    | solve [eauto with keeps] ].

Section KeepsServerRunners.

Context (host : Host) (cfg : Config) (oracle : Oracle).

Lemma keeps_writeLines (ls : list string) : keepsServer (writeLines oracle ls).
Proof. induction ls; simpl; keeps_auto. Qed.

Lemma keeps_copyToSession (chunks : list string) :
  keepsServer (copyToSession oracle chunks).
Proof. induction chunks; simpl; keeps_auto. Qed.

Lemma keeps_handleSignals (p : Process) (sigs : list string) :
  keepsServer (handleSignals p sigs).
Proof. induction sigs; simpl; unfold handleSignal; keeps_auto. Qed.

Lemma keeps_writeWithCarriageReturn (src : Reader) :
  keepsServer (writeWithCarriageReturn oracle src).
Proof.
  pose proof keeps_writeLines. unfold writeWithCarriageReturn. keeps_auto.
Qed.

Lemma keeps_showBanners (banners : list BannerConfig) :
  keepsServer (showBanners host oracle banners).
Proof.
  pose proof keeps_writeWithCarriageReturn.
  induction banners; simpl; unfold showAnnouncementBanner; keeps_auto.
Qed.

Lemma keeps_showMOTD (filename : string) :
  keepsServer (showMOTD host oracle filename).
Proof.
  pose proof keeps_writeWithCarriageReturn. unfold showMOTD. keeps_auto.
Qed.

Lemma keeps_startPTYSession session cmd sshPty :
  keepsServer (startPTYSession host cfg oracle session cmd sshPty).
Proof.
  pose proof keeps_showBanners. pose proof keeps_showMOTD.
  pose proof keeps_handleSignals. pose proof keeps_copyToSession.
  unfold startPTYSession. keeps_auto.
Qed.

Lemma keeps_sftpHandler : keepsServer (sftpHandler host oracle).
Proof. unfold sftpHandler. keeps_auto. Qed.

End KeepsServerRunners.

Section RunnerServer.

Context (host : Host) (cfg : Config) (oracle : Oracle).

Lemma remove_add `{Countable K} (x : K) (X : gset K) :
  ({[x]} ∪ X) ∖ {[x]} = X ∖ {[x]}.
Proof.
  apply set_eq. intros y.
  rewrite !elem_of_difference, elem_of_union, elem_of_singleton.
  split; [by intros [[?|?] ?]|]. intros [? ?]. split; [by right|done].
Qed.

Lemma remove_absent `{Countable K} (x : K) (X : gset K) :
  x ∉ X -> X ∖ {[x]} = X.
Proof.
  intros Hx. apply set_eq. intros y.
  rewrite elem_of_difference, elem_of_singleton.
  split; [by intros [? ?]|]. intros Hy. split; [done|]. by intros ->.
Qed.

(** The server that the runner without a PTY leaves. *)
Lemma startNonPTYSession_server (cmd : Cmd) (st : St) :
  server (startNonPTYSession oracle cmd st).1.2
  = match stdinPipe oracle, cmdStart oracle with
    | None, Ok p =>
        if bool_decide (closing (server st) ≠ None) then server st
        else withProcesses (processes (server st) ∖ {[p]}) (server st)
    | _, _ => server st
    end.
Proof.
  destruct (stdinPipe oracle) as [e|] eqn:Hpipe.
  { unfold startNonPTYSession, startNonPTYSession_setup. by rewrite Hpipe. }
  destruct (cmdStart oracle) as [p|e] eqn:Hstart.
  2:{ unfold startNonPTYSession, startNonPTYSession_setup.
      by rewrite Hpipe, Hstart. }
  destruct (bool_decide (closing (server st) ≠ None)) eqn:Hc.
  { unfold startNonPTYSession. rewrite run_bind.
    unfold startNonPTYSession_setup.
    rewrite Hpipe, Hstart, run_bind, run_emit, run_bind.
    unfold onServer, trackProcess. by rewrite Hc. }
  assert (startNonPTYSession_setup oracle cmd st
          = (inr (withCancel None cmd, p),
             mkSt (withProcesses ({[p]} ∪ processes (server st))
                     (withWg (wg (server st) + 1) (server st)))
               (scr st) (reason st) (written st),
             [EvStart (withCancel None cmd) false None])) as Hsetup.
  { unfold startNonPTYSession_setup. rewrite Hpipe, Hstart.
    rewrite run_bind, run_emit, run_bind. unfold onServer, trackProcess.
    by rewrite Hc. }
  rewrite (startNonPTYSession_parts _ _ _ _ _ _ _ Hsetup). cbn [fst snd].
  unfold startNonPTYSession_leave. rewrite run_bind. unfold onServer.
  cbn [trackProcess fst snd server].
  rewrite (serverFree_server _ _ (serverFree_wait oracle p)).
  cbn [server]. destruct (server st). cbn. by rewrite remove_add, wg_back.
Qed.

Lemma keeps_runsOn {A} (m : M A) : keepsServer m -> runsOn oracle m.
Proof. intros Hm st. left. apply Hm. Qed.

Lemma runsOn_bind_l {A B} (m : M A) (f : A -> M B) :
  keepsServer m -> (forall a, runsOn oracle (f a)) -> runsOn oracle (m ≫= f).
Proof.
  intros Hm Hf st. rewrite run_bind. specialize (Hm st).
  destruct (m st) as [[a st1] t1]. specialize (Hf a st1).
  destruct (f a st1) as [[b st2] t2]. cbn [fst snd] in *. by rewrite <- Hm.
Qed.

Lemma runsOn_bind_r {A B} (m : M A) (f : A -> M B) :
  runsOn oracle m -> (forall a, keepsServer (f a)) -> runsOn oracle (m ≫= f).
Proof.
  intros Hm Hf st. rewrite run_bind. specialize (Hm st).
  destruct (m st) as [[a st1] t1]. specialize (Hf a st1).
  destruct (f a st1) as [[b st2] t2]. cbn [fst snd] in *. by rewrite Hf.
Qed.

Lemma runsOn_fmap {A B} (g : A -> B) (m : M A) :
  runsOn oracle m -> runsOn oracle (g <$> m).
Proof.
  intros Hm st. rewrite run_fmap. specialize (Hm st).
  by destruct (m st) as [[a st1] t1].
Qed.

Lemma runsOn_startNonPTYSession (cmd : Cmd) :
  runsOn oracle (startNonPTYSession oracle cmd).
Proof.
  intros st. rewrite startNonPTYSession_server.
  destruct (stdinPipe oracle); [by left|].
  destruct (cmdStart oracle) as [p|] eqn:Hp; [|by left].
  destruct (bool_decide _); [by left|]. right. by exists p.
Qed.

Lemma runsOn_sessionStart session env container containerUser :
  runsOn oracle
    (sessionStart host cfg oracle session env container containerUser).
Proof.
  unfold sessionStart. cbv zeta.
  set (ei := if ExperimentalContainers cfg && negb (String.eqb container "")
             then Some <$> containerEnvInfo oracle container containerUser
             else Ok None).
  destruct ei as [ei|]; [|apply keeps_runsOn, keeps_ret].
  destruct (CreateCommand _ _ _ _ _) as [cmd| |];
    try apply keeps_runsOn, keeps_ret.
  set (withAgent := if ssh.AgentRequested session then _ else Ok cmd).
  destruct withAgent as [cmd'|]; [|apply keeps_runsOn, keeps_ret].
  destruct (ssh.PtyReq session).
  - apply keeps_runsOn, keeps_fmap, keeps_startPTYSession.
  - apply runsOn_fmap, runsOn_startNonPTYSession.
Qed.

Lemma runsOn_dispatch (session : ssh.Session) (env : list string) :
  runsOn oracle (dispatch host cfg oracle session env).
Proof.
  pose proof keeps_sftpHandler.
  unfold dispatch.
  destruct (fileTransferBlocked cfg session);
    [apply keeps_runsOn; keeps_auto|].
  destruct (extractContainerInfo env) as [[container containerUser] env1].
  apply runsOn_bind_l; [keeps_auto|intros _]. cbv zeta.
  destruct (String.eqb (ssh.Subsystem session) "");
    [|apply keeps_runsOn; keeps_auto].
  apply runsOn_bind_l; [keeps_auto|intros [env2|]];
    [|apply keeps_runsOn; keeps_auto].
  apply runsOn_bind_r; [apply runsOn_sessionStart|intros r]. keeps_auto.
Qed.

End RunnerServer.

(** Equations between servers, field by field. *)
Ltac server_eq :=
  cbv [trackSession trackProcess countServer withListeners withConns
       withSessions withProcesses withWg addVSCode addSSHSession
       listeners conns sessions processes closing wg hostSigners
       connCountVSCode connCountJetBrains connCountSSHSession nextChan
       closedChans fst snd];
  rewrite ?remove_add;
  f_equal; lia.

Section HandlerServer.

Context (host : Host) (cfg : Config) (oracle : Oracle).

(** The server that the handler of an accepted session leaves. *)
Lemma accepted_server (s : Server) (session : ssh.Session) :
  closing s = None ->
  exists P',
    (runHandler host cfg oracle s session).1.2
    = withSessions (sessions s ∖ {[ssh.ID session]}) (withProcesses P' s)
    /\ (P' = processes s
        \/ exists p, cmdStart oracle = Ok p /\ P' = processes s ∖ {[p]}).
Proof.
  intros Hopen. rewrite (accepted_run _ _ _ _ _ Hopen).
  pose proof (runsOn_dispatch host cfg oracle session (envOf host session)
                (enteredSt host s session)) as Hrun.
  destruct (dispatch _ _ _ _ _ _) as [[r st] trd]. cbn [fst snd] in *.
  unfold enteredSt in Hrun. cbn [server] in Hrun.
  unfold trackSession in Hrun at 1. rewrite Hopen in Hrun.
  rewrite bool_decide_eq_false_2 in Hrun by (intros Hn; by apply Hn).
  cbn [snd] in Hrun.
  destruct Hrun as [->|(p & Hp & ->)].
  - exists (processes s). split; [|by left].
    destruct s, (magicOf host session); server_eq.
  - exists (processes s ∖ {[p]}). split; [|right; by exists p].
    destruct s, (magicOf host session); server_eq.
Qed.

(** X7: whatever a session does, its handler leaves the counters of
    [ConnStats], the counter of the wait group, [closing], the listeners
    and the connections as it found them, and tracks no session or
    process that was not tracked before; the session that it had
    accepted is not tracked any more. This also holds when the command
    builder panics, as the deferred calls run. *)
Theorem sessionHandler_restores_counters (s : Server) (session : ssh.Session) :
  let s' := (runHandler host cfg oracle s session).1.2 in
  Server_ConnStats s' = Server_ConnStats s
  /\ wg s' = wg s
  /\ closing s' = closing s
  /\ listeners s' = listeners s
  /\ conns s' = conns s
  /\ sessions s' ⊆ sessions s
  /\ processes s' ⊆ processes s
  /\ (accepted s session = true -> ssh.ID session ∉ sessions s').
Proof.
  cbv zeta. destruct (closing s) as [c|] eqn:Hclosing.
  { rewrite rejected_run by (by rewrite Hclosing). cbn [fst snd].
    repeat split; try done.
    unfold accepted. rewrite trackSession_closing by (by rewrite Hclosing).
    done. }
  destruct (accepted_server s session Hclosing) as (P' & -> & HP).
  assert (P' ⊆ processes s) as Hsub.
  { destruct HP as [->|(p & _ & ->)]; [done|].
    intros q Hq. by apply elem_of_difference in Hq as [? _]. }
  destruct s. cbn in *. repeat split; try done.
  - intros y Hy. by apply elem_of_difference in Hy as [? _].
  - intros _ Hin. apply elem_of_difference in Hin as [_ Hin].
    by apply Hin, elem_of_singleton.
Qed.

(** X8: the handler of a session leaves the server exactly as it found
    it, provided the session was not tracked already and the process that
    [cmd.Start] returns is a new one. *)
Theorem sessionHandler_leaves_server (s : Server) (session : ssh.Session) :
  ssh.ID session ∉ sessions s ->
  (forall p, cmdStart oracle = Ok p -> p ∉ processes s) ->
  (runHandler host cfg oracle s session).1.2 = s.
Proof.
  intros Hss Hnew. destruct (closing s) as [c|] eqn:Hclosing.
  { by rewrite rejected_run by (by rewrite Hclosing). }
  destruct (accepted_server s session Hclosing) as (P' & -> & HP).
  assert (P' = processes s) as ->.
  { destruct HP as [->|(p & Hp & ->)]; [done|].
    apply remove_absent. by apply Hnew. }
  rewrite (remove_absent _ _ Hss). by destruct s.
Qed.

End HandlerServer.

(** ** What [Close] closes *)

Section CloseClosures.

Lemma omap_fmap_Some {A B} (g : B -> option A) (f : A -> B) (l : list A) :
  (forall x, g (f x) = Some x) -> omap g (f <$> l) = l.
Proof.
  intros Hg. induction l as [|x l IH]; [done|].
  cbn [fmap list_fmap omap list_omap]. rewrite Hg. f_equal. exact IH.
Qed.

Lemma omap_fmap_None {A B C} (g : B -> option C) (f : A -> B) (l : list A) :
  (forall x, g (f x) = None) -> omap g (f <$> l) = [].
Proof.
  intros Hg. induction l as [|x l IH]; [done|].
  cbn [fmap list_fmap omap list_omap]. by rewrite Hg.
Qed.

Lemma last_cons_keeps {A} (l : list A) (x y : A) :
  last l = Some x -> last (y :: l) = Some x.
Proof. by destruct l. Qed.

Lemma last_app_keeps {A} (l1 l2 : list A) (x : A) :
  last l2 = Some x -> last (l1 ++ l2) = Some x.
Proof.
  intros H. induction l1 as [|y l1 IH]; [done|].
  by apply last_cons_keeps.
Qed.

(** What the first critical section of a closer closes and cancels. *)
Lemma Close_enter_closes (e : option error) (s : Server) :
  closing s = None ->
  exists tr,
    Close_enter e s = CloseRuns (makeClosing s) tr e
    /\ closedListeners tr = elements (listeners s)
    /\ closedSessions tr = elements (sessions s)
    /\ closedConns tr = elements (conns s)
    /\ cancelled tr = elements (processes s).
Proof.
  intros Hopen. unfold Close_enter. rewrite Hopen. eexists. split; [done|].
  unfold closedListeners, closedSessions, closedConns, cancelled.
  rewrite !omap_app.
  repeat split;
    repeat first
      [ rewrite omap_fmap_Some by done
      | rewrite omap_fmap_None by done ];
    cbn [omap list_omap app]; by rewrite ?app_nil_r.
Qed.

(** X9: the first critical section of [Close], up to [s.srv.Close()] and
    the unlock, on a server that is not closing. It closes every tracked
    listener, session and connection and cancels every tracked process,
    each of them once and no other, and closes the SSH server as its last
    action, with the error that [Close] is to return. It sets [closing],
    removes nothing from the tracker and leaves the counter of the wait
    group alone: that is for the goroutines that [Close] then waits for.
    The X11 forwarder is not closed under the lock; on a server whose
    counter is 0, [Close] goes on to close it and returns the error of
    the SSH server, [closing] nil again. *)
Theorem Close_closes_what_is_tracked (e : option error) (s : Server) :
  closing s = None ->
  exists s1 tr,
    Close_enter e s = CloseRuns s1 tr e
    /\ (NoDup (closedListeners tr)
        /\ forall l, l ∈ closedListeners tr <-> l ∈ listeners s)
    /\ (NoDup (closedSessions tr)
        /\ forall ss, ss ∈ closedSessions tr <-> ss ∈ sessions s)
    /\ (NoDup (closedConns tr)
        /\ forall c, c ∈ closedConns tr <-> c ∈ conns s)
    /\ (NoDup (cancelled tr)
        /\ forall p, p ∈ cancelled tr <-> p ∈ processes s)
    /\ last tr = Some EvSrvClose
    /\ listeners s1 = listeners s /\ sessions s1 = sessions s
    /\ conns s1 = conns s /\ processes s1 = processes s
    /\ wg s1 = wg s
    /\ closing s1 = Some (nextChan s)
    /\ (EvX11Close ∉ tr)
    /\ (wg s = 0 ->
        exists s2,
          Close e s
          = Some (e, s2,
                  tr ++ [EvLog Debug "closing X11 forwarding"; EvX11Close;
                         EvLog Debug "waiting for all goroutines to exit";
                         EvLog Debug "closing server done"])
          /\ closing s2 = None).
Proof.
  intros Hopen.
  destruct (Close_enter_closes e s Hopen) as (tr & Henter & H1 & H2 & H3 & H4).
  exists (makeClosing s), tr. split; [done|]. rewrite H1, H2, H3, H4.
  split; [split; [apply NoDup_elements|intros; by apply elem_of_elements]|].
  split; [split; [apply NoDup_elements|intros; by apply elem_of_elements]|].
  split; [split; [apply NoDup_elements|intros; by apply elem_of_elements]|].
  split; [split; [apply NoDup_elements|intros; by apply elem_of_elements]|].
  assert (wg s = 0 ->
          exists s2,
            Close e s
            = Some (e, s2,
                    tr ++ [EvLog Debug "closing X11 forwarding"; EvX11Close;
                           EvLog Debug "waiting for all goroutines to exit";
                           EvLog Debug "closing server done"])
            /\ closing s2 = None) as Hwhole.
  { intros Hwg. unfold Close. rewrite Henter. unfold wgWait, Close_leave.
    cbn [wg closing makeClosing]. rewrite Hwg. cbn [Z.eqb].
    eexists. split; [reflexivity|done]. }
  unfold Close_enter in Henter. rewrite Hopen in Henter.
  injection Henter as <-.
  split.
  { repeat first [reflexivity | apply last_cons_keeps | apply last_app_keeps]. }
  do 6 (split; [done|]). split; [|exact Hwhole].
  intros Hin.
  repeat first
    [ apply elem_of_cons in Hin as [Hin|Hin]; [discriminate Hin|]
    | apply elem_of_app in Hin as [Hin|Hin]
    | apply list_elem_of_fmap in Hin as (x & Hx & _); discriminate Hx
    | by apply not_elem_of_nil in Hin ].
Qed.

End CloseClosures.

Section RunnerUntracks.

Context (oracle : Oracle).

(** X10: when the runner without a PTY returns, the process that it had
    started and tracked is not tracked any more and the counter of the
    wait group is back where it was; the server is as the runner found
    it when the process was a new one. A [Close] that comes after that
    does not cancel the process. *)
Theorem startNonPTYSession_untracks (cmd : Cmd) (st : St) (p : Process) :
  closing (server st) = None ->
  stdinPipe oracle = None ->
  cmdStart oracle = Ok p ->
  let s' := server (startNonPTYSession oracle cmd st).1.2 in
  (p ∉ processes s')
  /\ wg s' = wg (server st)
  /\ (p ∉ processes (server st) -> s' = server st)
  /\ forall e, exists s1 tr,
       Close_enter e s' = CloseRuns s1 tr e /\ p ∉ cancelled tr.
Proof.
  intros Hopen Hpipe Hstart. cbv zeta.
  rewrite startNonPTYSession_server, Hpipe, Hstart.
  rewrite bool_decide_eq_false_2 by (rewrite Hopen; intros Hn; by apply Hn).
  assert (p ∉ processes (withProcesses (processes (server st) ∖ {[p]})
                           (server st))) as Hp.
  { cbn. intros Hin. apply elem_of_difference in Hin as [_ Hin].
    by apply Hin, elem_of_singleton. }
  split; [exact Hp|]. split; [done|]. split.
  - intros Hnew. rewrite (remove_absent _ _ Hnew). by destruct (server st).
  - intros e.
    destruct (Close_enter_closes e
                (withProcesses (processes (server st) ∖ {[p]}) (server st)))
      as (tr & Henter & _ & _ & _ & Hcancel); [done|].
    eexists _, tr. split; [exact Henter|].
    rewrite Hcancel. intros Hin. by apply elem_of_elements in Hin.
Qed.

End RunnerUntracks.

(** ** More of [Shutdown] *)

Section ShutdownReturns.

(** X11: [Shutdown] does not wait for [Close] once the context is done.
    When the context is cancelled before [Close] has finished, or [Close]
    never finishes, [Shutdown] returns the error of the context, wrapped
    in "close server", as soon as it has seen the cancellation. *)
Theorem Shutdown_does_not_wait_for_Close (r : ShutdownRun) (c : nat) :
  cancelAt r = Some c ->
  (forall k, closeAt r = Some k -> (c < k)%nat) ->
  Shutdown r = Some (Some (Wrapped "close server" (ctxError r)))
  /\ returnAt r = Some (c + recheckAfter r)%nat.
Proof.
  intros Hc Hk. unfold Shutdown, returnAt, selectAt, ctxErr. rewrite Hc.
  destruct (closeAt r) as [k|].
  - specialize (Hk k eq_refl). rewrite Nat.min_l by lia.
    assert ((c <=? c + recheckAfter r)%nat = true) as ->
      by (apply Nat.leb_le; lia).
    done.
  - assert ((c <=? c + recheckAfter r)%nat = true) as ->
      by (apply Nat.leb_le; lia).
    done.
Qed.

(** X12: when [Close] has finished and the context is not done by the
    time [Shutdown] tests it again, [Shutdown] returns what [Close]
    returned: nil for nil, and an error wrapped in "close server". A
    cancellation that comes later changes nothing. *)
Theorem Shutdown_passes_on_Close (r : ShutdownRun) (k : nat) :
  closeAt r = Some k ->
  ctxErr r (k + recheckAfter r) = None ->
  Shutdown r = Some (Wrapped "close server" <$> closeResult r)
  /\ returnAt r = Some (k + recheckAfter r)%nat.
Proof.
  intros Hk Hctx.
  assert (selectAt r = Some k) as Hsel.
  { unfold selectAt. rewrite Hk. destruct (cancelAt r) as [c|] eqn:Hc; [|done].
    f_equal. apply Nat.min_r. unfold ctxErr in Hctx. rewrite Hc in Hctx.
    destruct (c <=? k + recheckAfter r)%nat eqn:E; [done|].
    apply Nat.leb_gt in E. lia. }
  assert (ctxErr r k = None) as Hnow.
  { destruct (ctxErr r k) as [e|] eqn:E; [|done].
    apply (ctxErr_mono _ _ (k + recheckAfter r)) in E; [congruence|lia]. }
  unfold Shutdown, returnAt. rewrite Hsel, Hctx, Hnow.
  by rewrite bool_decide_eq_false_2 by (intros Hn; by apply Hn).
Qed.

End ShutdownReturns.

(** ** Computations by the events that they emit *)

Section EmitsOnly.

Context (P : event -> Prop).

Lemma only_ret {A} (a : A) : emitsOnly P (mret a : M A).
Proof. intros st. constructor. Qed.

Lemma only_bind {A B} (m : M A) (f : A -> M B) :
  emitsOnly P m -> (forall a, emitsOnly P (f a)) -> emitsOnly P (m ≫= f).
Proof.
  intros Hm Hf st. rewrite run_bind. specialize (Hm st).
  destruct (m st) as [[a st1] t1]. specialize (Hf a st1).
  destruct (f a st1) as [[b st2] t2]. cbn [fst snd] in *.
  by apply Forall_app.
Qed.

Lemma only_fmap {A B} (g : A -> B) (m : M A) :
  emitsOnly P m -> emitsOnly P (g <$> m).
Proof.
  intros Hm st. rewrite run_fmap. specialize (Hm st).
  by destruct (m st) as [[a st1] t1].
Qed.

Lemma only_emit (e : event) : P e -> emitsOnly P (emit e).
Proof. intros He st. by repeat constructor. Qed.

Lemma only_when (b : bool) (m : M unit) :
  emitsOnly P m -> emitsOnly P (when b m).
Proof. destruct b; [done|]. intros _. apply only_ret. Qed.

Lemma only_onServer {A} (f : Server -> A * Server) : emitsOnly P (onServer f).
Proof. intros st. unfold onServer. destruct (f (server st)). constructor. Qed.

Lemma only_closeCause (r : string) : emitsOnly P (closeCause r).
Proof. intros st. constructor. Qed.

Lemma only_sessionWrite oracle (p : string) :
  (forall err, P (EvWrite p err)) -> emitsOnly P (sessionWrite oracle p).
Proof. intros He st. by repeat constructor. Qed.

Lemma only_sessionExit (c : Z) : P (EvExit c) -> emitsOnly P (sessionExit c).
Proof. intros He st. by repeat constructor. Qed.

Lemma only_sessionClose : P EvClose -> emitsOnly P sessionClose.
Proof. intros He st. by repeat constructor. Qed.

End EmitsOnly.

Create HintDb only.
#[export] Hint Resolve only_ret only_emit only_when only_fmap only_onServer
  only_closeCause only_sessionWrite only_sessionExit only_sessionClose : only.
#[export] Hint Extern 1 (notStart _) => exact I : only.

Ltac only_auto :=
  repeat first
    [ progress cbv zeta
    | match goal with
      | |- emitsOnly _ (_ ≫= _) => apply only_bind; [|intros ?]
      | |- emitsOnly _ (when _ _) => apply only_when
      | |- emitsOnly _ (match ?x with _ => _ end) => destruct x
      end
    | solve [eauto with only] ].

Section StartsNothing.

Context (host : Host) (cfg : Config) (oracle : Oracle).

Lemma starts_notStart (tr : list event) : Forall notStart tr -> starts tr = [].
Proof. induction 1 as [|e tr He _ IH]; [done|]. by destruct e. Qed.

Lemma notStart_writeLines (ls : list string) :
  emitsOnly notStart (writeLines oracle ls).
Proof. induction ls; simpl; only_auto. Qed.

Lemma notStart_copyToSession (chunks : list string) :
  emitsOnly notStart (copyToSession oracle chunks).
Proof. induction chunks; simpl; only_auto. Qed.

Lemma notStart_handleSignals (p : Process) (sigs : list string) :
  emitsOnly notStart (handleSignals p sigs).
Proof. induction sigs; simpl; unfold handleSignal; only_auto. Qed.

Lemma notStart_writeWithCarriageReturn (src : Reader) :
  emitsOnly notStart (writeWithCarriageReturn oracle src).
Proof.
  pose proof notStart_writeLines. unfold writeWithCarriageReturn. only_auto.
Qed.

Lemma notStart_showBanners (banners : list BannerConfig) :
  emitsOnly notStart (showBanners host oracle banners).
Proof.
  pose proof notStart_writeWithCarriageReturn.
  induction banners; simpl; unfold showAnnouncementBanner; only_auto.
Qed.

Lemma notStart_showMOTD (filename : string) :
  emitsOnly notStart (showMOTD host oracle filename).
Proof.
  pose proof notStart_writeWithCarriageReturn. unfold showMOTD. only_auto.
Qed.

Lemma notStart_sftpHandler : emitsOnly notStart (sftpHandler host oracle).
Proof. unfold sftpHandler. only_auto. Qed.

End StartsNothing.

(** ** Writing lines *)

Section WritingLines.

Context (host : Host) (cfg : Config) (oracle : Oracle).

Lemma writeLines_run (ls : list string) (st : St) :
  let r := writeLines oracle ls st in
  (r.1.1 = None /\ r.2 = wrote <$> ls)
  \/ exists sent l rest e,
       ls = sent ++ l :: rest
       /\ r.1.1 = Some (Wrapped "write line" e)
       /\ r.2 = (wrote <$> sent) ++ [EvWrite (crlf l) (Some e)].
Proof.
  revert st. induction ls as [|l ls IH]; intros st; [by left|].
  cbv zeta. rewrite run_writeLines_cons. cbv zeta.
  destruct (writeErr oracle (written st)) as [e|].
  - right. by exists [], l, ls, e.
  - specialize (IH (mkSt (server st) (scr st) (reason st)
                      (S (written st)))).
    destruct (writeLines oracle ls _) as [[err st'] tr]. cbn [fst snd] in *.
    destruct IH as [[-> ->]|(w & l' & rest & e & -> & -> & ->)]; [by left|].
    right. by exists (l :: w), l', rest, e.
Qed.

(** X13: [writeWithCarriageReturn] makes one [Write] for each line that
    the scanner finds, the line followed by CR and LF. It stops at the
    first [Write] that fails and returns the error of that [Write]
    wrapped in "write line", the lines after it unwritten. An error of
    the scanner (a line too long, a failing read) is returned wrapped in
    "read line", and only after every line before it has been written.
    Without either, it returns nil. *)
Theorem writeWithCarriageReturn_stops_at_failed_write (src : Reader) (st : St) :
  let r := writeWithCarriageReturn oracle src st in
  let lines := (scan src).1 in
  (r.1.1 = Wrapped "read line" <$> (scan src).2 /\ r.2 = wrote <$> lines)
  \/ exists sent l rest e,
       lines = sent ++ l :: rest
       /\ r.1.1 = Some (Wrapped "write line" e)
       /\ r.2 = (wrote <$> sent) ++ [EvWrite (l +:+ cr +:+ nl) (Some e)].
Proof.
  cbv zeta. unfold writeWithCarriageReturn.
  destruct (scan src) as [ls e]. cbn [fst snd]. rewrite run_bind.
  pose proof (writeLines_run ls st) as H.
  destruct (writeLines oracle ls st) as [[err st'] tr]. cbn [fst snd] in *.
  destruct H as [[-> ->]|(w & l & rest & e' & -> & -> & ->)].
  - left. destruct e; cbn; by rewrite app_nil_r.
  - right. exists w, l, rest, e'. cbn. by rewrite app_nil_r.
Qed.

(** X14: a PTY session that has a command is shown neither banner nor
    message of the day: once the PTY emulation is disabled, the runner
    goes on to start the process, [TERM] added to its environment. *)
Theorem command_session_shows_nothing (session : ssh.Session) (cmd : Cmd)
    (sshPty : Pty) (st : St) :
  ssh.RawCommand session <> "" ->
  exists err rest,
    (startPTYSession host cfg oracle session cmd sshPty st).2
    = EvDisablePTYEmulation
      :: EvStart (withEnv (Env cmd ++ ["TERM=" +:+ Term sshPty]) cmd) true err
      :: rest.
Proof.
  intros Hraw. unfold startPTYSession, isQuietLogin, isLoginShell.
  destruct (ssh.RawCommand session) as [|c raw]; [done|].
  cbn [String.length Nat.eqb negb when]. cbv zeta.
  rewrite run_bind, run_emit, run_bind, run_ret, run_bind, run_ret.
  destruct (ptyStart oracle) as [process|err].
  - rewrite run_bind, run_emit.
    destruct (@mbind M _ _ _ _ _ st) as [[r st3] rest].
    by eexists _, _.
  - by eexists _, _.
Qed.

End WritingLines.

(** ** The process of a session *)

Section StartedProcess.

Context (host : Host) (cfg : Config) (oracle : Oracle).

Lemma startsExactly_nil {A} (m : M A) :
  emitsOnly notStart m -> startsExactly [] m.
Proof. intros Hm st. apply starts_notStart, Hm. Qed.

Lemma startsExactly_bind_l {A B} (l : list Cmd) (m : M A) (f : A -> M B) :
  emitsOnly notStart m -> (forall a, startsExactly l (f a)) ->
  startsExactly l (m ≫= f).
Proof.
  intros Hm Hf st. rewrite run_bind. specialize (Hm st).
  destruct (m st) as [[a st1] t1]. specialize (Hf a st1).
  destruct (f a st1) as [[b st2] t2]. cbn [fst snd] in *.
  by rewrite starts_app, (starts_notStart _ Hm).
Qed.

Lemma startsExactly_bind_r {A B} (l : list Cmd) (m : M A) (f : A -> M B) :
  startsExactly l m -> (forall a, emitsOnly notStart (f a)) ->
  startsExactly l (m ≫= f).
Proof.
  intros Hm Hf st. rewrite run_bind. specialize (Hm st).
  destruct (m st) as [[a st1] t1]. specialize (Hf a st1).
  destruct (f a st1) as [[b st2] t2]. cbn [fst snd] in *.
  by rewrite starts_app, (starts_notStart _ Hf), app_nil_r.
Qed.

Lemma startsExactly_fmap {A B} (l : list Cmd) (g : A -> B) (m : M A) :
  startsExactly l m -> startsExactly l (g <$> m).
Proof.
  intros Hm st. rewrite run_fmap. specialize (Hm st).
  by destruct (m st) as [[a st1] t1].
Qed.

Lemma startsExactly_emit (cmd : Cmd) (pty : bool) (err : option error) :
  startsExactly [cmd] (emit (EvStart cmd pty err)).
Proof. by intros st. Qed.

(** The runner with a PTY starts the command, [TERM] added. *)
Lemma startPTYSession_starts (session : ssh.Session) (cmd : Cmd) (sshPty : Pty) :
  startsExactly [withEnv (Env cmd ++ ["TERM=" +:+ Term sshPty]) cmd]
    (startPTYSession host cfg oracle session cmd sshPty).
Proof.
  pose proof (notStart_showBanners host oracle).
  pose proof (notStart_showMOTD host oracle).
  pose proof notStart_handleSignals.
  pose proof (notStart_copyToSession oracle).
  unfold startPTYSession.
  apply startsExactly_bind_l; [only_auto|intros _].
  apply startsExactly_bind_l; [only_auto|intros _].
  apply startsExactly_bind_l; [only_auto|intros _].
  cbv zeta. destruct (ptyStart oracle) as [process|err].
  - apply startsExactly_bind_r; [apply startsExactly_emit|intros _].
    only_auto.
  - apply startsExactly_bind_r; [apply startsExactly_emit|intros _].
    only_auto.
Qed.

(** The runner without a PTY starts the command, its [Cancel] removed,
    unless the pipe for its input cannot be made. *)
Lemma startNonPTYSession_starts (cmd : Cmd) :
  startsExactly (if stdinPipe oracle is None then [withCancel None cmd] else [])
    (startNonPTYSession oracle cmd).
Proof.
  pose proof notStart_handleSignals.
  pose proof (notStart_copyToSession oracle).
  unfold startNonPTYSession, startNonPTYSession_setup,
    startNonPTYSession_wait, startNonPTYSession_leave.
  destruct (stdinPipe oracle) as [e|].
  { apply startsExactly_nil. only_auto. }
  cbv zeta. destruct (cmdStart oracle) as [p|e].
  - apply startsExactly_bind_r.
    + apply startsExactly_bind_r; [apply startsExactly_emit|intros _].
      only_auto.
    + intros [e|[c q]]; only_auto.
  - apply startsExactly_bind_r.
    + apply startsExactly_bind_r; [apply startsExactly_emit|intros _].
      only_auto.
    + intros [e'|[c q]]; only_auto.
Qed.

(** X15: a session starts at most one process, and what it starts is the
    command that [CreateCommand] has built for the raw command of the
    session: path, arguments and directory as built, the environment as
    built and after it SSH_AUTH_SOCK when a forwarded agent was requested
    and TERM when a PTY was, and the [Cancel] hook kept with a PTY and
    removed without one. *)
Theorem session_starts_one_process (session : ssh.Session) (env : list string)
    (container containerUser : string) (st : St) :
  let ei :=
    if ExperimentalContainers cfg && negb (String.eqb container "")
    then (if containerEnvInfo oracle container containerUser is Ok e
          then Some e else None)
    else None in
  let tr :=
    (sessionStart host cfg oracle session env container containerUser st).2 in
  starts tr = []
  \/ exists cmd c,
       CreateCommand host cfg (ssh.RawCommand session) env ei = Returns cmd
       /\ starts tr = [c]
       /\ Path c = Path cmd /\ Args c = Args cmd /\ Dir c = Dir cmd
       /\ Env c
          = Env cmd
            ++ (if ssh.AgentRequested session
                then (if agentListener oracle is Ok addr
                      then ["SSH_AUTH_SOCK=" +:+ addr] else [])
                else [])
            ++ (if ssh.PtyReq session is Some sshPty
                then ["TERM=" +:+ Term sshPty] else [])
       /\ Cancel c = if ssh.PtyReq session is Some _ then Cancel cmd else None.
Proof.
  cbv zeta. unfold sessionStart. cbv zeta.
  set (ei := if ExperimentalContainers cfg && negb (String.eqb container "")
             then (if containerEnvInfo oracle container containerUser is Ok e
                   then Some e else None)
             else None).
  set (chosen := if ExperimentalContainers cfg && negb (String.eqb container "")
                 then Some <$> containerEnvInfo oracle container containerUser
             else Ok None).
  assert (if chosen is Ok x then ei = x else True) as Hei.
  { subst ei chosen.
    destruct (ExperimentalContainers cfg && _); [|done].
    by destruct (containerEnvInfo oracle container containerUser). }
  destruct chosen as [x|]; [subst x|by left].
  destruct (CreateCommand _ _ _ _ _) as [cmd| |]; [|by left..].
  set (agent := if ssh.AgentRequested session
                then (if agentListener oracle is Ok addr
                      then ["SSH_AUTH_SOCK=" +:+ addr] else [])
                else []).
  set (withAgent := if ssh.AgentRequested session then _ else Ok cmd).
  assert (if withAgent is Ok cmd' then cmd' = withEnv (Env cmd ++ agent) cmd
          else True) as Hagent.
  { subst withAgent agent. destruct (ssh.AgentRequested session).
    - by destruct (agentListener oracle).
    - rewrite app_nil_r. by destruct cmd. }
  destruct withAgent as [cmd'|]; [subst cmd'|by left].
  destruct (ssh.PtyReq session) as [sshPty|].
  - right. eexists cmd, _. split; [done|]. split.
    { apply startsExactly_fmap, startPTYSession_starts. }
    cbn. by rewrite <- app_assoc.
  - pose proof (startsExactly_fmap _ (fun err : option error =>
                  match err with Some e => Fails e | None => Returns tt end)
                  _ (startNonPTYSession_starts (withEnv (Env cmd ++ agent) cmd))
                  st) as Hs.
    destruct (stdinPipe oracle); [by left|].
    right. eexists cmd, _. split; [done|]. split; [exact Hs|].
    cbn. by rewrite app_nil_r.
Qed.

End StartedProcess.

(** ** How a session is reported to have ended *)

(** Runs the statements of a computation that are at the head. *)
Ltac run_M :=
  cbv [mbind M_bind mret M_ret fmap M_fmap emit when closeCause sessionExit
       sessionClose sessionWrite scr reason server written option_fmap
       option_map];
  cbn [app firstExit starts exits omap list_omap].

Section Disconnected.

Context (host : Host) (cfg : Config) (oracle : Oracle).

(** The code and the reason of the [disconnected] of an accepted session
    that is reported: the first [Exit] or [Close] of the dispatch, and the
    reason that it has left. A session of JetBrains is not reported. *)
Lemma accepted_disconnects (s : Server) (session : ssh.Session) :
  closing s = None ->
  disconnects (runHandler host cfg oracle s session).2
  = let '(r, st, trd) :=
      dispatch host cfg oracle session (envOf host session)
        (enteredSt host s session) in
    disconnectedWith host session (firstExit trd) (reason st).
Proof.
  intros Hopen. rewrite (accepted_run _ _ _ _ _ Hopen).
  pose proof (tracked_dispatch host cfg oracle session (envOf host session)
                (enteredSt host s session)) as [Hscr Hplain].
  destruct (dispatch _ _ _ _ _ _) as [[r st] trd]. cbn [fst snd] in *.
  apply reports_plain in Hplain as [_ Hd].
  unfold enteredSt in Hscr. cbn [scr] in Hscr.
  rewrite !disconnects_app, Hd. unfold deferredTrace, disconnectedWith.
  rewrite Hscr.
  assert (disconnects (enterTrace host session) = []) as ->.
  { unfold enterTrace. by destruct (bool_decide _), (reportSession _). }
  destruct (reportSession (magicOf host session)); cbn [fmap option_fmap option_map].
  - rewrite disconnects_app, exitCode_firstExit.
    destruct r as [| | | | |[]]; reflexivity.
  - destruct r as [| | | | |[]]; reflexivity.
Qed.

(** The run of the sftp handler. *)
Lemma run_sftpHandler (st : St) :
  let warn :=
    if userHomeDir host is Err _
    then [EvLog Warn
            "get sftp working directory failed, unable to get home dir"]
    else [] in
  sftpHandler host oracle st
  = match sftpNewServer oracle with
    | Some err =>
        (Some (Wrapped "initialize sftp server" err), st,
         [EvDisablePTYEmulation] ++ warn
         ++ [EvLog Debug "initialize sftp server"])
    | None =>
        if match sftpServe oracle with None => true | Some e => isEOF e end
        then (None,
              mkSt (server st) (track 1 <$> (track 0 <$> scr st)) (reason st)
                (written st),
              [EvDisablePTYEmulation] ++ warn ++ [EvExit 0; EvClose])
        else (Wrapped "sftp server closed with error" <$> sftpServe oracle,
              mkSt (server st) (track 1 <$> (track 1 <$> scr st)) (reason st)
                (written st),
              [EvDisablePTYEmulation] ++ warn
              ++ [EvLog Warn "sftp server closed with error"; EvExit 1;
                  EvClose])
    end.
Proof.
  cbv zeta. unfold sftpHandler. destruct st as [srv t rsn n].
  destruct (userHomeDir host), (sftpNewServer oracle); try reflexivity;
    by destruct (sftpServe oracle) as [e'|]; [destruct (isEOF e')|].
Qed.

Lemma run_when_emit (b : bool) (e : event) (st : St) :
  when b (emit e) st = (tt, st, if b then [e] else []).
Proof. by destruct b. Qed.

(** The handler from the call of [sessionStart] on. *)
Ltac exec_tail :=
  rewrite run_bind;
  match goal with
  | |- context [sessionStart ?h0 ?c0 ?o0 ?s0 ?e0 ?ct0 ?cu0 ?st0] =>
      let Hq1 := fresh in let Hq2 := fresh in let Hq3 := fresh in
      let r := fresh "r" in let st3 := fresh "st" in let t3 := fresh "tr" in
      pose proof (quiet_sessionStart h0 c0 o0 s0 e0 ct0 cu0 st0)
        as (Hq1 & Hq2 & Hq3);
      destruct (sessionStart h0 c0 o0 s0 e0 ct0 cu0 st0) as [[r st3] t3];
      cbn [fst snd] in Hq1, Hq2, Hq3; destruct st3;
      cbn in Hq1, Hq2; subst;
      destruct r as [[]|?err|?msg]; run_M;
      [ | match goal with
          | |- context [asExitError ?x] =>
              let Hc := fresh in
              destruct (asExitError x) eqn:Hc; run_M; rewrite Hc
          end | ];
      rewrite !firstExit_quiet by done; cbn [firstExit]; done
  end.

(** What the dispatch of a session leaves, route by route. *)
Lemma dispatch_summary (session : ssh.Session) (env : list string) (st : St) :
  reason st = "" ->
  let '(r, st', trd) := dispatch host cfg oracle session env st in
  match r with
  | RouteBlocked =>
      firstExit trd = 65 /\ reason st' = causeIn st "file transfer blocked"
      /\ starts trd = []
  | RouteSFTPContainer =>
      firstExit trd = 1
      /\ reason st' = causeIn st "sftp not yet supported with containers"
      /\ starts trd = [] /\ exits trd = [1]
  | RouteUnsupported =>
      firstExit trd = 1
      /\ reason st'
         = causeIn st ("unsupported subsystem: " +:+ ssh.Subsystem session)
      /\ starts trd = [] /\ exits trd = [1]
  | RouteX11Failed =>
      firstExit trd = 1 /\ reason st' = causeIn st "x11 handler failed"
      /\ starts trd = [] /\ exits trd = [1]
  | RouteSFTP err =>
      starts trd = []
      /\ match sftpNewServer oracle with
         | Some e =>
             err = Some (Wrapped "initialize sftp server" e)
             /\ exits trd = [] /\ firstExit trd = 0
             /\ reason st'
                = causeIn st ("initialize sftp server: " +:+ Error e)
         | None =>
             match sftpServe oracle with
             | None =>
                 err = None /\ exits trd = [0] /\ firstExit trd = 0
                 /\ reason st' = ""
             | Some e =>
                 if isEOF e
                 then err = None /\ exits trd = [0] /\ firstExit trd = 0
                      /\ reason st' = ""
                 else err = Some (Wrapped "sftp server closed with error" e)
                      /\ exits trd = [1] /\ firstExit trd = 1
                      /\ reason st'
                         = causeIn st
                             ("sftp server closed with error: " +:+ Error e)
             end
         end
  | RouteExec r =>
      match r with
      | Returns _ => firstExit trd = 0 /\ reason st' = ""
      | Fails e =>
          match asExitError e with
          | Some c =>
              firstExit trd = (if c =? -1 then 255 else c)
              /\ reason st'
                 = causeIn st
                     ("process exited with error status: " +:+ itoa c)
          | None => firstExit trd = 229 /\ reason st' = causeIn st (Error e)
          end
      | Panics _ => firstExit trd = 0 /\ reason st' = ""
      end
  end.
Proof.
  intros Hreason. destruct st as [srv o rsn n]. cbn in Hreason.
  subst rsn. unfold causeIn. cbn [scr]. unfold dispatch.
  destruct (fileTransferBlocked cfg session) eqn:Hb.
  { by destruct (String.eqb (ssh.Subsystem session) ""); run_M. }
  destruct (extractContainerInfo env) as [[container containerUser] env1].
  rewrite run_bind, run_when_emit.
  set (pre := if negb (String.eqb container "")
              then [EvLog Debug "container info"] else []).
  assert (Forall quietEv pre) as Hpre.
  { subst pre. destruct (negb _); by repeat constructor. }
  assert (forall tr, starts (pre ++ tr) = starts tr) as Hstarts.
  { intros tr. subst pre. by destruct (negb _). }
  assert (forall tr, exits (pre ++ tr) = exits tr) as Hexits.
  { intros tr. subst pre. by destruct (negb _). }
  destruct (String.eqb (ssh.Subsystem session) "") eqn:Hss.
  - (* no subsystem *)
    rewrite run_bind.
    destruct (ssh.X11Req session) as [x11|].
    + destruct (x11Handler oracle) as [display handled].
      destruct handled; cbn [negb].
      * rewrite run_ret. exec_tail.
      * run_M. rewrite firstExit_quiet, Hstarts, Hexits by done. done.
    + rewrite run_ret. exec_tail.
  - destruct (String.eqb (ssh.Subsystem session) "sftp"); cycle 1.
    { run_M. rewrite firstExit_quiet, Hstarts, Hexits by done. done. }
    destruct (ExperimentalContainers cfg && negb (String.eqb container "")).
    { run_M. rewrite firstExit_quiet, Hstarts, Hexits by done. done. }
    rewrite run_bind, run_sftpHandler. cbv zeta.
    destruct (sftpNewServer oracle) as [e|].
    + rewrite bool_decide_eq_true_2 by done.
      destruct (userHomeDir host); run_M;
        rewrite firstExit_quiet, Hstarts, Hexits by done; by destruct o.
    + destruct (sftpServe oracle) as [e|]; [destruct (isEOF e)|].
      * rewrite bool_decide_eq_false_2 by (intros Hn; by apply Hn).
        destruct (userHomeDir host); run_M;
          rewrite firstExit_quiet, Hstarts, Hexits by done; by destruct o.
      * rewrite bool_decide_eq_true_2 by done.
        destruct (userHomeDir host); run_M;
          rewrite firstExit_quiet, Hstarts, Hexits by done; by destruct o.
      * rewrite bool_decide_eq_false_2 by (intros Hn; by apply Hn).
        destruct (userHomeDir host); run_M;
          rewrite firstExit_quiet, Hstarts, Hexits by done; by destruct o.
Qed.

(** The handler of an accepted session: its dispatch, and what its trace
    says in terms of that of the dispatch. *)
Lemma handler_summary (s : Server) (session : ssh.Session) (r : route) :
  (runHandler host cfg oracle s session).1.1 = Some r ->
  let tr := (runHandler host cfg oracle s session).2 in
  exists st' trd,
    dispatch host cfg oracle session (envOf host session)
      (enteredSt host s session)
    = (r, st', trd)
    /\ scr (enteredSt host s session)
       = (if reportSession (magicOf host session)
          then Some newTracker else None)
    /\ disconnects tr
       = disconnectedWith host session (firstExit trd) (reason st')
    /\ starts tr = starts trd
    /\ exits tr = exits trd.
Proof.
  cbv zeta. destruct (closing s) as [c|] eqn:Hclosing.
  { rewrite rejected_run by (by rewrite Hclosing). done. }
  rewrite (accepted_disconnects s session Hclosing).
  rewrite (accepted_run _ _ _ _ _ Hclosing).
  destruct (dispatch _ _ _ _ _ _) as [[r' st'] trd]. cbn [fst snd].
  intros [= ->]. exists st', trd. split; [done|]. split; [done|].
  split; [done|].
  destruct (exits_enterTrace host session) as (He1 & _ & He3).
  destruct (exits_deferredTrace st' r) as (Hd1 & _ & Hd3).
  rewrite !starts_app, !exits_app, He1, He3, Hd1, Hd3. cbn.
  by rewrite !app_nil_r.
Qed.

(** A session that is reported is told the cause. *)
Lemma causeIn_reported (s : Server) (session : ssh.Session) (c : Z)
    (r : string) :
  disconnectedWith host session c (causeIn (enteredSt host s session) r)
  = disconnectedWith host session c r.
Proof.
  unfold disconnectedWith, causeIn, enteredSt. cbn [scr].
  by destruct (reportSession (magicOf host session)).
Qed.

(** X16: a session that the handler refuses on its own account starts no
    process and is sent the exit status 1 (65 when it is a blocked file
    transfer). Unless it is a session of JetBrains, which is not
    reported at all, it is reported as disconnected once, with that
    status and the reason: "file transfer blocked", "sftp not yet
    supported with containers", "unsupported subsystem: " and the name
    of the subsystem, or "x11 handler failed". *)
Theorem refused_session_disconnected (s : Server) (session : ssh.Session)
    (r : route) :
  (runHandler host cfg oracle s session).1.1 = Some r ->
  let tr := (runHandler host cfg oracle s session).2 in
  (r = RouteBlocked ->
   disconnects tr = disconnectedWith host session 65 "file transfer blocked"
   /\ starts tr = [])
  /\ (r = RouteSFTPContainer ->
      disconnects tr
      = disconnectedWith host session 1 "sftp not yet supported with containers"
      /\ exits tr = [1] /\ starts tr = [])
  /\ (r = RouteUnsupported ->
      disconnects tr
      = disconnectedWith host session 1
          ("unsupported subsystem: " +:+ ssh.Subsystem session)
      /\ exits tr = [1] /\ starts tr = [])
  /\ (r = RouteX11Failed ->
      disconnects tr = disconnectedWith host session 1 "x11 handler failed"
      /\ exits tr = [1] /\ starts tr = [])
  /\ (magicOf host session = MagicSessionTypeJetBrains -> disconnects tr = [])
  /\ (magicOf host session <> MagicSessionTypeJetBrains ->
      forall c reason, disconnectedWith host session c reason = [(c, reason)]).
Proof.
  intros Hroute. cbv zeta.
  destruct (handler_summary s session r Hroute)
    as (st' & trd & Hd & Hscr & -> & -> & ->).
  pose proof (dispatch_summary session (envOf host session)
                (enteredSt host s session) eq_refl) as Hsum.
  rewrite Hd in Hsum.
  split; [|split; [|split; [|split; [|split]]]].
  - intros ->. destruct Hsum as (-> & -> & ->).
    by rewrite causeIn_reported.
  - intros ->. destruct Hsum as (-> & -> & -> & ->).
    by rewrite causeIn_reported.
  - intros ->. destruct Hsum as (-> & -> & -> & ->).
    by rewrite causeIn_reported.
  - intros ->. destruct Hsum as (-> & -> & -> & ->).
    by rewrite causeIn_reported.
  - intros Hjb. unfold disconnectedWith, reportSession.
    by rewrite bool_decide_eq_true_2.
  - intros Hjb c reason. unfold disconnectedWith, reportSession.
    by rewrite bool_decide_eq_false_2.
Qed.

(** X17: how an sftp session ends; no process is started for it. When
    the sftp server ends with nil or with an error that is or wraps
    [io.EOF], the session exits with 0, and with 1 when it ends with
    another error. When the sftp server cannot be made, the handler
    sends no exit status at all. Unless it is a session of JetBrains,
    which is not reported at all, the session is reported as
    disconnected once: with 0 and no reason, with 1 and "sftp server
    closed with error: " and the error, or, when the server could not be
    made, with 0 and "initialize sftp server: " and the error. *)
Theorem sftp_session_disconnected (s : Server) (session : ssh.Session)
    (err : option error) :
  (runHandler host cfg oracle s session).1.1 = Some (RouteSFTP err) ->
  let tr := (runHandler host cfg oracle s session).2 in
  starts tr = []
  /\ match sftpNewServer oracle with
     | Some e =>
         err = Some (Wrapped "initialize sftp server" e)
         /\ exits tr = []
         /\ disconnects tr
            = disconnectedWith host session 0
                ("initialize sftp server: " +:+ Error e)
     | None =>
         match sftpServe oracle with
         | None =>
             err = None /\ exits tr = [0]
             /\ disconnects tr = disconnectedWith host session 0 ""
         | Some e =>
             if isEOF e
             then err = None /\ exits tr = [0]
                  /\ disconnects tr = disconnectedWith host session 0 ""
             else err = Some (Wrapped "sftp server closed with error" e)
                  /\ exits tr = [1]
                  /\ disconnects tr
                     = disconnectedWith host session 1
                         ("sftp server closed with error: " +:+ Error e)
         end
     end
  /\ (magicOf host session = MagicSessionTypeJetBrains -> disconnects tr = [])
  /\ (magicOf host session <> MagicSessionTypeJetBrains ->
      forall c reason, disconnectedWith host session c reason = [(c, reason)]).
Proof.
  intros Hroute. cbv zeta.
  destruct (handler_summary s session _ Hroute)
    as (st' & trd & Hd & Hscr & -> & -> & ->).
  pose proof (dispatch_summary session (envOf host session)
                (enteredSt host s session) eq_refl) as Hsum.
  rewrite Hd in Hsum. destruct Hsum as [Hstarts Hsum]. split; [done|].
  split; [|split].
  - destruct (sftpNewServer oracle) as [e|].
    { destruct Hsum as (-> & -> & -> & ->). by rewrite causeIn_reported. }
    destruct (sftpServe oracle) as [e|]; [destruct (isEOF e)|];
      destruct Hsum as (-> & -> & -> & ->); by rewrite ?causeIn_reported.
  - intros Hjb. unfold disconnectedWith, reportSession.
    by rewrite bool_decide_eq_true_2.
  - intros Hjb c reason. unfold disconnectedWith, reportSession.
    by rewrite bool_decide_eq_false_2.
Qed.

(** X18: how a session that ran a command is reported to have ended.
    After a command that ended with an exit status [c] other than 0, the
    reason is "process exited with error status: " and [c] itself, also
    when [c] is -1 and the status sent is 255; after any other error of
    the runner, the reason is the text of the error and the code 229;
    after a command that ended well, the code is 0 and the reason empty,
    and so they are when the command builder panics. *)
Theorem exec_session_disconnected (s : Server) (session : ssh.Session)
    (r : outcome unit) :
  magicOf host session <> MagicSessionTypeJetBrains ->
  (runHandler host cfg oracle s session).1.1 = Some (RouteExec r) ->
  let tr := (runHandler host cfg oracle s session).2 in
  match r with
  | Returns _ => disconnects tr = [(0, "")]
  | Fails e =>
      match asExitError e with
      | Some c =>
          disconnects tr
          = [(if c =? -1 then 255 else c,
              "process exited with error status: " +:+ itoa c)]
      | None => disconnects tr = [(229, Error e)]
      end
  | Panics _ => disconnects tr = [(0, "")]
  end.
Proof.
  intros Hmagic Hroute. cbv zeta.
  destruct (handler_summary s session _ Hroute)
    as (st' & trd & Hd & Hscr & -> & _ & _).
  pose proof (dispatch_summary session (envOf host session)
                (enteredSt host s session) eq_refl) as Hsum.
  rewrite Hd in Hsum.
  assert (forall c reason,
            disconnectedWith host session c reason = [(c, reason)]) as Hrep.
  { intros c reason. unfold disconnectedWith, reportSession.
    by rewrite bool_decide_eq_false_2. }
  destruct r as [[]|e|msg]; [|destruct (asExitError e)|];
    destruct Hsum as (-> & ->); by rewrite ?causeIn_reported, Hrep.
Qed.

End Disconnected.

(** ** Errors of the command builder *)

Section BuilderErrors.

Context (host : Host) (cfg : Config).

(** The command line fails with an error of the splitter only. *)
Lemma commandLine_fails (shell script : string) (e : error) :
  commandLine host shell script = Fails e ->
  exists x, e = Wrapped "split shebang" x
            /\ shellquoteSplit host (shebangOf host script) = Err x
            /\ GoStrings.HasPrefix (GoStrings.TrimSpace (unicode host) script) "#!"
               = true.
Proof.
  unfold commandLine, shebangOf.
  destruct (GoStrings.HasPrefix (GoStrings.TrimSpace (unicode host) script) "#!").
  - destruct (shellquoteSplit host _) as [[|w ws]|x] eqn:Hsplit.
    + done.
    + by destruct (String.length script =? 0)%nat.
    + intros [= <-]. by exists x.
  - by destruct (String.length script =? 0)%nat.
Qed.

Lemma CreateCommand_shebang_error (ei : EnvInfoer) (shell dir script : string)
    (env : list string) (e : error) :
  match commandLine host shell script with
  | Returns (name, args) =>
      let '(modifiedName, modifiedArgs) := ModifyCommand ei name args in
      let cmd := PTYCommandContext host modifiedName modifiedArgs in
      let cmd := withDir dir cmd in
      let cmd := withEnv env cmd in
      let cmd := withEnv (Env cmd ++ [SSH_CLIENT]) cmd in
      let cmd := withEnv (Env cmd ++ [SSH_CONNECTION]) cmd in
      Returns cmd
  | Fails e => Fails e
  | Panics msg => Panics msg
  end = Fails e ->
  exists x, e = Wrapped "split shebang" x
            /\ shellquoteSplit host (shebangOf host script) = Err x
            /\ GoStrings.HasPrefix (GoStrings.TrimSpace (unicode host) script) "#!"
               = true.
Proof.
  destruct (commandLine host shell script) as [[name args]|e'|msg] eqn:Hcl.
  - by destruct (ModifyCommand ei name args).
  - intros [= <-]. by apply (commandLine_fails shell).
  - done.
Qed.

(** X19: every error of [CreateCommand] is one of five. The lookup of
    the user, of the shell, of the home directory (which is looked up
    only when [WorkingDirectory()] is empty or cannot be stat'ed) or
    [UpdateEnv] has failed: the error is wrapped in "get current user",
    "get user shell", "get home dir" or "apply env", and that in
    "prepare command env". Or the environment was made and the shebang
    line could not be split: the error is wrapped in "split shebang". *)
Theorem CreateCommand_errors (script : string) (env : list string)
    (ei : option EnvInfoer) (e : error) :
  let ei' := default (SystemEnvInfo host) ei in
  let wd := WorkingDirectory cfg in
  CreateCommand host cfg script env ei = Fails e ->
  (exists x, e = Wrapped "prepare command env" (Wrapped "get current user" x)
             /\ User ei' = Err x)
  \/ (exists u x, e = Wrapped "prepare command env" (Wrapped "get user shell" x)
                  /\ User ei' = Ok u /\ Shell ei' u = Err x)
  \/ (exists x, e = Wrapped "prepare command env" (Wrapped "get home dir" x)
                /\ HomeDir ei' = Err x
                /\ (wd = "" \/ osStat host wd <> None))
  \/ (exists x, e = Wrapped "prepare command env" (Wrapped "apply env" x))
  \/ (exists x, e = Wrapped "split shebang" x
                /\ shellquoteSplit host (shebangOf host script) = Err x
                /\ GoStrings.HasPrefix (GoStrings.TrimSpace (unicode host) script) "#!"
                   = true).
Proof.
  cbv zeta. unfold CreateCommand, CommandEnv. cbn [default].
  destruct (User _) as [u|x] eqn:Hu; cbn [mbind result_bind wrapErr];
    [|intros [= <-]; left; by exists x].
  destruct (Shell _ u) as [sh|x] eqn:Hs; cbn [mbind result_bind wrapErr];
    [|intros [= <-]; right; left; by exists u, x].
  destruct (String.eqb (WorkingDirectory cfg) ""
            || bool_decide (osStat host (WorkingDirectory cfg) ≠ None))
    eqn:Hwd.
  - destruct (HomeDir _) as [h|x] eqn:Hh; cbn [mbind result_bind wrapErr].
    + destruct (UpdateEnv cfg _) as [updated|x]; cbn [mbind result_bind wrapErr];
        [|intros [= <-]; do 3 right; left; by exists x].
      intros H. do 4 right. by eapply CreateCommand_shebang_error.
    + intros [= <-]. right. right. left. exists x. split; [done|].
      split; [done|]. apply orb_true_iff in Hwd as [Hw|Hw].
      * left. by apply String.eqb_eq.
      * right. by apply bool_decide_eq_true in Hw.
  - cbn [mbind result_bind wrapErr].
    destruct (UpdateEnv cfg _) as [updated|x]; cbn [mbind result_bind wrapErr];
      [|intros [= <-]; do 3 right; left; by exists x].
    intros H. do 4 right. by eapply CreateCommand_shebang_error.
Qed.

End BuilderErrors.

(** ** Processes and the server that closes *)

Section ProcessesAndClose.

Context (host : Host) (cfg : Config) (oracle : Oracle).

(** X20: a process that the runner without a PTY starts while the server
    is closing is not tracked, and the runner cancels it at once itself:
    after the start, [cmdCancel] is called on the process, nothing is
    written or waited for, and the runner returns "failed to track
    process" around the error of [cmdCancel]. The server is untouched. *)
Theorem process_started_while_closing (cmd : Cmd) (st : St) (p : Process) :
  closing (server st) <> None ->
  stdinPipe oracle = None ->
  cmdStart oracle = Ok p ->
  startNonPTYSession oracle cmd st
  = (Some (Errorf "failed to track process" (cmdCancelErr oracle)), st,
     [EvStart (withCancel None cmd) false None; EvCmdCancel p]).
Proof.
  intros Hclosing Hpipe Hstart.
  unfold startNonPTYSession, startNonPTYSession_setup,
    startNonPTYSession_wait, startNonPTYSession_leave.
  rewrite Hpipe, Hstart. rewrite !run_bind, run_emit. rewrite run_bind.
  unfold onServer at 1. cbv beta iota zeta. unfold trackProcess at 1.
  rewrite (bool_decide_eq_true_2 _ Hclosing). by destruct st.
Qed.

(** X21: with a PTY, the process belongs to the session and not to the
    server. The runner leaves the server as it is, so that the process
    is never among the tracked ones, and it starts the command with the
    [Cancel] hook that it came with: when that is the hook of
    [exec.CommandContext], the end of the session's context kills the
    process. *)
Theorem pty_process_ends_with_session (session : ssh.Session) (cmd : Cmd)
    (sshPty : Pty) (st : St) :
  let r := startPTYSession host cfg oracle session cmd sshPty st in
  server r.1.2 = server st
  /\ exists c,
       starts r.2 = [c]
       /\ Cancel c = Cancel cmd
       /\ (Cancel cmd = Some CancelKill ->
           forall p st',
             contextDone c p st' = (tt, st', [EvProcessSignal p "KILL"])).
Proof.
  cbv zeta. split; [apply keeps_startPTYSession|].
  eexists. split; [apply startPTYSession_starts|]. split; [done|].
  intros Hcancel p st'. unfold contextDone. cbn [Cancel withEnv].
  by rewrite Hcancel.
Qed.

End ProcessesAndClose.

(** ** The timeouts of a new server *)

Section NewServerTimeouts.

(** X22: [NewServer] turns a [MaxTimeout] of three seconds or more into
    keep-alives: three of them, at an interval of a third of
    [MaxTimeout], so that the three intervals together make up
    [MaxTimeout] to within two nanoseconds and never exceed it, and the
    connection timeout of the SSH server is off. A shorter [MaxTimeout]
    is the connection timeout as it is, without keep-alives. *)
Theorem NewServer_timeouts_keep_alive (MaxTimeout : Z) :
  let t := NewServer_timeouts MaxTimeout in
  (3 * Second <= MaxTimeout ->
   ClientAliveCountMax t = 3
   /\ srvMaxTimeout t = 0
   /\ Second <= ClientAliveInterval t
   /\ MaxTimeout - 2 <= ClientAliveCountMax t * ClientAliveInterval t
      <= MaxTimeout)
  /\ (MaxTimeout < 3 * Second ->
      ClientAliveCountMax t = 0
      /\ ClientAliveInterval t = 0
      /\ srvMaxTimeout t = MaxTimeout).
Proof.
  cbv zeta. unfold NewServer_timeouts, Second. split.
  - intros H. apply Z.leb_le in H as Hb. rewrite Hb. cbn.
    rewrite Z.quot_div_nonneg by lia.
    pose proof (Z.div_mod MaxTimeout 3 ltac:(lia)).
    pose proof (Z.mod_pos_bound MaxTimeout 3 ltac:(lia)). lia.
  - intros H. apply Z.leb_gt in H as Hb. by rewrite Hb.
Qed.

End NewServerTimeouts.

(** ** Reversed strings and base names *)

Section Reversal.

Lemma append_empty_r (s : string) : s +:+ "" = s.
Proof. induction s as [|c s IH]; [done|]. by rewrite append_cons, IH. Qed.

Lemma rev_app_append (s t : string) :
  String.rev_app s t = String.rev s +:+ t.
Proof.
  unfold String.rev. revert t. induction s as [|c s IH]; intros t; [done|].
  cbn [String.rev_app]. rewrite (IH (String c t)), (IH (String c "")).
  by rewrite append_assoc.
Qed.

Lemma rev_cons (c : ascii) (s : string) :
  String.rev (String c s) = String.rev s +:+ String c "".
Proof. unfold String.rev at 1. cbn [String.rev_app]. apply rev_app_append. Qed.

Lemma rev_append (s t : string) :
  String.rev (s +:+ t) = String.rev t +:+ String.rev s.
Proof.
  induction s as [|c s IH]; [by rewrite append_nil, append_empty_r|].
  by rewrite append_cons, !rev_cons, IH, append_assoc.
Qed.

Lemma rev_involutive (s : string) : String.rev (String.rev s) = s.
Proof.
  induction s as [|c s IH]; [done|].
  by rewrite rev_cons, rev_append, IH.
Qed.

Lemma bytes_append (s t : string) : bytes (s +:+ t) = bytes s ++ bytes t.
Proof.
  induction s as [|c s IH]; [done|]. rewrite append_cons. cbn. by f_equal.
Qed.

Lemma bytes_rev (s : string) : bytes (String.rev s) = List.rev (bytes s).
Proof.
  induction s as [|c s IH]; [done|].
  rewrite rev_cons, bytes_append, IH. reflexivity.
Qed.

Lemma not_in_rev (c : ascii) (s : string) :
  c ∉ bytes s -> c ∉ bytes (String.rev s).
Proof.
  intros H Hin. apply H. rewrite bytes_rev in Hin.
  apply list_elem_of_In in Hin. apply list_elem_of_In. by apply in_rev.
Qed.

Lemma length_append (s t : string) :
  String.length (s +:+ t) = (String.length s + String.length t)%nat.
Proof.
  induction s as [|c s IH]; [done|]. rewrite append_cons. cbn. by rewrite IH.
Qed.

Lemma length_rev (s : string) : String.length (String.rev s) = String.length s.
Proof.
  induction s as [|c s IH]; [done|].
  rewrite rev_cons, length_append, IH. cbn. lia.
Qed.

End Reversal.

Section BaseNames.

Lemma upToSeparator_append (x y : string) :
  "/"%char ∉ bytes x ->
  filepath.upToSeparator (x +:+ String "/" y) = x.
Proof.
  induction x as [|c x IH]; intros Hx.
  - rewrite append_nil. reflexivity.
  - rewrite append_cons. cbn [filepath.upToSeparator].
    apply not_elem_of_cons in Hx as [Hc Hx].
    unfold filepath.IsPathSeparator.
    destruct (Ascii.eqb c "/") eqn:E; [by apply Ascii.eqb_eq in E|].
    by rewrite IH.
Qed.

Lemma dropSeparators_name (x y : string) :
  x <> "" -> "/"%char ∉ bytes x ->
  filepath.dropSeparators (x +:+ y) = x +:+ y.
Proof.
  destruct x as [|c x]; [done|]. intros _ Hx.
  apply not_elem_of_cons in Hx as [Hc Hx].
  rewrite append_cons. cbn [filepath.dropSeparators].
  unfold filepath.IsPathSeparator.
  by destruct (Ascii.eqb c "/") eqn:E; [apply Ascii.eqb_eq in E|].
Qed.

(** The base name of a path that ends in a separator and a name. *)
Lemma Base_join (dir b : string) :
  b <> "" -> "/"%char ∉ bytes b ->
  filepath.Base (dir +:+ String "/" b) = b.
Proof.
  intros Hb Hsep. unfold filepath.Base.
  assert (String.eqb (dir +:+ String "/" b) "" = false) as ->.
  { by destruct dir. }
  assert (String.rev b <> "") as Hrev.
  { destruct b as [|c b]; [done|]. rewrite rev_cons.
    by destruct (String.rev b). }
  assert (String.rev (dir +:+ String "/" b)
          = String.rev b +:+ String "/" (String.rev dir)) as Hpath.
  { rewrite rev_append, rev_cons, append_assoc. by rewrite append_cons. }
  cbv zeta. rewrite Hpath.
  rewrite dropSeparators_name by (done || by apply not_in_rev).
  rewrite <- Hpath, rev_involutive, Hpath.
  rewrite upToSeparator_append by (by apply not_in_rev).
  rewrite rev_involutive.
  destruct (String.eqb b "") eqn:E; [by apply String.eqb_eq in E|done].
Qed.

End BaseNames.

Section GuardByPath.

Context (cfg : Config).

(** X23: the guard looks at the base name of the first word of the
    command and at nothing else. With [BlockFileTransfer] set, a command
    whose first word is nc, rsync, scp or sftp under any directory at all
    is blocked, as is the bare name; what comes after the first word
    makes no difference. *)
Theorem fileTransferBlocked_whatever_the_directory (session : ssh.Session)
    (dir b : string) (rest : list string) :
  BlockFileTransfer cfg = true ->
  b ∈ BlockedFileTransferCommands ->
  (ssh.Command session = (dir +:+ "/" +:+ b) :: rest
   \/ ssh.Command session = b :: rest) ->
  fileTransferBlocked cfg session = true.
Proof.
  intros Hcfg Hb Hcmd. apply fileTransferBlocked_iff. split; [done|].
  right. destruct Hcmd as [Hcmd|Hcmd].
  - exists (dir +:+ "/" +:+ b), rest. split; [done|].
    rewrite append_cons, append_nil.
    assert (b <> "" /\ "/"%char ∉ bytes b) as [Hne Hsep].
    { unfold BlockedFileTransferCommands in Hb.
      repeat (apply elem_of_cons in Hb as [->|Hb];
              [split; [done|]; intros Hin; apply list_elem_of_In in Hin;
               vm_compute in Hin;
               repeat (destruct Hin as [Hin|Hin]; [discriminate Hin|]);
               exact Hin|]).
      by apply not_elem_of_nil in Hb. }
    by rewrite Base_join.
  - exists b, rest. split; [done|].
    unfold BlockedFileTransferCommands in Hb.
    repeat (apply elem_of_cons in Hb as [->|Hb];
            [apply list_elem_of_In; vm_compute;
             repeat first [left; reflexivity | right]|]).
    by apply not_elem_of_nil in Hb.
Qed.

End GuardByPath.

(** ** The lines of the scanner *)

Section ScannedLines.

Context (oracle : Oracle).

Lemma dropCR_line (rcur : string) :
  "010"%char ∉ bytes rcur ->
  ("010"%char ∉ bytes (dropCR rcur))
  /\ (String.length (dropCR rcur) <= String.length rcur)%nat.
Proof.
  destruct rcur as [|c rcur]; [done|]. intros H. cbn [dropCR].
  destruct (Ascii.eqb c (ascii_of_nat 13)); [|done].
  apply not_elem_of_cons in H as [_ H]. split; [done|]. cbn. lia.
Qed.

Lemma scanFrom_wholeLines (s rcur : string) (n : N) :
  "010"%char ∉ bytes rcur ->
  n = N.of_nat (String.length rcur) ->
  Forall wholeLine (scanFrom rcur n s).1.
Proof.
  revert rcur n. induction s as [|c s IH]; intros rcur n Hlf Hn.
  - cbn [scanFrom]. destruct (n =? 0)%N; [constructor|].
    destruct (MaxScanTokenSize <=? n)%N eqn:Hmax; [constructor|].
    apply N.leb_gt in Hmax. unfold MaxScanTokenSize in Hmax.
    destruct (dropCR_line rcur Hlf) as [H1 H2].
    repeat constructor; [by apply not_in_rev|].
    rewrite length_rev. lia.
  - cbn [scanFrom]. destruct (Ascii.eqb c (ascii_of_nat 10)) eqn:Hc.
    + destruct (MaxScanTokenSize <=? n)%N eqn:Hmax; [constructor|].
      apply N.leb_gt in Hmax. unfold MaxScanTokenSize in Hmax.
      specialize (IH "" 0%N (not_elem_of_nil _) eq_refl).
      destruct (scanFrom "" 0 s) as [ls e]. cbn [fst] in *.
      destruct (dropCR_line rcur Hlf) as [H1 H2].
      constructor; [|done]. split; [by apply not_in_rev|].
      rewrite length_rev. lia.
    + apply IH.
      * apply not_elem_of_cons. split; [|done].
        intros <-. by rewrite Ascii.eqb_refl in Hc.
      * cbn [String.length]. lia.
Qed.

(** X24: whatever the source holds, every [Write] that
    [writeWithCarriageReturn] makes is one whole line: bytes without a
    line feed, fewer than 65536 of them, then CR and LF. A line feed
    never reaches the terminal without its carriage return. *)
Theorem writeWithCarriageReturn_whole_lines (src : Reader) (st : St) :
  Forall (fun p => exists l, p = l +:+ cr +:+ nl /\ wholeLine l)
    (writes (writeWithCarriageReturn oracle src st).2).
Proof.
  pose proof (writeWithCarriageReturn_spec oracle src st) as (_ & [k Hk] & _).
  assert (Forall wholeLine (scan src).1) as Hlines.
  { unfold scan.
    pose proof (scanFrom_wholeLines (content src) "" 0%N
                  (not_elem_of_nil _) eq_refl) as H.
    by destruct (scanFrom "" 0 (content src)). }
  assert (Forall (fun p => exists l, p = l +:+ cr +:+ nl /\ wholeLine l)
            (crlf <$> (scan src).1)) as Hall.
  { apply Forall_fmap. eapply Forall_impl; [exact Hlines|].
    intros l Hl. by exists l. }
  rewrite Hk in Hall. by apply Forall_app in Hall as [? _].
Qed.

Lemma scanFrom_append (x rest rcur : string) (n : N) :
  "010"%char ∉ bytes x ->
  scanFrom rcur n (x +:+ rest)
  = scanFrom (String.rev x +:+ rcur) (n + N.of_nat (String.length x)) rest.
Proof.
  revert rcur n. induction x as [|c x IH]; intros rcur n Hx.
  - rewrite append_nil. cbn. by rewrite N.add_0_r.
  - apply not_elem_of_cons in Hx as [Hc Hx].
    rewrite append_cons. cbn [scanFrom].
    destruct (Ascii.eqb c (ascii_of_nat 10)) eqn:E.
    { apply Ascii.eqb_eq in E. by destruct Hc. }
    rewrite IH by done. rewrite rev_cons, append_assoc, append_cons, append_nil.
    f_equal. cbn [String.length]. lia.
Qed.

Lemma scan_crlfText (ls : list string) :
  Forall (fun l => ("010"%char ∉ bytes l)
                   /\ (N.of_nat (String.length l) + 1 < 65536)%N) ls ->
  scanFrom "" 0 (crlfText ls) = (ls, None).
Proof.
  induction 1 as [|l ls [Hlf Hlen] _ IH]; [done|].
  cbn [crlfText fold_right].
  change (fold_right (fun l s => l +:+ cr +:+ nl +:+ s) "" ls)
    with (crlfText ls).
  rewrite <- (append_assoc l cr).
  assert ("010"%char ∉ bytes (l +:+ cr)) as Hx.
  { rewrite bytes_append. apply not_elem_of_app. split; [done|].
    intros Hin. apply list_elem_of_singleton in Hin. discriminate Hin. }
  rewrite (scanFrom_append _ _ _ _ Hx).
  unfold nl at 1. rewrite append_cons, append_nil. cbn [scanFrom].
  rewrite Ascii.eqb_refl.
  rewrite length_append. cbn [String.length cr].
  assert ((MaxScanTokenSize <=? 0 + N.of_nat (String.length l + 1))%N = false)
    as ->.
  { apply N.leb_gt. unfold MaxScanTokenSize. lia. }
  rewrite IH, append_empty_r, rev_append. unfold cr at 1.
  cbn [String.rev String.rev_app]. rewrite append_cons, append_nil.
  cbn [dropCR]. rewrite Ascii.eqb_refl. by rewrite rev_involutive.
Qed.

(** X25: a text whose lines end in CR and LF already goes through
    [writeWithCarriageReturn] unchanged: the scanner takes the carriage
    return off each line and the writer puts it back, so that what is
    written, line for line, is what was read. *)
Theorem writeWithCarriageReturn_keeps_crlf (ls : list string) (st : St) :
  allWritesOk oracle ->
  Forall (fun l => ("010"%char ∉ bytes l)
                   /\ (N.of_nat (String.length l) + 1 < 65536)%N) ls ->
  let r := writeWithCarriageReturn oracle (mkReader (crlfText ls) None) st in
  r.1.1 = None
  /\ writes r.2 = (fun l => l +:+ cr +:+ nl) <$> ls
  /\ fold_right String.append "" (writes r.2) = crlfText ls.
Proof.
  intros Hok Hls. cbv zeta.
  pose proof (writeWithCarriageReturn_spec oracle (mkReader (crlfText ls) None)
                st) as (_ & _ & _ & Hw & Hr).
  assert (scan (mkReader (crlfText ls) None) = (ls, None)) as Hscan.
  { unfold scan. cbn [content readErr]. by rewrite scan_crlfText. }
  rewrite Hscan in Hw, Hr. cbn [fst snd] in Hw, Hr.
  split; [by apply Hr|]. rewrite (Hw Hok). split; [done|].
  clear. induction ls as [|l ls IH]; [done|].
  cbn [fmap list_fmap fold_right crlfText].
  change (fold_right String.append "" (list_fmap _ _ crlf ls))
    with (fold_right String.append "" (crlf <$> ls)).
  rewrite IH. unfold crlf. by rewrite !append_assoc.
Qed.

End ScannedLines.

(** ** The counter of the wait group *)

Section WaitGroup.

Lemma size_add `{Countable K} (x : K) (X : gset K) :
  x ∉ X -> size ({[x]} ∪ X) = S (size X).
Proof.
  intros Hx. rewrite size_union.
  - by rewrite size_singleton.
  - intros y Hy. apply elem_of_singleton in Hy as ->. exact Hx.
Qed.

Lemma size_remove `{Countable K} (x : K) (X : gset K) :
  x ∈ X -> S (size (X ∖ {[x]})) = size X.
Proof.
  intros Hx. rewrite <- (size_add x (X ∖ {[x]})).
  - f_equal. apply set_eq. intros y.
    rewrite elem_of_union, elem_of_difference, elem_of_singleton.
    split; [intros [->|[? _]]; done|].
    intros Hy. destruct (decide (y = x)) as [->|Hne]; [by left|by right].
  - intros Hin. apply elem_of_difference in Hin as [_ Hin].
    by apply Hin, elem_of_singleton.
Qed.

Lemma orderlyStep_counts (s s' : Server) :
  orderlyStep s s' ->
  wg s = Z.of_nat (trackedCount s) -> wg s' = Z.of_nat (trackedCount s').
Proof.
  unfold trackedCount.
  intros Hstep Hwg.
  destruct Hstep as [l s s' Hl H|l e s s' tr Hl H|l c s s' tr Hc H|l c s Hc
                    |ss s s' Hss H|ss s Hss|p s s' Hp H|p s Hp
                    |m d s|s|e s s' tr err H|s s' _ H].
  - unfold Serve_enter, trackListener in H.
    destruct (hostSigners s =? 0)%nat; [done|].
    destruct (closing s); [done|]. injection H as <-. cbn.
    rewrite (size_add _ _ Hl). lia.
  - unfold Serve_leave, trackListener in H. injection H as <- _. cbn.
    pose proof (size_remove _ _ Hl). lia.
  - unfold handleConn_enter, trackConn in H.
    destruct (_ || _); [done|]. injection H as <- _. cbn.
    rewrite (size_add _ _ Hc). lia.
  - cbn. pose proof (size_remove _ _ Hc). lia.
  - unfold trackSession in H. destruct (bool_decide _); [done|].
    injection H as <-. cbn. rewrite (size_add _ _ Hss). lia.
  - cbn. pose proof (size_remove _ _ Hss). lia.
  - unfold trackProcess in H. destruct (bool_decide _); [done|].
    injection H as <-. cbn. rewrite (size_add _ _ Hp). lia.
  - cbn. pose proof (size_remove _ _ Hp). lia.
  - by destruct m.
  - done.
  - unfold Close_enter in H. destruct (closing s); [done|].
    by injection H as <- _ _.
  - unfold Close_leave in H. destruct (closing s); [|done].
    by injection H as <-.
Qed.

(** X26: as long as every listener, connection, session and process is
    added to the tracker once and removed by the one that added it, the
    counter of the wait group is the number of resources that are
    tracked. So the [s.wg.Wait()] of a [Close] returns exactly when
    nothing is tracked any more. *)
Theorem wg_counts_what_is_tracked (s : Server) :
  rtc orderlyStep NewServer s ->
  wg s = Z.of_nat (trackedCount s)
  /\ (wgWait s = true
      <-> listeners s = ∅ /\ conns s = ∅ /\ sessions s = ∅
          /\ processes s = ∅).
Proof.
  intros Hsteps.
  assert (wg s = Z.of_nat (trackedCount s)) as Hwg.
  { revert s Hsteps. apply rtc_ind_r; [done|].
    intros s1 s2 _ Hstep IH. by apply (orderlyStep_counts s1). }
  split; [done|]. unfold wgWait. rewrite Hwg. unfold trackedCount. split.
  - intros H. apply Z.eqb_eq in H.
    repeat split; apply leibniz_equiv, size_empty_inv; lia.
  - intros (-> & -> & -> & ->). by rewrite size_empty.
Qed.

End WaitGroup.

(** ** What the runner with a PTY returns *)

Section PTYResult.

Context (host : Host) (cfg : Config) (oracle : Oracle).

Lemma copyToSession_ok (chunks : list string) (st : St) :
  allWritesOk oracle -> (copyToSession oracle chunks st).1.1 = None.
Proof.
  intros Hok. revert st. induction chunks as [|chunk chunks IH]; intros st.
  - done.
  - cbn [copyToSession]. rewrite run_bind. unfold sessionWrite at 1.
    cbv beta iota zeta. rewrite Hok.
    specialize (IH (mkSt (server st) (scr st) (reason st) (S (written st)))).
    by destruct (copyToSession oracle chunks _) as [[err st'] tr].
Qed.

(** X27: what the runner with a PTY returns. If the process cannot be
    started: that error, wrapped in "start command". Else, with the
    output copied to the session: an error of the read from the PTY
    wrapped in "copy error", or else the error of [process.Wait] wrapped
    in "process wait". The error of closing the PTY is returned, as it
    is, only when there is no other: it never stands in for the exit
    status of the process. *)
Theorem startPTYSession_result (session : ssh.Session) (cmd : Cmd)
    (sshPty : Pty) (st : St) :
  let r := (startPTYSession host cfg oracle session cmd sshPty st).1.1 in
  (forall e, ptyStart oracle = Err e -> r = Some (Wrapped "start command" e))
  /\ (forall p, ptyStart oracle = Ok p -> allWritesOk oracle ->
      r = match ptyReadErr oracle with
          | Some e => Some (Wrapped "copy error" e)
          | None =>
              match processWait oracle with
              | Some e => Some (Wrapped "process wait" e)
              | None => ptyClose oracle
              end
          end).
Proof.
  cbv zeta. unfold startPTYSession.
  rewrite run_bind, run_emit. rewrite run_bind.
  destruct (when (isLoginShell _) _ st) as [[u1 st1] t1].
  rewrite run_bind.
  destruct (when (negb (isQuietLogin _ _)) _ st1) as [[u2 st2] t2].
  cbv zeta. split.
  - intros e ->. by rewrite run_bind, run_emit.
  - intros p -> Hok. rewrite run_bind, run_emit. rewrite run_bind.
    destruct (handleSignals p (clientSignals oracle) st2) as [[u3 st3] t3].
    rewrite run_bind. rewrite run_bind.
    pose proof (copyToSession_ok (ptyOutput oracle) st3 Hok) as Hcopy.
    destruct (copyToSession oracle (ptyOutput oracle) st3) as [[err st4] t4].
    cbn [fst snd] in Hcopy. subst err. cbv zeta.
    rewrite run_bind, run_emit.
    destruct (ptyReadErr oracle) as [e|].
    + rewrite run_ret. by destruct (ptyClose oracle).
    + destruct (processWait oracle) as [e|].
      * rewrite run_bind.
        destruct (when _ _ st4) as [[u5 st5] t5]. rewrite run_ret.
        by destruct (ptyClose oracle).
      * rewrite run_ret. by destruct (ptyClose oracle).
Qed.

End PTYResult.

(** ** The statements above, on the sample host *)

(** The variables of the handler are taken out of the environment of the
    VS Code session, the others stay. *)
Lemma forwarded_environment_witness :
  (runHandler Sample.host Cases.cfgContainers Cases.oracleContainers
     Sample.serving Cases.devcontainer).1.1
  = Some (RouteExec (Fails (ErrorString "no container dev for user coder")))
  /\ Fails (ErrorString "no container dev for user coder")
     = (sessionStart Sample.host Cases.cfgContainers Cases.oracleContainers
          Cases.devcontainer ["A=1"; "B=2"] "dev" "coder"
          (enteredSt Sample.host Sample.serving Cases.devcontainer)).1.1.
Proof.
  assert ((runHandler Sample.host Cases.cfgContainers Cases.oracleContainers
             Sample.serving Cases.devcontainer).1.1
          = Some (RouteExec
                    (Fails (ErrorString "no container dev for user coder"))))
    as Hroute by reflexivity.
  split; [exact Hroute|].
  exact (proj1 (forwarded_environment Sample.host Cases.cfgContainers
                  Cases.oracleContainers Sample.serving Cases.devcontainer
                  _ Hroute)).
Defined.

(** Membership in a set that is given, by computation. *)
Ltac by_computation :=
  vm_compute; first [exact I | reflexivity | discriminate
                    | intros; discriminate].

(** A session is tracked and untracked again on a new server. *)
Lemma tracker_add_remove_witness :
  exists s1, trackSession 1%positive true NewServer = (true, s1)
             /\ 1%positive ∈ sessions s1
             /\ wg s1 = wg NewServer + 1
             /\ trackSession 1%positive false s1 = (true, NewServer).
Proof.
  destruct (tracker_add_remove NewServer eq_refl) as (_ & _ & H & _).
  apply H. by_computation.
Defined.

(** The listener 5 is served and let go when [Accept] fails. *)
Lemma Serve_returns_server_witness :
  exists s1,
    Serve_enter 5%positive Sample.serving = Serving s1
    /\ 5%positive ∈ listeners s1
    /\ Serve_leave 5%positive EOF s1
       = (EOF, Proceeds Sample.serving, [EvListenerClose 5%positive]).
Proof.
  apply Serve_returns_server; [by_computation|reflexivity|by_computation].
Defined.

(** A connection from the listener 9, which is not served, is closed; one
    from the listener 5 is served. *)
Lemma handleConn_tracks_or_closes_witness :
  handleConn_enter 9%positive 6%positive Cases.listening
  = (false, Cases.listening,
     [EvLog Info "received connection after server closed";
      EvConnClose 6%positive])
  /\ exists s1,
       handleConn_enter 5%positive 6%positive Cases.listening
       = (true, s1, [EvLog Info "started serving ssh connection"])
       /\ 6%positive ∈ conns s1
       /\ handleConn_leave 5%positive 6%positive s1
          = (Cases.listening, [EvConnClose 6%positive]).
Proof.
  split.
  - apply (proj1 (handleConn_tracks_or_closes 9%positive 6%positive
                    Cases.listening)).
    right. by_computation.
  - apply (proj2 (handleConn_tracks_or_closes 5%positive 6%positive
                    Cases.listening)); by_computation.
Defined.

(** The VS Code session of the sample leaves the counters at zero. *)
Lemma sessionHandler_restores_counters_witness :
  accepted Sample.serving Cases.vscode = true
  /\ Server_ConnStats
       (runHandler Sample.host Sample.cfg Sample.oracle Sample.serving
          Cases.vscode).1.2
     = mkConnStats 0 0 0
  /\ 1%positive ∉ sessions
       (runHandler Sample.host Sample.cfg Sample.oracle Sample.serving
          Cases.vscode).1.2.
Proof.
  destruct (sessionHandler_restores_counters Sample.host Sample.cfg
              Sample.oracle Sample.serving Cases.vscode)
    as (H1 & _ & _ & _ & _ & _ & _ & H8).
  split; [reflexivity|]. split; [exact H1|exact (H8 eq_refl)].
Defined.

(** The session [echo hi] leaves the serving server as it was. *)
Lemma sessionHandler_leaves_server_witness :
  (runHandler Sample.host Sample.cfg Sample.oracle Sample.serving
     Sample.echo).1.2
  = Sample.serving.
Proof.
  apply sessionHandler_leaves_server; [by_computation|].
  intros p _. by_computation.
Defined.

(** A [Close] of the listening server closes the listener 5. *)
Lemma Close_closes_what_is_tracked_witness :
  exists s1 tr,
    Close_enter None Cases.listening = CloseRuns s1 tr None
    /\ 5%positive ∈ closedListeners tr
    /\ last tr = Some EvSrvClose.
Proof.
  destruct (Close_closes_what_is_tracked None Cases.listening eq_refl)
    as (s1 & tr & H & [_ Hl] & _ & _ & _ & Hlast & _).
  exists s1, tr. split; [exact H|]. split; [|exact Hlast].
  apply Hl. by_computation.
Defined.

(** The process 7 of the sample is untracked when its runner returns. *)
Lemma startNonPTYSession_untracks_witness :
  (7%positive ∉ processes
     (server (startNonPTYSession Sample.oracle Sample.shell
                (initSt Sample.serving)).1.2))
  /\ server (startNonPTYSession Sample.oracle Sample.shell
               (initSt Sample.serving)).1.2
     = Sample.serving.
Proof.
  destruct (startNonPTYSession_untracks Sample.oracle Sample.shell
              (initSt Sample.serving) 7%positive eq_refl eq_refl eq_refl)
    as (H1 & _ & H3 & _).
  split; [exact H1|]. apply H3. by_computation.
Defined.

(** A [Close] that hangs does not hold [Shutdown] back. *)
Lemma Shutdown_does_not_wait_for_Close_witness :
  Shutdown Cases.stuck
  = Some (Some (Wrapped "close server"
                  (ErrorString "context deadline exceeded")))
  /\ returnAt Cases.stuck = Some 3%nat.
Proof.
  apply (Shutdown_does_not_wait_for_Close Cases.stuck 2%nat eq_refl).
  intros k Hk. discriminate Hk.
Defined.

(** The error of [Close] comes back wrapped. *)
Lemma Shutdown_passes_on_Close_witness :
  Shutdown Cases.failed
  = Some (Some (Wrapped "close server" (ErrorString "ssh: server closed")))
  /\ returnAt Cases.failed = Some 3%nat.
Proof.
  exact (Shutdown_passes_on_Close Cases.failed 3%nat eq_refl eq_refl).
Defined.

(** The editor of the sample is started without banner or message. *)
Lemma command_session_shows_nothing_witness :
  exists err rest,
    (startPTYSession Sample.host Sample.cfg Sample.oracle Cases.vim
       Sample.shell (mkPty "xterm") (initSt Sample.serving)).2
    = EvDisablePTYEmulation
      :: EvStart (withEnv (Env Sample.shell ++ ["TERM=xterm"]) Sample.shell)
           true err
      :: rest.
Proof.
  apply (command_session_shows_nothing Sample.host Sample.cfg Sample.oracle
           Cases.vim Sample.shell (mkPty "xterm") (initSt Sample.serving)).
  by_computation.
Defined.

(** The subsystem gopher is refused with 1. *)
Lemma refused_session_disconnected_witness :
  disconnects (runHandler Sample.host Sample.cfg Sample.oracle Sample.serving
                 Cases.gopher).2
  = [(1, "unsupported subsystem: gopher")].
Proof.
  destruct (refused_session_disconnected Sample.host Sample.cfg Sample.oracle
              Sample.serving Cases.gopher RouteUnsupported eq_refl)
    as (_ & _ & H & _ & _ & Hreported).
  etransitivity; [exact (proj1 (H eq_refl))|].
  apply Hreported. by_computation.
Defined.

(** An sftp server that loses its connection: exit status and code 1. *)
Lemma sftp_session_disconnected_witness :
  disconnects
    (runHandler Sample.host Cases.cfgOpen
       (Cases.oracleSftp (Some (ErrorString "connection lost")))
       Sample.serving Cases.sftp).2
  = [(1, "sftp server closed with error: connection lost")].
Proof.
  destruct (sftp_session_disconnected Sample.host Cases.cfgOpen
              (Cases.oracleSftp (Some (ErrorString "connection lost")))
              Sample.serving Cases.sftp
              (Some (Wrapped "sftp server closed with error"
                       (ErrorString "connection lost")))
              eq_refl) as (_ & H & _ & Hreported).
  etransitivity; [exact (proj2 (proj2 H))|].
  apply Hreported. by_computation.
Defined.

(** A login shell that a signal kills: status 255, and -1 in the reason. *)
Lemma exec_session_disconnected_witness :
  disconnects
    (runHandler Sample.host Sample.cfg (Sample.oracleWith (Some Sample.killed))
       Sample.serving Sample.login).2
  = [(255, "process exited with error status: -1")].
Proof.
  assert (magicOf Sample.host Sample.login <> MagicSessionTypeJetBrains) as Hmagic
    by by_computation.
  exact (exec_session_disconnected Sample.host Sample.cfg
           (Sample.oracleWith (Some Sample.killed)) Sample.serving Sample.login
           (Fails (Wrapped "process wait" Sample.killed)) Hmagic eq_refl).
Defined.

(** The user that cannot be looked up. *)
Lemma CreateCommand_errors_witness :
  CreateCommand Sample.host Sample.cfg "echo hi" [] (Some Cases.nobody)
  = Fails (Wrapped "prepare command env"
             (Wrapped "get current user"
                (ErrorString "user: unknown userid 1000")))
  /\ User Cases.nobody = Err (ErrorString "user: unknown userid 1000").
Proof.
  assert (CreateCommand Sample.host Sample.cfg "echo hi" [] (Some Cases.nobody)
          = Fails (Wrapped "prepare command env"
                     (Wrapped "get current user"
                        (ErrorString "user: unknown userid 1000")))) as H
    by reflexivity.
  split; [exact H|].
  destruct (CreateCommand_errors Sample.host Sample.cfg "echo hi" []
              (Some Cases.nobody) _ H)
    as [(x & He & Hu)|[(u & x & He & _)|[(x & He & _)|[(x & He)|(x & He & _)]]]];
    try discriminate He.
  injection He as <-. exact Hu.
Defined.

(** The process 7, started while the sample server closes. *)
Lemma process_started_while_closing_witness :
  startNonPTYSession Sample.oracle Sample.shell (initSt Sample.closingServer)
  = (Some (Errorf "failed to track process" None),
     initSt Sample.closingServer,
     [EvStart (withCancel None Sample.shell) false None;
      EvCmdCancel 7%positive]).
Proof.
  apply (process_started_while_closing Sample.oracle Sample.shell
           (initSt Sample.closingServer) 7%positive);
    [by_computation|reflexivity|reflexivity].
Defined.

(** The editor is killed when the context of its session ends. *)
Lemma pty_process_ends_with_session_witness :
  exists c,
    starts (startPTYSession Sample.host Sample.cfg Sample.oracle Cases.vim
              Sample.shell (mkPty "xterm") (initSt Sample.serving)).2
    = [c]
    /\ contextDone c 8%positive (initSt Sample.serving)
       = (tt, initSt Sample.serving, [EvProcessSignal 8%positive "KILL"]).
Proof.
  destruct (pty_process_ends_with_session Sample.host Sample.cfg Sample.oracle
              Cases.vim Sample.shell (mkPty "xterm") (initSt Sample.serving))
    as (_ & c & Hs & _ & Hk).
  exists c. split; [exact Hs|]. apply Hk. reflexivity.
Defined.

(** Ten seconds of [MaxTimeout]: three keep-alives that fill them. *)
Lemma NewServer_timeouts_keep_alive_witness :
  ClientAliveCountMax (NewServer_timeouts (10 * Second)) = 3
  /\ srvMaxTimeout (NewServer_timeouts (10 * Second)) = 0
  /\ Second <= ClientAliveInterval (NewServer_timeouts (10 * Second))
  /\ 10 * Second - 2
     <= ClientAliveCountMax (NewServer_timeouts (10 * Second))
        * ClientAliveInterval (NewServer_timeouts (10 * Second))
     <= 10 * Second.
Proof.
  apply (proj1 (NewServer_timeouts_keep_alive (10 * Second))).
  unfold Second. lia.
Defined.

(** The [scp] of the sample, by its path. *)
Lemma fileTransferBlocked_whatever_the_directory_witness :
  fileTransferBlocked Sample.cfg Sample.scp = true.
Proof.
  apply (fileTransferBlocked_whatever_the_directory Sample.cfg Sample.scp
           "/usr/bin" "scp" ["-t"; "/tmp"]).
  - reflexivity.
  - apply list_elem_of_further, list_elem_of_further, list_elem_of_here.
  - left. reflexivity.
Defined.

(** The message of the day of the sample, with CR LF line ends. *)
Lemma writeWithCarriageReturn_keeps_crlf_witness :
  fold_right String.append ""
    (writes (writeWithCarriageReturn Sample.oracle
               (mkReader (crlfText ["Welcome"; "to coder"]) None)
               (initSt Sample.serving)).2)
  = crlfText ["Welcome"; "to coder"].
Proof.
  destruct (writeWithCarriageReturn_keeps_crlf Sample.oracle
              ["Welcome"; "to coder"] (initSt Sample.serving)) as (_ & _ & H).
  - intros n. reflexivity.
  - repeat constructor;
      try (intros Hin; apply list_elem_of_In in Hin; vm_compute in Hin;
           repeat (destruct Hin as [Hin|Hin]; [discriminate Hin|]);
           exact Hin).
  - exact H.
Defined.

(** The listening server of the sample has one goroutine to wait for. *)
Lemma wg_counts_what_is_tracked_witness :
  wg Cases.listening = Z.of_nat (trackedCount Cases.listening)
  /\ wg Cases.listening = 1.
Proof.
  split; [|reflexivity].
  apply wg_counts_what_is_tracked.
  eapply rtc_l; [apply HostSignerUpdated|].
  eapply rtc_l; [|apply rtc_refl].
  apply (ListenerEnters 5%positive (UpdateHostSigner NewServer));
    [by_computation|reflexivity].
Defined.

(** A PTY that cannot be closed makes a clean run fail. *)
Lemma startPTYSession_result_witness :
  (startPTYSession Sample.host Sample.cfg Cases.oracleCloseFails Cases.vim
     Sample.shell (mkPty "xterm") (initSt Sample.serving)).1.1
  = Some (ErrorString "close /dev/ptmx: input/output error").
Proof.
  apply (proj2 (startPTYSession_result Sample.host Sample.cfg
                  Cases.oracleCloseFails Cases.vim Sample.shell (mkPty "xterm")
                  (initSt Sample.serving)) 8%positive eq_refl).
  intros n. reflexivity.
Defined.
